(** * A2A handler: the JSON-RPC 2.0 style dispatcher of [app/agent/a2a_handler.py]

    A shallow embedding of [A2AHandler] (request mode and notification mode),
    of the pydantic models it parses and emits ([app/schemas/a2a_models.py])
    and of the handlers of [app/services/a2a_service.py] that the examples of
    the specification call.

    Python values are an inductive type, exceptions are values of [exn],
    and every method of the handler is a computation in a state-and-exception
    monad: the state carries whatever the registered handlers mutate, the
    logger's records and the list of handler invocations; [try ... except] is
    [try_except]. *)

From Stdlib Require Import ZArith String List Bool Lia.
From Stdlib Require Import Floats.PrimFloat Floats.FloatOps Floats.SpecFloat.
From Stdlib Require Import Numbers.DecimalString.
From stdpp Require Import gmap strings list.
Import ListNotations.

Local Open Scope string_scope.
Local Open Scope Z_scope.
Local Open Scope list_scope.

Set Warnings "-register-all".

(** ** Python values *)

(** [class A2ARequestContext]: [headers], [method] and [url] of the request. *)
Record A2ARequestContext := {
  ctx_headers : list (string * string);
  ctx_method : string;
  ctx_url : string
}.

(** The values that flow through the handler: what [json.loads] produces
    ([None], [bool], [int], [float], [str], [list], [dict] with string keys,
    in insertion order) and the context object that the dispatcher injects
    into the parameters.  A [str] is a [string]: its characters are the
    8-bit ones, and its length counts them. *)
Inductive pyval :=
| PNone
| PBool (b : bool)
| PInt (z : Z)
| PFloat (f : float)
| PStr (s : string)
| PList (l : list pyval)
| PDict (d : list (string * pyval))
| PContext (c : A2ARequestContext).

(** Python's truth value of an object: [bool(v)]. *)
Definition truthy (v : pyval) : bool :=
  match v with
  | PNone => false
  | PBool b => b
  | PInt z => negb (z =? 0)
  | PFloat f => negb (PrimFloat.eqb f 0%float)
  | PStr s => negb (String.eqb s "")
  | PList l => match l with [] => false | _ => true end
  | PDict d => match d with [] => false | _ => true end
  | PContext _ => true
  end.

(** [d.get(k)] on an insertion-ordered dict. *)
Fixpoint dict_get (k : string) (d : list (string * pyval)) : option pyval :=
  match d with
  | [] => None
  | (k', v) :: d' => if String.eqb k k' then Some v else dict_get k d'
  end.

(** [d[k] = v]: an existing key keeps its position, a new key goes last. *)
Fixpoint dict_set (k : string) (v : pyval) (d : list (string * pyval))
  : list (string * pyval) :=
  match d with
  | [] => [(k, v)]
  | (k', v') :: d' =>
      if String.eqb k k' then (k, v) :: d' else (k', v') :: dict_set k v d'
  end.

(** [str(n)] for an [int]. *)
Definition str_of_int (z : Z) : string := NilZero.string_of_int (Z.to_int z).

(** ** Exceptions *)

(** Instances of [Exception] that the dispatcher can meet.  [A2AError] is the
    protocol error of [a2a_models.py]; [ValidationError] is pydantic's, with
    the model's name and the fields that were refused; [OtherException] is any
    other subclass of [Exception], by class name and message.  What lies
    outside [Exception] (a cancellation, the exit of the interpreter) is
    caught by no [except Exception] and is not modelled. *)
Inductive exn :=
| JSONDecodeError (msg : string)
| ValueError (msg : string)
| TypeError (msg : string)
| AttributeError (msg : string)
| ValidationError (model : string) (fields : list string)
| A2AError (code : Z) (message : string) (data : pyval)
| OtherException (cls : string) (msg : string).

(** [A2AError.__init__] passes [f"[{code}] {message}"] to [Exception.__init__],
    and that is what [str(e)] returns. *)
Definition A2AError_str (code : Z) (message : string) : string :=
  "[" ++ str_of_int code ++ "] " ++ message.

(** What evaluating a Python expression gives: a value or a raised exception. *)
Inductive outcome (A : Type) :=
| Ok (a : A)
| Raise (e : exn).
Arguments Ok {A} a.
Arguments Raise {A} e.

(** The inbound [fastapi.Request] as the handler uses it: what awaiting
    [request.json()] gives (the decoded body, or the exception it raises,
    [JSONDecodeError] for a body that is not JSON), and the headers, method
    and URL that [A2ARequestContext] copies. *)
Record Request := {
  request_json : outcome pyval;
  request_headers : list (string * string);
  request_method : string;
  request_url : string
}.

(** [A2ARequestContext.__init__]. *)
Definition new_context (request : Request) : A2ARequestContext :=
  {| ctx_headers := request_headers request;
     ctx_method := request_method request;
     ctx_url := request_url request |}.

(** ** The pydantic models of [a2a_models.py] *)

(** [class ErrorType(str, Enum)]. *)
Inductive ErrorType :=
| VALIDATION_ERROR
| NOT_FOUND
| UNAUTHORIZED
| FORBIDDEN
| INTERNAL_ERROR
| BAD_REQUEST
| SERVICE_UNAVAILABLE.

(** The enum member's value, which is what reaches the wire. *)
Definition ErrorType_value (t : ErrorType) : string :=
  match t with
  | VALIDATION_ERROR => "validation_error"
  | NOT_FOUND => "not_found"
  | UNAUTHORIZED => "unauthorized"
  | FORBIDDEN => "forbidden"
  | INTERNAL_ERROR => "internal_error"
  | BAD_REQUEST => "bad_request"
  | SERVICE_UNAVAILABLE => "service_unavailable"
  end.

(** The entries of a dump that [exclude_none=True] keeps. *)
Definition opt_entry (k : string) (v : option pyval) : list (string * pyval) :=
  match v with
  | None => []
  | Some PNone => []
  | Some x => [(k, x)]
  end.

Module ErrorDetail.
(** [class ErrorDetail(BaseModel)]. *)
Record t := {
  type : ErrorType;
  message : string;
  field : option string;
  value : option pyval;
  suggestion : option string
}.

(** [model_dump(exclude_none=True)], fields in declaration order. *)
Definition model_dump (e : t) : pyval :=
  PDict ([("type", PStr (ErrorType_value (type e)));
          ("message", PStr (message e))]
         ++ opt_entry "field" (option_map PStr (field e))
         ++ opt_entry "value" (value e)
         ++ opt_entry "suggestion" (option_map PStr (suggestion e))).
End ErrorDetail.

Module ErrorResponse.
(** [class ErrorResponse(BaseModel)]. *)
Record t := {
  success : bool;
  error : ErrorDetail.t;
  meta : option (list (string * pyval))
}.

(** [ErrorResponse.create]: the detail is built from the arguments, and
    [meta or {}] stores the empty dict for a [meta] that is [None] or empty. *)
Definition create (error_type : ErrorType) (message : string)
    (field : option string) (value : option pyval)
    (suggestion : option string) (meta : option (list (string * pyval))) : t :=
  {| success := false;
     error := {| ErrorDetail.type := error_type;
                 ErrorDetail.message := message;
                 ErrorDetail.field := field;
                 ErrorDetail.value := value;
                 ErrorDetail.suggestion := suggestion |};
     meta := Some (match meta with
                   | Some m => m
                   | None => []
                   end) |}.

(** [model_dump(exclude_none=True)]: the nested model is dumped too. *)
Definition model_dump (r : t) : pyval :=
  PDict ([("success", PBool (success r));
          ("error", ErrorDetail.model_dump (error r))]
         ++ opt_entry "meta" (option_map PDict (meta r))).
End ErrorResponse.

(** pydantic's validation of one field, [None] when the value is refused.
    The [option pyval] argument is the keyword argument, absent or given. *)

(** [str]: only a [str] is taken. *)
Definition validate_str (v : pyval) : option string :=
  match v with
  | PStr s => Some s
  | _ => None
  end.

Inductive params_value :=
| ParamsDict (d : list (string * pyval))
| ParamsList (l : list pyval).

(** [Optional[Union[Dict[str, Any], List[Any]]]]. *)
Definition validate_params (v : pyval) : option (option params_value) :=
  match v with
  | PNone => Some None
  | PDict d => Some (Some (ParamsDict d))
  | PList l => Some (Some (ParamsList l))
  | _ => None
  end.

Inductive id_value :=
| IdStr (s : string)
| IdInt (z : Z).

(** The integer a float stands for, when it is finite and has no fractional
    part. *)
Definition float_integral (f : float) : option Z :=
  match Prim2SF f with
  | S754_zero _ => Some 0
  | S754_finite s m e =>
      let v :=
        if 0 <=? e then Some (Z.pos m * 2 ^ e)
        else if Z.pos m mod 2 ^ (- e) =? 0 then Some (Z.pos m / 2 ^ (- e))
        else None in
      match v with
      | Some z => Some (if s then - z else z)
      | None => None
      end
  | _ => None
  end.

(** [Optional[Union[str, int, None]]]: a [str] and an [int] are kept as they
    are; no member takes a [bool] or a [float] strictly, and [int] then takes
    them leniently, a [bool] as 0 or 1 and a [float] that is integral and
    within 64 bits as that integer. *)
Definition validate_id (v : pyval) : option (option id_value) :=
  match v with
  | PNone => Some None
  | PStr s => Some (Some (IdStr s))
  | PInt z => Some (Some (IdInt z))
  | PBool b => Some (Some (IdInt (if b then 1 else 0)))
  | PFloat f =>
      match float_integral f with
      | Some z =>
          if (- 2 ^ 63 <? z) && (z <? 2 ^ 63) then Some (Some (IdInt z)) else None
      | None => None
      end
  | _ => None
  end.

(** [id: None = None] of [A2ANotification]: nothing but [None] is taken. *)
Definition validate_none (v : pyval) : option unit :=
  match v with
  | PNone => Some tt
  | _ => None
  end.

(** A field that has a default: the default when the keyword is absent. *)
Definition with_default {A} (validate : pyval -> option A) (default : A)
    (v : option pyval) : option A :=
  match v with
  | None => Some default
  | Some x => validate x
  end.

(** A required field: refused when the keyword is absent. *)
Definition required {A} (validate : pyval -> option A) (v : option pyval)
  : option A :=
  match v with
  | None => None
  | Some x => validate x
  end.

(** The name of a field whose value was refused. *)
Definition refused {A} (name : string) (r : option A) : list string :=
  match r with
  | None => [name]
  | Some _ => []
  end.

Definition id_to_py (i : option id_value) : pyval :=
  match i with
  | None => PNone
  | Some (IdStr s) => PStr s
  | Some (IdInt z) => PInt z
  end.

Module A2ARequest.
(** [class A2ARequest(BaseModel)]. *)
Record t := {
  jsonrpc : string;
  method : string;
  params : option params_value;
  id : option id_value
}.

(** [A2ARequest( **data)]: the double star needs a mapping; unknown keys are ignored;
    every refused field is reported in one [ValidationError]. *)
Definition new (data : pyval) : outcome t :=
  match data with
  | PDict d =>
      let j := with_default validate_str "2.0" (dict_get "jsonrpc" d) in
      let m := required validate_str (dict_get "method" d) in
      let p := with_default validate_params None (dict_get "params" d) in
      let i := with_default validate_id None (dict_get "id" d) in
      match j, m, p, i with
      | Some j', Some m', Some p', Some i' =>
          Ok {| jsonrpc := j'; method := m'; params := p'; id := i' |}
      | _, _, _, _ =>
          Raise (ValidationError "A2ARequest"
                   (refused "jsonrpc" j ++ refused "method" m
                    ++ refused "params" p ++ refused "id" i))
      end
  | _ => Raise (TypeError "argument after ** must be a mapping")
  end.
End A2ARequest.

Module A2ANotification.
(** [class A2ANotification(A2ARequest)] with [id: None = None]. *)
Record t := {
  jsonrpc : string;
  method : string;
  params : option params_value
}.

Definition new (data : pyval) : outcome t :=
  match data with
  | PDict d =>
      let j := with_default validate_str "2.0" (dict_get "jsonrpc" d) in
      let m := required validate_str (dict_get "method" d) in
      let p := with_default validate_params None (dict_get "params" d) in
      let i := with_default validate_none tt (dict_get "id" d) in
      match j, m, p, i with
      | Some j', Some m', Some p', Some _ =>
          Ok {| jsonrpc := j'; method := m'; params := p' |}
      | _, _, _, _ =>
          Raise (ValidationError "A2ANotification"
                   (refused "jsonrpc" j ++ refused "method" m
                    ++ refused "params" p ++ refused "id" i))
      end
  | _ => Raise (TypeError "argument after ** must be a mapping")
  end.
End A2ANotification.

(** ** [class A2AResult] *)

Module A2AResult.
(** The instance attributes set by [__init__]. *)
Record t := {
  self_success : bool;
  self_data : pyval;
  self_error : option ErrorResponse.t
}.

(** The class methods [success] and [error]. *)
Definition success (data : pyval) : t :=
  {| self_success := true; self_data := data; self_error := None |}.

Definition error (e : ErrorResponse.t) : t :=
  {| self_success := false; self_data := PNone; self_error := Some e |}.

(** [to_dict]: on failure the whole [ErrorResponse] is dumped under
    ["error"]; [None.model_dump] would be an [AttributeError]. *)
Definition to_dict (r : t) : outcome pyval :=
  if self_success r then
    Ok (PDict [("success", PBool true); ("data", self_data r)])
  else
    match self_error r with
    | Some e =>
        Ok (PDict [("success", PBool false);
                   ("error", ErrorResponse.model_dump e)])
    | None => Raise (AttributeError "'NoneType' object has no attribute 'model_dump'")
    end.
End A2AResult.

(** ** Logging *)

Inductive level := WARNING | ERROR.

(** One record of the module's logger.  [lr_msg] is the literal part of the
    message; [lr_exc] is the exception whose [str] the source interpolates at
    the end of the message or that [logger.exception] attaches to it. *)
Record log_record := {
  lr_level : level;
  lr_msg : string;
  lr_exc : option exn
}.

(** ** Handlers and the state of a dispatch *)

(** How a handler is called: with keyword arguments or with positional arguments. *)
Inductive call_args :=
| Kwargs (kw : list (string * pyval))
| Args (args : list pyval).

Section Dispatcher.

(** Whatever the registered handlers read and mutate. *)
Context {World : Type}.

(** A registered callable: its [__annotations__] (absent on a callable that
    has none) and what awaiting the call does to the world. *)
Record handler := {
  h_annotations : option (list string);
  h_call : call_args -> World -> outcome pyval * World
}.

Record state := {
  st_world : World;
  st_log : list log_record;
  st_calls : list (string * call_args)
}.

(** Computations that read and write the state and may raise. *)
Definition M (A : Type) : Type := state -> outcome A * state.

Definition ret {A} (a : A) : M A := fun st => (Ok a, st).

Definition bind {A B} (m : M A) (k : A -> M B) : M B :=
  fun st =>
    match m st with
    | (Ok a, st') => k a st'
    | (Raise e, st') => (Raise e, st')
    end.

Definition raise {A} (e : exn) : M A := fun st => (Raise e, st).

(** [try: m  except Exception as e: h e]. *)
Definition try_except {A} (m : M A) (h : exn -> M A) : M A :=
  fun st =>
    match m st with
    | (Ok a, st') => (Ok a, st')
    | (Raise e, st') => h e st'
    end.

Definition lift {A} (o : outcome A) : M A := fun st => (o, st).

Definition emit (lvl : level) (msg : string) (exc : option exn) : M unit :=
  fun st =>
    (Ok tt,
     {| st_world := st_world st;
        st_log := st_log st ++ [{| lr_level := lvl; lr_msg := msg; lr_exc := exc |}];
        st_calls := st_calls st |}).

(** [logger.warning(msg)], [logger.error(msg)], [logger.exception(msg)]. *)
Definition logger_warning (msg : string) : M unit := emit WARNING msg None.
Definition logger_error (msg : string) (exc : option exn) : M unit := emit ERROR msg exc.
Definition logger_exception (msg : string) (e : exn) : M unit := emit ERROR msg (Some e).

(** [await handler(...)]: the call is recorded, then run on the world. *)
Definition await_handler (name : string) (h : handler) (a : call_args) : M pyval :=
  fun st =>
    let (r, w) := h_call h a (st_world st) in
    (r, {| st_world := w; st_log := st_log st; st_calls := st_calls st ++ [(name, a)] |}).

(** [for x in xs: r = await f(x); results.append(r)]. *)
Fixpoint for_each {A B} (f : A -> M B) (xs : list A) : M (list B) :=
  match xs with
  | [] => ret []
  | x :: xs' => bind (f x) (fun r => bind (for_each f xs') (fun rs => ret (r :: rs)))
  end.

Declare Scope py_scope.
Notation "'let*' x ':=' m 'in' k" := (bind m (fun x => k))
  (at level 10, x name, m at level 100, k at level 200, only parsing) : py_scope.
Local Open Scope py_scope.

(** ** [class A2AHandler] *)

Record A2AHandler := {
  _methods : gmap string handler
}.

(** [register_method]: [self._methods[name] = handler]. *)
Definition register_method (self : A2AHandler) (name : string) (h : handler)
  : A2AHandler :=
  {| _methods := <[name := h]> (_methods self) |}.

(** [error = ErrorResponse.create(error_type=..., message=..., suggestion=...)]
    followed by [return A2AResult.error(error).to_dict()]. *)
Definition error_result (error_type : ErrorType) (message suggestion : string)
  : M pyval :=
  lift (A2AResult.to_dict
          (A2AResult.error
             (ErrorResponse.create error_type message None None
                (Some suggestion) None))).

(** [params = a2a_request.params or {}]: an empty list is falsy too. *)
Definition params_or_empty (p : option params_value) : params_value :=
  match p with
  | None => ParamsDict []
  | Some (ParamsDict []) => ParamsDict []
  | Some (ParamsList []) => ParamsDict []
  | Some v => v
  end.

(** [handler.__annotations__]. *)
Definition get_annotations (h : handler) : M (list string) :=
  match h_annotations h with
  | Some a => ret a
  | None => raise (AttributeError "object has no attribute '__annotations__'")
  end.

(** [if 'context' in handler_signature: ...]. *)
Definition add_context (handler_signature : list string)
    (context : A2ARequestContext) (params : params_value) : params_value :=
  if existsb (String.eqb "context") handler_signature then
    match params with
    | ParamsDict d => ParamsDict (dict_set "context" (PContext context) d)
    | ParamsList l => ParamsList (l ++ [PContext context])
    end
  else params.

(** Keyword arguments for a dict, positional arguments otherwise. *)
Definition call_of (params : params_value) : call_args :=
  match params with
  | ParamsDict d => Kwargs d
  | ParamsList l => Args l
  end.

Definition _process_single_request (self : A2AHandler) (data : pyval)
    (request : Request) : M pyval :=
  try_except
    (let context := new_context request in
     let* a2a_request := lift (A2ARequest.new data) in
     match _methods self !! A2ARequest.method a2a_request with
     | None =>
         error_result NOT_FOUND
           ("Method '" ++ A2ARequest.method a2a_request ++ "' not found")
           "Check the method name and try again"
     | Some handler =>
         let params := params_or_empty (A2ARequest.params a2a_request) in
         let* handler_signature := get_annotations handler in
         let params := add_context handler_signature context params in
         try_except
           (let* result := await_handler (A2ARequest.method a2a_request) handler
                        (call_of params) in
            lift (A2AResult.to_dict
                    (A2AResult.success
                       (PDict [("jsonrpc", PStr "2.0");
                               ("id", id_to_py (A2ARequest.id a2a_request));
                               ("result", result)]))))
           (fun e =>
              match e with
              | A2AError code message _ =>
                  let* _ := logger_error
                    ("A2A error in " ++ A2ARequest.method a2a_request ++ ": ")
                    (Some e) in
                  error_result BAD_REQUEST (A2AError_str code message)
                    "Check your request parameters and try again"
              | _ =>
                  let* _ := logger_exception
                    ("Error executing method " ++ A2ARequest.method a2a_request) e in
                  error_result INTERNAL_ERROR
                    ("Error executing " ++ A2ARequest.method a2a_request)
                    "Please try again later"
              end)
     end)
    (fun e =>
       let* _ := logger_exception "Error processing request: " e in
       error_result INTERNAL_ERROR
         "An error occurred while processing your request"
         "Please try again later").

(** [results[0] if len(results) == 1 else results]. *)
Definition unwrap_single (results : list pyval) : pyval :=
  match results with
  | [r] => r
  | _ => PList results
  end.

Definition handle_request (self : A2AHandler) (request : Request) : M pyval :=
  try_except
    (try_except
       (let* body := lift (request_json request) in
        if negb (truthy body) then raise (ValueError "Empty request body")
        else
          match body with
          | PList items =>
              let* results := for_each
                           (fun item => _process_single_request self item request)
                           items in
              ret (unwrap_single results)
          | _ => _process_single_request self body request
          end)
       (fun e =>
          match e with
          | JSONDecodeError _ =>
              let* _ := logger_error "Invalid JSON in request: " (Some e) in
              error_result BAD_REQUEST "Invalid JSON in request body"
                "Please check your request body is valid JSON"
          | _ =>
              let* _ := logger_exception "Error processing request: " e in
              error_result INTERNAL_ERROR
                "An error occurred while processing your request"
                "Please try again later"
          end))
    (fun e =>
       let* _ := logger_exception "Unexpected error in A2A handler" e in
       error_result INTERNAL_ERROR "An unexpected error occurred"
         "Please try again later").

Definition _process_single_notification (self : A2AHandler) (data : pyval)
    (request : Request) : M unit :=
  try_except
    (let context := new_context request in
     let* notification := lift (A2ANotification.new data) in
     match _methods self !! A2ANotification.method notification with
     | None =>
         logger_warning
           ("Notification method not found: " ++ A2ANotification.method notification)
     | Some handler =>
         let params := params_or_empty (A2ANotification.params notification) in
         let* handler_signature := get_annotations handler in
         let params := add_context handler_signature context params in
         try_except
           (let* _ := await_handler (A2ANotification.method notification) handler
                        (call_of params) in
            ret tt)
           (fun e =>
              logger_exception
                ("Error in notification handler "
                 ++ A2ANotification.method notification) e)
     end)
    (fun e => logger_exception "Error processing notification: " e).

Definition handle_notification (self : A2AHandler) (request : Request) : M unit :=
  try_except
    (let* data := lift (request_json request) in
     if negb (truthy data) then logger_warning "Received empty notification"
     else
       match data with
       | PList items =>
           let* _ := for_each
                       (fun item => _process_single_notification self item request)
                       items in
           ret tt
       | _ => _process_single_notification self data request
       end)
    (fun e =>
       match e with
       | JSONDecodeError _ => logger_error "Invalid JSON in notification: " (Some e)
       | _ => logger_exception "Error handling notification: " e
       end).

End Dispatcher.

(** ** The handlers of [A2AService] ([app/services/a2a_service.py]) *)

(** Binding a call to a signature of positional-or-keyword parameters (the
    bound method's, after [self]), each with its default if it has one:
    [None] where Python raises [TypeError]. *)
Fixpoint bind_positional (sig : list (string * option pyval)) (args : list pyval)
  : option (list pyval) :=
  match sig, args with
  | [], [] => Some []
  | [], _ :: _ => None
  | (_, Some dflt) :: sig', [] => option_map (cons dflt) (bind_positional sig' [])
  | (_, None) :: _, [] => None
  | _ :: sig', a :: args' => option_map (cons a) (bind_positional sig' args')
  end.

Fixpoint bind_keywords (sig : list (string * option pyval))
    (kw : list (string * pyval)) : option (list pyval) :=
  match sig with
  | [] => Some []
  | (name, dflt) :: sig' =>
      match dict_get name kw, dflt with
      | Some v, _ => option_map (cons v) (bind_keywords sig' kw)
      | None, Some v => option_map (cons v) (bind_keywords sig' kw)
      | None, None => None
      end
  end.

Definition bind_call (sig : list (string * option pyval)) (a : call_args)
  : option (list pyval) :=
  match a with
  | Args args => bind_positional sig args
  | Kwargs kw =>
      if forallb (fun kv => existsb (String.eqb (fst kv)) (map fst sig)) kw
      then bind_keywords sig kw
      else None
  end.

(** [len(v)]. *)
Definition py_len (v : pyval) : option Z :=
  match v with
  | PStr s => Some (Z.of_nat (String.length s))
  | PList l => Some (Z.of_nat (List.length l))
  | PDict d => Some (Z.of_nat (List.length d))
  | _ => None
  end.

Section A2AService.

Context {World : Type}.

(** [self._llm_service.get_response(message)] as [ai_chat] sees it: the text,
    or the [str] of the exception it raised. *)
Variable llm_get_response : pyval -> World -> (string + string) * World.

(** [self._llm_service._settings.mistral_model]. *)
Variable mistral_model : string.

(** [async def ping(self)]. *)
Definition ping (a : call_args) : outcome pyval :=
  match bind_call [] a with
  | Some _ =>
      Ok (PDict [("status", PStr "pong");
                 ("timestamp", PStr "2024-01-01T00:00:00Z");
                 ("agent", PStr "AI Code Reviewer")])
  | None => Raise (TypeError "ping() got unexpected arguments")
  end.

(** [async def echo(self, message: str)]. *)
Definition echo (a : call_args) : outcome pyval :=
  match bind_call [("message", None)] a with
  | Some [message] =>
      match py_len message with
      | Some n => Ok (PDict [("echo", message); ("length", PInt n)])
      | None => Raise (TypeError "object has no len()")
      end
  | _ => Raise (TypeError "echo() arguments do not match its signature")
  end.

(** [async def ai_chat(self, message: str, context: Optional[Dict[str, Any]] = None)]:
    every exception of the body, its own [A2AError] included, is raised again
    as [A2AError(-32603, f"Internal error: {str(e)}")]. *)
Definition ai_chat (a : call_args) (w : World) : outcome pyval * World :=
  match bind_call [("message", None); ("context", Some PNone)] a with
  | Some [message; context] =>
      if negb (truthy message) then
        (Raise (A2AError (-32603)
                  ("Internal error: "
                   ++ A2AError_str (-32602) "Invalid params: message is required")
                  PNone), w)
      else
        match llm_get_response message w with
        | (inl response, w') =>
            (Ok (PDict [("response", PStr response);
                        ("context", if truthy context then context else PDict []);
                        ("model", PStr mistral_model);
                        ("timestamp", PStr "2024-01-01T00:00:00Z")]), w')
        | (inr msg, w') =>
            (Raise (A2AError (-32603) ("Internal error: " ++ msg) PNone), w')
        end
  | _ => (Raise (TypeError "ai_chat() arguments do not match its signature"), w)
  end.

Definition pure_handler (annotations : list string)
    (f : call_args -> outcome pyval) : @handler World :=
  {| h_annotations := Some annotations;
     h_call := fun a w => (f a, w) |}.

(** The part of [_register_methods] that the examples use: [ping], [echo]
    and [ai.chat], registered in the source's order on an empty handler. *)
Definition _register_methods : @A2AHandler World :=
  register_method
    (register_method
       (register_method {| _methods := ∅ |} "ping" (pure_handler ["return"] ping))
       "echo" (pure_handler ["message"; "return"] echo))
    "ai.chat"
    {| h_annotations := Some ["message"; "context"; "return"];
       h_call := ai_chat |}.

End A2AService.

(** ** The shapes on the wire *)

(** The success envelope, written out:
    [{"success": True, "data": {"jsonrpc": "2.0", "id": id, "result": result}}]. *)
Definition success_envelope (id result : pyval) : pyval :=
  PDict [("success", PBool true);
         ("data", PDict [("jsonrpc", PStr "2.0"); ("id", id); ("result", result)])].

(** The error envelope, written out: the dump of the whole [ErrorResponse]
    sits under the outer ["error"] key, so the detail is one level further
    down, and its classification is keyed ["type"]. *)
Definition error_envelope (t : ErrorType) (message suggestion : string) : pyval :=
  PDict [("success", PBool false);
         ("error",
          PDict [("success", PBool false);
                 ("error",
                  PDict [("type", PStr (ErrorType_value t));
                         ("message", PStr message);
                         ("suggestion", PStr suggestion)]);
                 ("meta", PDict [])])].

Definition envelope (v : pyval) : Prop :=
  (exists i r, v = success_envelope i r)
  \/ (exists t m s, v = error_envelope t m s).

(** What [handle_request] may hand to the transport layer: one envelope, or
    the list of the envelopes of a batch. *)
Definition response (v : pyval) : Prop :=
  envelope v \/ (exists l, v = PList l /\ Forall envelope l).

(** The flat shape the specification's wire section writes for an error,
    keyed ["kind"]; it follows the specification's words, not the source. *)
Definition spec_error_envelope (kind message suggestion : string) : pyval :=
  PDict [("success", PBool false);
         ("error",
          PDict [("kind", PStr kind);
                 ("message", PStr message);
                 ("suggestion", PStr suggestion)])].

(** A unit of a batch that carries an ["id"] key with a value other than
    [None]: a request in the specification's sense, a notification otherwise. *)
Definition has_id (data : pyval) : bool :=
  match data with
  | PDict d =>
      match dict_get "id" d with
      | Some PNone => false
      | Some _ => true
      | None => false
      end
  | _ => false
  end.

Definition params_to_py (p : params_value) : pyval :=
  match p with
  | ParamsDict d => PDict d
  | ParamsList l => PList l
  end.

(** The state after logging one more record. *)
Definition logged {World} (st : @state World) (r : log_record) : state :=
  {| st_world := st_world st; st_log := st_log st ++ [r]; st_calls := st_calls st |}.

(** The state after a handler call that left the world as [w]. *)
Definition called {World} (st : @state World) (name : string) (a : call_args)
    (w : World) : state :=
  {| st_world := w; st_log := st_log st; st_calls := st_calls st ++ [(name, a)] |}.

(** The state in which the unit after [items] is processed: the units are
    run one after the other, each from the state its predecessor left. *)
Definition state_after {World} (self : @A2AHandler World) (request : Request)
    (items : list pyval) (st : state) : state :=
  fold_left (fun s item => snd (_process_single_request self item request s)) items st.

Definition notified_after {World} (self : @A2AHandler World) (request : Request)
    (items : list pyval) (st : state) : state :=
  fold_left (fun s item => snd (_process_single_notification self item request s))
    items st.

(** ** A concrete handler for the examples *)

(** A request with the given body, as the transport layer hands it over. *)
Definition request_of (body : outcome pyval) : Request :=
  {| request_json := body;
     request_headers := [("content-type", "application/json")];
     request_method := "POST";
     request_url := "http://testserver/a2a" |}.

(** An LLM backend that cannot be reached: [get_response] raises, with this
    text. *)
Definition llm_unavailable (_ : pyval) (w : unit) : (string + string) * unit :=
  (inr "Failed to get response from LLM service: connection refused", w).

(** The handler after [A2AService] registered its methods. *)
Definition service : @A2AHandler unit :=
  _register_methods llm_unavailable "mistral-small-latest".

Definition initial_state : @state unit :=
  {| st_world := tt; st_log := []; st_calls := [] |}.

(** The two-unit batch of the specification's last example. *)
Definition echo_unit (message : string) (id : Z) : pyval :=
  PDict [("jsonrpc", PStr "2.0"); ("method", PStr "echo");
         ("params", PDict [("message", PStr message)]); ("id", PInt id)].

(** A batch of one request and one notification. *)
Definition ping_notification : pyval :=
  PDict [("jsonrpc", PStr "2.0"); ("method", PStr "ping")].

Definition mixed_batch : list pyval := [echo_unit "hi" 1; ping_notification].

Definition pong : pyval :=
  PDict [("status", PStr "pong");
         ("timestamp", PStr "2024-01-01T00:00:00Z");
         ("agent", PStr "AI Code Reviewer")].

Definition nope_unit : pyval :=
  PDict [("jsonrpc", PStr "2.0"); ("method", PStr "nope"); ("id", PInt 1)].

Definition chat_unit (message : string) : pyval :=
  PDict [("jsonrpc", PStr "2.0"); ("method", PStr "ai.chat");
         ("params", PDict [("message", PStr message)]); ("id", PInt 1)].

(** [echo] called with a keyword it does not have. *)
Definition bad_echo_unit : pyval :=
  PDict [("jsonrpc", PStr "2.0"); ("method", PStr "echo");
         ("params", PDict [("text", PStr "hi")]); ("id", PInt 1)].

(** A unit without a ["method"]. *)
Definition methodless_unit : pyval :=
  PDict [("jsonrpc", PStr "2.0"); ("id", PInt 1)].

(** A notification that carries an [id]. *)
Definition ping_with_id : list (string * pyval) :=
  [("jsonrpc", PStr "2.0"); ("method", PStr "ping"); ("id", PInt 7)].

(** The call the dispatcher makes for a parsed request on a handler whose
    annotations are [sig]. *)
Definition dispatch_call (sig : list string) (request : Request)
    (params : option params_value) : call_args :=
  call_of (add_context sig (new_context request) (params_or_empty params)).

(** The answer [r] to the unit [data], processed in the state [st], is the
    [internal_error] envelope of the step that raised, for each step of
    [_process_single_request] that can raise something else than a protocol
    error: the parsing of the unit, the inspection of the handler, and the
    handler itself. *)
Definition failure_answered {World} (self : @A2AHandler World) (data : pyval)
    (request : Request) (st : @state World) (r : pyval) : Prop :=
  (forall e,
      A2ARequest.new data = Raise e ->
      r = error_envelope INTERNAL_ERROR
            "An error occurred while processing your request"
            "Please try again later")
  /\ (forall q h,
        A2ARequest.new data = Ok q ->
        _methods self !! A2ARequest.method q = Some h ->
        h_annotations h = None ->
        r = error_envelope INTERNAL_ERROR
              "An error occurred while processing your request"
              "Please try again later")
  /\ (forall q h sig e,
        A2ARequest.new data = Ok q ->
        _methods self !! A2ARequest.method q = Some h ->
        h_annotations h = Some sig ->
        fst (h_call h (dispatch_call sig request (A2ARequest.params q)) (st_world st))
        = Raise e ->
        (forall code message d, e <> A2AError code message d) ->
        r = error_envelope INTERNAL_ERROR
              ("Error executing " ++ A2ARequest.method q)
              "Please try again later").

(** ** Further definitions: requests *)


(** Whether the handler's annotations name a [context] parameter. *)
Definition accepts_context (sig : list string) : bool :=
  existsb (String.eqb "context") sig.

(** The number of units a decoded body holds. *)
Definition unit_count (body : outcome pyval) : nat :=
  match body with
  | Ok (PList items) => length items
  | Ok _ => 1
  | Raise _ => 0
  end.

(** ** Strings: whitespace *)

(** [c.isspace()] for a character below 256: tab to carriage return, the
    four separators, the space, NEL and the no-break space. *)
Definition py_isspace (c : Ascii.ascii) : bool :=
  let n := Ascii.nat_of_ascii c in
  ((9 <=? n) && (n <=? 13) || (28 <=? n) && (n <=? 32)
   || (n =? 133) || (n =? 160))%nat.

(** [s.lstrip()], [s.rstrip()] and [s.strip()]. *)
Fixpoint lstrip (s : string) : string :=
  match s with
  | EmptyString => EmptyString
  | String c s' => if py_isspace c then lstrip s' else s
  end.

Fixpoint rstrip (s : string) : string :=
  match s with
  | EmptyString => EmptyString
  | String c s' =>
      match rstrip s' with
      | EmptyString => if py_isspace c then EmptyString else String c EmptyString
      | r => String c r
      end
  end.

Definition strip (s : string) : string := rstrip (lstrip s).

(** A string of whitespace only. *)
Fixpoint all_space (s : string) : bool :=
  match s with
  | EmptyString => true
  | String c s' => py_isspace c && all_space s'
  end.

(** Whether the first, and the last, character is whitespace. *)
Definition starts_with_space (s : string) : bool :=
  match s with
  | EmptyString => false
  | String c _ => py_isspace c
  end.

Fixpoint ends_with_space (s : string) : bool :=
  match s with
  | EmptyString => false
  | String c EmptyString => py_isspace c
  | String _ s' => ends_with_space s'
  end.

(** ** [app/exceptions.py]: the application's exceptions *)

Module exceptions.
Inductive class := AppException | LLMServiceError | ValidationError | NotFoundError.

(** [type(e).__name__]. *)
Definition class_name (c : class) : string :=
  match c with
  | AppException => "AppException"
  | LLMServiceError => "LLMServiceError"
  | ValidationError => "ValidationError"
  | NotFoundError => "NotFoundError"
  end.

(** An instance: [message], [status_code] and [details] as
    [AppException.__init__] sets them; [str(e)] is the message. *)
Record t := {
  cls : class;
  message : string;
  status_code : Z;
  details : list (string * pyval)
}.

(** [details or {}]. *)
Definition details_or_empty (d : option (list (string * pyval)))
  : list (string * pyval) :=
  match d with
  | Some x => x
  | None => []
  end.

Definition new_LLMServiceError (message : string)
    (details : option (list (string * pyval))) : t :=
  {| cls := LLMServiceError; message := message; status_code := 503;
     details := details_or_empty details |}.

Definition new_ValidationError (message : string)
    (details : option (list (string * pyval))) : t :=
  {| cls := ValidationError; message := message; status_code := 422;
     details := details_or_empty details |}.

Definition new_NotFoundError (resource : string)
    (details : option (list (string * pyval))) : t :=
  {| cls := NotFoundError; message := resource ++ " not found"; status_code := 404;
     details := details_or_empty details |}.
End exceptions.

(** ** [class LLMService] ([app/services/llm_service.py]) *)

(** [ChatMessage(role=..., content=...)]. *)
Record ChatMessage := {
  role : string;
  content : string
}.

(** What [MistralClient.chat] gives: the contents of the messages of the
    choices, [None] for a message without content, or the exception it
    raises, by the name of its class and its [str]. *)
Inductive chat_result :=
| ChatResponse (choices : list (option string))
| ChatRaised (type_name : string) (text : string).

(** [_get_default_system_prompt]. *)
Definition _get_default_system_prompt : string :=
  "You are an **AI Code Reviewer and Helper Agent** for a developer platform. "
  ++ "Your task is to analyze the user's input, which is often a code snippet. "
  ++ "Based on the input, you should either: "
  ++ "1. Provide a concise, constructive review, suggesting improvements for best practices, or "
  ++ "2. Explain the code's purpose, or "
  ++ "3. Answer a question related to the provided code. "
  ++ "Keep your response professional, helpful, and format code using markdown blocks.".

(** The prompt of [health_check]. *)
Definition health_prompt : string :=
  "Hello! Are you working? Please respond with a short confirmation that you're operational.".

Section LLMService.

Context {World : Type}.

(** The service: its client, if it has one, as the function that
    [self._client.chat(model=..., messages=...)] is, and the model of its
    settings.  The records of the module's logger are left out. *)
Record LLMService := {
  _client : option (string -> list ChatMessage -> World -> chat_result * World);
  settings_mistral_model : string
}.

(** [LLMService.__init__] with [_initialize_client]: [api_key] is the
    setting, [make_client] is [MistralClient(api_key=...)], which gives the
    client or raises with the given [str]. *)
Definition new_LLMService (api_key : option string) (model : string)
    (make_client :
       string -> (string -> list ChatMessage -> World -> chat_result * World) + string)
  : LLMService + exceptions.t :=
  match api_key with
  | None =>
      inr (exceptions.new_LLMServiceError
             "MISTRAL_API_KEY environment variable is not set" None)
  | Some key =>
      if String.eqb key "" then
        inr (exceptions.new_LLMServiceError
               "MISTRAL_API_KEY environment variable is not set" None)
      else
        match make_client key with
        | inl chat => inl {| _client := Some chat; settings_mistral_model := model |}
        | inr text =>
            inr (exceptions.new_LLMServiceError
                   ("Failed to initialize Mistral client: " ++ text) None)
        end
  end.

(** The [except Exception as e] of [get_response]. *)
Definition failed_response (self : LLMService) (type_name text : string)
  : exceptions.t :=
  exceptions.new_LLMServiceError
    ("Failed to get response from LLM service: " ++ text)
    (Some [("model", PStr (settings_mistral_model self));
           ("error_type", PStr type_name)]).

(** [if not system_prompt: system_prompt = self._get_default_system_prompt()]. *)
Definition prompt_or_default (system_prompt : option string) : string :=
  match system_prompt with
  | None => _get_default_system_prompt
  | Some p => if String.eqb p "" then _get_default_system_prompt else p
  end.

(** The two messages of the chat call. *)
Definition chat_messages (system_prompt user_input : string) : list ChatMessage :=
  [{| role := "system"; content := system_prompt |};
   {| role := "user"; content := user_input |}].

(** [get_response(user_input, system_prompt=None)]: the text, or the
    exception raised. *)
Definition get_response (self : LLMService) (user_input : pyval)
    (system_prompt : option string) (w : World)
  : (string + exceptions.t) * World :=
  let invalid :=
    inr (exceptions.new_ValidationError "Input must be a non-empty string" None) in
  match user_input with
  | PStr s =>
      if String.eqb s "" then (invalid, w)
      else
        match _client self with
        | None =>
            (inr (exceptions.new_LLMServiceError
                    "LLM service is currently unavailable" None), w)
        | Some chat =>
            let system_prompt := prompt_or_default system_prompt in
            let messages := chat_messages system_prompt s in
            match chat (settings_mistral_model self) messages w with
            | (ChatResponse (Some c :: _), w') =>
                if String.eqb c "" then
                  (inr (failed_response self "LLMServiceError"
                          "Received empty response from LLM service"), w')
                else (inl (strip c), w')
            | (ChatResponse _, w') =>
                (inr (failed_response self "LLMServiceError"
                        "Received empty response from LLM service"), w')
            | (ChatRaised type_name text, w') =>
                (inr (failed_response self type_name text), w')
            end
        end
  | _ => (invalid, w)
  end.

(** [health_check]: never raises. *)
Definition health_check (self : LLMService) (w : World)
  : list (string * pyval) * World :=
  match get_response self (PStr health_prompt) None w with
  | (inl test_response, w') =>
      ([("status", PStr "healthy");
        ("model", PStr (settings_mistral_model self));
        ("response", PStr test_response)], w')
  | (inr e, w') =>
      ([("status", PStr "unhealthy");
        ("model", PStr (settings_mistral_model self));
        ("error", PStr (exceptions.message e))], w')
  end.

(** [A2AService.get_status]: the [KeyError] of [llm_health["status"]] is
    caught like any other exception of the body. *)
Definition get_status (self : LLMService) (a : call_args) (w : World)
  : outcome pyval * World :=
  match bind_call [] a with
  | Some _ =>
      let (llm_health, w') := health_check self w in
      match dict_get "status" llm_health with
      | Some status =>
          (Ok (PDict [("status", PStr "online");
                      ("health",
                       PStr (match status with
                             | PStr s => if String.eqb s "healthy" then "healthy"
                                         else "degraded"
                             | _ => "degraded"
                             end));
                      ("services", PDict [("llm", PDict llm_health)]);
                      ("uptime", PStr "unknown");
                      ("load", PStr "normal")]), w')
      | None =>
          (Ok (PDict [("status", PStr "online");
                      ("health", PStr "degraded");
                      ("error", PStr "'status'")]), w')
      end
  | None => (Raise (TypeError "get_status() got unexpected arguments"), w)
  end.

(** [self._llm_service.get_response(message)] as [ai_chat] uses it: the text,
    or the [str] of the exception. *)
Definition llm_text (self : LLMService) (message : pyval) (w : World)
  : (string + string) * World :=
  match get_response self message None w with
  | (inl text, w') => (inl text, w')
  | (inr e, w') => (inr (exceptions.message e), w')
  end.

(** The handler with the methods modelled here, on this service: those of
    [_register_methods] above and [status]. *)
Definition a2a_service (self : LLMService) : @A2AHandler World :=
  register_method
    (_register_methods (llm_text self) (settings_mistral_model self))
    "status"
    {| h_annotations := Some ["return"]; h_call := get_status self |}.

End LLMService.

(** ** [app/exceptions.py]: the exception handlers *)

Module HTTPException.
(** [fastapi.HTTPException(status_code=..., detail=...)]. *)
Record t := {
  status_code : Z;
  detail : pyval
}.
End HTTPException.

Module JSONResponse.
(** [JSONResponse(status_code=..., content=...)]. *)
Record t := {
  status_code : Z;
  content : pyval
}.
End JSONResponse.

(** [http_exception_handler]: the detail becomes the message of an
    [ErrorDetail], whose validation takes a [str] only. *)
Definition http_exception_handler (exc : HTTPException.t) : outcome JSONResponse.t :=
  match HTTPException.detail exc with
  | PStr detail =>
      Ok {| JSONResponse.status_code := HTTPException.status_code exc;
            JSONResponse.content :=
              ErrorResponse.model_dump
                (ErrorResponse.create
                   (if HTTPException.status_code exc =? 400 then BAD_REQUEST
                    else INTERNAL_ERROR)
                   detail None None
                   (Some "Please check your request and try again") None) |}
  | _ => Raise (ValidationError "ErrorDetail" ["message"])
  end.

(** [app_exception_handler]. *)
Definition app_exception_handler (exc : exceptions.t) : JSONResponse.t :=
  {| JSONResponse.status_code := exceptions.status_code exc;
     JSONResponse.content :=
       ErrorResponse.model_dump
         (ErrorResponse.create INTERNAL_ERROR (exceptions.message exc) None None
            (Some "Please try again later") None) |}.

(** [generic_exception_handler]. *)
Definition generic_exception_handler : JSONResponse.t :=
  {| JSONResponse.status_code := 500;
     JSONResponse.content :=
       ErrorResponse.model_dump
         (ErrorResponse.create INTERNAL_ERROR "An unexpected error occurred"
            None None
            (Some "Please try again later or contact support if the issue persists")
            None) |}.

(** The body of the handlers, written out: the dump of an [ErrorResponse]. *)
Definition error_body (t : ErrorType) (message suggestion : string) : pyval :=
  PDict [("success", PBool false);
         ("error",
          PDict [("type", PStr (ErrorType_value t));
                 ("message", PStr message);
                 ("suggestion", PStr suggestion)]);
         ("meta", PDict [])].

(** ** The other factories of [ErrorResponse] ([a2a_models.py]) *)

(** [suggestion or default]. *)
Definition suggestion_or (suggestion : option string) (default : string) : string :=
  match suggestion with
  | None => default
  | Some s => if String.eqb s "" then default else s
  end.

(** [ErrorResponse.validation_error]. *)
Definition ErrorResponse_validation_error (message : string)
    (field : option string) (value : option pyval) (suggestion : option string)
  : ErrorResponse.t :=
  ErrorResponse.create VALIDATION_ERROR message field value suggestion None.

(** [ErrorResponse.internal_error]. *)
Definition ErrorResponse_internal_error (message : string)
    (suggestion : option string) : ErrorResponse.t :=
  ErrorResponse.create INTERNAL_ERROR message None None
    (Some (suggestion_or suggestion
             "Please try again later or contact support if the problem persists."))
    None.

(** [ErrorResponse.not_found]: [id_text] is the [str] of an [id] that is not
    [None], as the f-string formats it. *)
Definition ErrorResponse_not_found (resource : string) (id_text : option string)
    (suggestion : option string) : ErrorResponse.t :=
  ErrorResponse.create NOT_FOUND
    (match id_text with
     | None => resource ++ " not found"
     | Some i => resource ++ " not found" ++ " with id: " ++ i
     end)
    None None
    (Some (suggestion_or suggestion "Please check the resource ID and try again."))
    None.

(** ** The routes ([app/api/routes.py], [app/api/a2a_routes.py]) *)

Module WebhookMessage.
(** [class WebhookMessage(BaseModel)], validated by the framework. *)
Record t := {
  channel_id : string;
  sender_id : string;
  content : string;
  timestamp : option string;
  event_type : string
}.
End WebhookMessage.

Module TelexResponse.
(** [class TelexResponse(BaseModel)]. *)
Record t := {
  channel_id : string;
  recipient_id : string;
  response_type : string;
  content : string
}.
End TelexResponse.

(** What an endpoint of the A2A router gives the framework: a value to
    encode, or a response it built itself. *)
Inductive endpoint_result :=
| Returned (v : pyval)
| Responded (r : JSONResponse.t).

Section Routes.

Context {World : Type}.

(** [TelexService.process_message]: a model object is always true, so the
    guard is on the content; whatever [get_response] raises is raised
    again. *)
Definition process_message (llm : LLMService) (message : WebhookMessage.t)
    (w : World) : (TelexResponse.t + exceptions.t) * World :=
  if String.eqb (WebhookMessage.content message) "" then
    (inr (exceptions.new_ValidationError "Empty message received" None), w)
  else
    match get_response llm (PStr (WebhookMessage.content message)) None w with
    | (inl ai_response, w') =>
        (inl {| TelexResponse.channel_id := WebhookMessage.channel_id message;
                TelexResponse.recipient_id := WebhookMessage.sender_id message;
                TelexResponse.response_type := "message";
                TelexResponse.content := ai_response |}, w')
    | (inr e, w') => (inr e, w')
    end.

(** The [except] clauses of [telex_webhook_handler]. *)
Definition webhook_failure (e : exceptions.t) : HTTPException.t :=
  match exceptions.cls e with
  | exceptions.ValidationError =>
      {| HTTPException.status_code := 422;
         HTTPException.detail := PStr (exceptions.message e) |}
  | exceptions.LLMServiceError =>
      {| HTTPException.status_code := 503;
         HTTPException.detail := PStr (exceptions.message e) |}
  | _ =>
      {| HTTPException.status_code := 500;
         HTTPException.detail := PStr "An unexpected error occurred" |}
  end.

(** [telex_webhook_handler]: [service] is what [get_llm_service()] gives
    when the Telex service is built, the instance or the exception of its
    construction. *)
Definition telex_webhook_handler (service : LLMService + exceptions.t)
    (message : WebhookMessage.t) (w : World)
  : (TelexResponse.t + HTTPException.t) * World :=
  match service with
  | inl llm =>
      match process_message llm message w with
      | (inl response, w') => (inl response, w')
      | (inr e, w') => (inr (webhook_failure e), w')
      end
  | inr e => (inr (webhook_failure e), w)
  end.

(** The [/health] endpoint, [health_check] of [routes.py]. *)
Definition health_endpoint (service : LLMService + exceptions.t) (w : World)
  : pyval * World :=
  match service with
  | inl llm =>
      let (llm_health, w') := health_check llm w in
      (PDict [("status", PStr "healthy");
              ("services", PDict [("llm", PDict llm_health)])], w')
  | inr e =>
      (PDict [("status", PStr "degraded");
              ("error", PStr (exceptions.message e))], w)
  end.

(** The [/a2a/chat] endpoint, [ai_chat] of [routes.py]. *)
Definition chat_endpoint (service : LLMService + exceptions.t) (message : string)
    (context : option (list (string * pyval))) (w : World)
  : (pyval + HTTPException.t) * World :=
  match service with
  | inl llm =>
      match get_response llm (PStr message) None w with
      | (inl response, w') =>
          (inl (PDict [("response", PStr response);
                       ("context", PDict (match context with
                                          | Some c => c
                                          | None => []
                                          end))]), w')
      | (inr e, w') =>
          (inr {| HTTPException.status_code := 500;
                  HTTPException.detail := PStr (exceptions.message e) |}, w')
      end
  | inr e =>
      (inr {| HTTPException.status_code := 500;
              HTTPException.detail := PStr (exceptions.message e) |}, w)
  end.

(** [a2a_endpoint] of [a2a_routes.py].  Each of its three [except] clauses
    calls [ErrorResponse.create] with a keyword [details], which [create]
    does not take: the clause raises [TypeError] before it builds its
    response.  The records of the route's logger are left out. *)
Definition a2a_endpoint (self : A2AHandler) (request : Request)
  : @M World endpoint_result :=
  try_except
    (bind (handle_request self request) (fun response => ret (Returned response)))
    (fun e =>
       raise (TypeError "create() got an unexpected keyword argument 'details'")).

End Routes.

(** ** The other handlers of [A2AService] *)

(** The line feed of the prompts. *)
Definition nl : string := String (Ascii.ascii_of_nat 10) EmptyString.

(** [len(s.split())]: the number of maximal runs without whitespace. *)
Fixpoint count_words (in_word : bool) (s : string) : nat :=
  match s with
  | EmptyString => 0
  | String c s' =>
      if py_isspace c then count_words false s'
      else ((if in_word then 0 else 1) + count_words true s')%nat
  end.

(** [v == "literal"]. *)
Definition py_eq_str (v : pyval) (s : string) : bool :=
  match v with
  | PStr s' => String.eqb s' s
  | _ => false
  end.

(** [type(v).__name__]. *)
Definition py_type_name (v : pyval) : string :=
  match v with
  | PNone => "NoneType"
  | PBool _ => "bool"
  | PInt _ => "int"
  | PFloat _ => "float"
  | PStr _ => "str"
  | PList _ => "list"
  | PDict _ => "dict"
  | PContext _ => "A2ARequestContext"
  end.

(** The protocol error that the [except Exception as e] of a handler raises:
    [A2AError(-32603, f"Internal error: {str(e)}")]. *)
Definition internal_error_of (text : string) : exn :=
  A2AError (-32603) ("Internal error: " ++ text) PNone.

(** The methods that [get_capabilities] lists. *)
Definition advertised_methods : list string :=
  ["ping"; "echo"; "capabilities"; "status"; "ai.chat"; "ai.complete";
   "ai.review_code"; "ai.explain_code"; "task.create"; "task.status";
   "task.cancel"].

(** [async def get_capabilities(self)]. *)
Definition get_capabilities (a : call_args) : outcome pyval :=
  match bind_call [] a with
  | Some _ =>
      Ok (PDict [("agent_type", PStr "ai_code_reviewer");
                 ("version", PStr "1.0.0");
                 ("capabilities",
                  PList [PStr "code_review"; PStr "code_explanation";
                         PStr "ai_chat"; PStr "text_completion"]);
                 ("supported_languages",
                  PList [PStr "python"; PStr "javascript"; PStr "typescript";
                         PStr "java"; PStr "go"; PStr "rust"; PStr "c++";
                         PStr "c#"]);
                 ("methods", PList (map PStr advertised_methods))])
  | None => Raise (TypeError "get_capabilities() got unexpected arguments")
  end.

(** [async def get_task_status(self, task_id: str)]. *)
Definition get_task_status (a : call_args) : outcome pyval :=
  match bind_call [("task_id", None)] a with
  | Some [task_id] =>
      Ok (PDict [("task_id", task_id);
                 ("status", PStr "completed");
                 ("message", PStr "Task status tracking not fully implemented")])
  | _ => Raise (TypeError "get_task_status() arguments do not match its signature")
  end.

(** [async def cancel_task(self, task_id: str)]. *)
Definition cancel_task (a : call_args) : outcome pyval :=
  match bind_call [("task_id", None)] a with
  | Some [task_id] =>
      Ok (PDict [("task_id", task_id);
                 ("status", PStr "cancelled");
                 ("message", PStr "Task cancellation not fully implemented")])
  | _ => Raise (TypeError "cancel_task() arguments do not match its signature")
  end.

Section AIHandlers.

Context {World : Type}.

Variable llm : @LLMService World.

(** [str(v)] for a value that is not a [str], as an f-string formats it. *)
Variable py_str : pyval -> string.

(** [str(e)] for an exception that is not an [A2AError]. *)
Variable exception_str : exn -> string.

(** [str(hash(str(params)))]. *)
Variable hash_text : pyval -> string.

(** [f"{v}"]. *)
Definition py_format (v : pyval) : string :=
  match v with
  | PStr s => s
  | _ => py_str v
  end.

(** [str(e)]. *)
Definition exn_text (e : exn) : string :=
  match e with
  | A2AError code message _ => A2AError_str code message
  | _ => exception_str e
  end.

(** [len(v)] inside a handler: the length, or the text of the [TypeError]. *)
Definition len_or_text (v : pyval) : Z + string :=
  match py_len v with
  | Some n => inl n
  | None => inr ("object of type '" ++ py_type_name v ++ "' has no len()")%string
  end.

(** [language or 'code']. *)
Definition language_or_code (language : pyval) : pyval :=
  if truthy language then language else PStr "code".

(** The prompts about a piece of code:
    [f"Please review this {language or 'code'}:\n\n```\n{code}\n```"]. *)
Definition code_prompt (verb : string) (language code : pyval) : string :=
  "Please " ++ verb ++ " this " ++ py_format (language_or_code language) ++ ":"
  ++ nl ++ nl ++ "```" ++ nl ++ py_format code ++ nl ++ "```".

Definition complete_system_prompt : string :=
  "You are a helpful AI assistant. Complete the given text naturally and coherently. "
  ++ "Provide only the completion, not the original prompt.".

Definition review_system_prompt : string :=
  "You are an expert code reviewer. Analyze the provided code and give constructive feedback. "
  ++ "Focus on: 1) Code quality and best practices, 2) Potential bugs or issues, "
  ++ "3) Performance improvements, 4) Security considerations. "
  ++ "Provide specific, actionable suggestions.".

Definition explain_system_prompt : string :=
  "You are a helpful programming tutor. Explain the provided code clearly and concisely. "
  ++ "Break down what each part does, explain the logic flow, and mention any important concepts. "
  ++ "Make it understandable for developers at different skill levels.".

(** [async def ai_complete(self, prompt: str, max_tokens: Optional[int] = None)]. *)
Definition ai_complete (a : call_args) (w : World) : outcome pyval * World :=
  match bind_call [("prompt", None); ("max_tokens", Some PNone)] a with
  | Some [prompt; max_tokens] =>
      if negb (truthy prompt) then
        (Raise (internal_error_of
                  (A2AError_str (-32602) "Invalid params: prompt is required")), w)
      else
        match get_response llm prompt (Some complete_system_prompt) w with
        | (inl response, w') =>
            (Ok (PDict [("completion", PStr response);
                        ("model", PStr (settings_mistral_model llm));
                        ("tokens_used", PInt (Z.of_nat (count_words false response)));
                        ("timestamp", PStr "2024-01-01T00:00:00Z")]), w')
        | (inr e, w') => (Raise (internal_error_of (exceptions.message e)), w')
        end
  | _ => (Raise (TypeError "ai_complete() arguments do not match its signature"), w)
  end.

(** The body that [ai_review_code] and [ai_explain_code] share, up to the
    verb of the prompt, the system prompt and the key of the result. *)
Definition code_handler (verb system_prompt key : string) (code language : pyval)
    (w : World) : outcome pyval * World :=
  if negb (truthy code) then
    (Raise (internal_error_of
              (A2AError_str (-32602) "Invalid params: code is required")), w)
  else
    match get_response llm (PStr (code_prompt verb language code))
            (Some system_prompt) w with
    | (inl text, w') =>
        match len_or_text code with
        | inl n =>
            (Ok (PDict [(key, PStr text);
                        ("language", language);
                        ("code_length", PInt n);
                        ("timestamp", PStr "2024-01-01T00:00:00Z")]), w')
        | inr error => (Raise (internal_error_of error), w')
        end
    | (inr e, w') => (Raise (internal_error_of (exceptions.message e)), w')
    end.

(** [async def ai_review_code(self, code: str, language: Optional[str] = None)]. *)
Definition ai_review_code (a : call_args) (w : World) : outcome pyval * World :=
  match bind_call [("code", None); ("language", Some PNone)] a with
  | Some [code; language] =>
      code_handler "review" review_system_prompt "review" code language w
  | _ => (Raise (TypeError "ai_review_code() arguments do not match its signature"), w)
  end.

(** [async def ai_explain_code(self, code: str, language: Optional[str] = None)]. *)
Definition ai_explain_code (a : call_args) (w : World) : outcome pyval * World :=
  match bind_call [("code", None); ("language", Some PNone)] a with
  | Some [code; language] =>
      code_handler "explain" explain_system_prompt "explanation" code language w
  | _ => (Raise (TypeError "ai_explain_code() arguments do not match its signature"), w)
  end.

(** [await self.method( **params)] inside [create_task]: the keywords are the
    entries of the mapping; what is no mapping cannot be unpacked. *)
Definition call_with (h : call_args -> World -> outcome pyval * World)
    (params : pyval) (w : World) : outcome pyval * World :=
  match params with
  | PDict d => h (Kwargs d) w
  | _ => (Raise (TypeError "argument after ** must be a mapping"), w)
  end.

(** The [if]/[elif] chain on [method] inside [create_task]. *)
Definition run_task (method params : pyval) (w : World) : outcome pyval * World :=
  if py_eq_str method "ai.chat" then
    call_with (ai_chat (llm_text llm) (settings_mistral_model llm)) params w
  else if py_eq_str method "ai.review_code" then
    call_with ai_review_code params w
  else if py_eq_str method "ai.explain_code" then
    call_with ai_explain_code params w
  else
    (Raise (A2AError (-32601) ("Method not found: " ++ py_format method) PNone), w).

(** [async def create_task(self, method: str, params: Dict[str, Any])]. *)
Definition create_task (a : call_args) (w : World) : outcome pyval * World :=
  match bind_call [("method", None); ("params", None)] a with
  | Some [method; params] =>
      let task_id := ("task_" ++ hash_text params)%string in
      match run_task method params w with
      | (Ok result, w') =>
          (Ok (PDict [("task_id", PStr task_id);
                      ("status", PStr "completed");
                      ("result", result);
                      ("created_at", PStr "2024-01-01T00:00:00Z");
                      ("completed_at", PStr "2024-01-01T00:00:00Z")]), w')
      | (Raise e, w') => (Raise (internal_error_of (exn_text e)), w')
      end
  | _ => (Raise (TypeError "create_task() arguments do not match its signature"), w)
  end.

(** [_register_methods], whole: the eleven methods in the order of the
    source. *)
Definition register_all_methods : @A2AHandler World :=
  let r name h self := register_method self name h in
  r "task.cancel" (pure_handler ["task_id"; "return"] cancel_task)
    (r "task.status" (pure_handler ["task_id"; "return"] get_task_status)
       (r "task.create"
          {| h_annotations := Some ["method"; "params"; "return"];
             h_call := create_task |}
          (r "ai.explain_code"
             {| h_annotations := Some ["code"; "language"; "return"];
                h_call := ai_explain_code |}
             (r "ai.review_code"
                {| h_annotations := Some ["code"; "language"; "return"];
                   h_call := ai_review_code |}
                (r "ai.complete"
                   {| h_annotations := Some ["prompt"; "max_tokens"; "return"];
                      h_call := ai_complete |}
                   (r "ai.chat"
                      {| h_annotations := Some ["message"; "context"; "return"];
                         h_call := ai_chat (llm_text llm) (settings_mistral_model llm) |}
                      (r "status"
                         {| h_annotations := Some ["return"];
                            h_call := get_status llm |}
                         (r "capabilities" (pure_handler ["return"] get_capabilities)
                            (r "echo" (pure_handler ["message"; "return"] echo)
                               (r "ping" (pure_handler ["return"] ping)
                                  {| _methods := ∅ |})))))))))).

End AIHandlers.

(** A handler that, when it raises, raises the protocol error of code
    -32603 with a message that starts with ["Internal error: "], or else the
    [TypeError] of a call that does not fit [sig], with the world as it was. *)
Definition raises_internal_only {World} (sig : list (string * option pyval))
    (h : call_args -> World -> outcome pyval * World) : Prop :=
  forall a w e w',
    h a w = (Raise e, w') ->
    (exists text, e = internal_error_of text)
    \/ (bind_call sig a = None /\ (exists text, e = TypeError text) /\ w' = w).

(** ** The [/test-llm] endpoint ([app/api/routes.py]) *)

(** [HTTPException(status_code=503, detail=f"LLM service unavailable: {text}")]. *)
Definition service_unavailable (text : string) : HTTPException.t :=
  {| HTTPException.status_code := 503;
     HTTPException.detail := PStr ("LLM service unavailable: " ++ text) |}.

Section TestLLM.

Context {World : Type}.

(** [str(v)] for a value that is not a [str], and [str(e)] for an
    [HTTPException]. *)
Variable py_str : pyval -> string.
Variable http_exception_str : HTTPException.t -> string.

(** [test_llm_connection]: the [HTTPException] that the body raises for a
    service that is not healthy is raised inside the [try], so that the
    [except Exception] catches it like the [KeyError] of a missing key or the
    exception of [get_llm_service()], and raises a new one around its [str]. *)
Definition test_llm_connection (service : LLMService + exceptions.t) (w : World)
  : (pyval + HTTPException.t) * World :=
  match service with
  | inl llm =>
      let (health_result, w') := health_check llm w in
      match dict_get "status" health_result with
      | Some status =>
          if py_eq_str status "healthy" then
            match dict_get "response" health_result with
            | Some llm_response =>
                (inl (PDict [("status", PStr "success");
                             ("llm_response", llm_response);
                             ("message",
                              PStr "LLM connection is working correctly!")]), w')
            | None => (inr (service_unavailable "'response'"), w')
            end
          else
            let error := match dict_get "error" health_result with
                         | Some v => v
                         | None => PStr "Unknown error"
                         end in
            (inr (service_unavailable
                    (http_exception_str
                       (service_unavailable (py_format py_str error)))), w')
      | None => (inr (service_unavailable "'status'"), w')
      end
  | inr e => (inr (service_unavailable (exceptions.message e)), w)
  end.

End TestLLM.

(** ** Concrete services for the runs *)

(** A client that answers every chat with one choice, padded with blanks. *)
Definition padded_chat (model : string) (messages : list ChatMessage) (w : unit)
  : chat_result * unit :=
  (ChatResponse [Some "  Looks good.  "], w).

Definition answering_llm : @LLMService unit :=
  {| _client := Some padded_chat; settings_mistral_model := "mistral-small-latest" |}.

(** A service without a client. *)
Definition clientless_llm : @LLMService unit :=
  {| _client := None; settings_mistral_model := "mistral-small-latest" |}.

(** [str] of the values and of the exceptions that the runs format, and the
    hash of their parameters. *)
Definition demo_str (v : pyval) : string :=
  match v with
  | PInt z => str_of_int z
  | _ => "None"
  end.

Definition demo_exception_str (e : exn) : string :=
  match e with
  | TypeError text => text
  | _ => "error"
  end.

Definition demo_hash (v : pyval) : string := "0".

(** [str] of an [HTTPException]: the status and the detail. *)
Definition demo_http_exception_str (e : HTTPException.t) : string :=
  str_of_int (HTTPException.status_code e) ++ ": "
  ++ py_format demo_str (HTTPException.detail e).

(** A webhook message without content. *)
Definition empty_message : WebhookMessage.t :=
  {| WebhookMessage.channel_id := "c1";
     WebhookMessage.sender_id := "u7";
     WebhookMessage.content := "";
     WebhookMessage.timestamp := None;
     WebhookMessage.event_type := "message_received" |}.

(** ** Properties *)

Section Properties.

Context {World : Type}.
Implicit Types (self : @A2AHandler World) (st : @state World) (request : Request).

(** The registry: a method is found once registered, registering one name
    leaves the others alone, and the last registration of a name wins. *)
Lemma register_method_lookup self name (h : handler) :
  _methods (register_method self name h) !! name = Some h.
Proof. unfold register_method. cbn. apply lookup_insert_eq. Qed.

Lemma register_method_other self name name' (h : handler) :
  name <> name' ->
  _methods (register_method self name h) !! name' = _methods self !! name'.
Proof. intros Hne. unfold register_method. cbn. by apply lookup_insert_ne. Qed.

Lemma register_method_overwrite self name (h h' : handler) :
  register_method (register_method self name h) name h'
  = register_method self name h'.
Proof. unfold register_method. cbn. f_equal. apply insert_insert_eq. Qed.

Lemma error_result_spec t message suggestion st :
  error_result t message suggestion st = (Ok (error_envelope t message suggestion), st).
Proof. reflexivity. Qed.

Lemma envelope_success i r : envelope (success_envelope i r).
Proof. left. eauto. Qed.

Lemma envelope_error t m s : envelope (error_envelope t m s).
Proof. right. eauto. Qed.

#[local] Hint Resolve envelope_success envelope_error : core.

(** The body of [_process_single_request] once the request is parsed and the
    method is found. *)
Lemma process_parsed self data request st r :
  A2ARequest.new data = Ok r ->
  _process_single_request self data request st =
    match _methods self !! A2ARequest.method r with
    | None =>
        (Ok (error_envelope NOT_FOUND
               ("Method '" ++ A2ARequest.method r ++ "' not found")
               "Check the method name and try again"), st)
    | Some h =>
        match h_annotations h with
        | None =>
            (Ok (error_envelope INTERNAL_ERROR
                   "An error occurred while processing your request"
                   "Please try again later"),
             logged st {| lr_level := ERROR;
                          lr_msg := "Error processing request: ";
                          lr_exc := Some (AttributeError
                                            "object has no attribute '__annotations__'") |})
        | Some sig =>
            let a := dispatch_call sig request (A2ARequest.params r) in
            let st1 := called st (A2ARequest.method r) a
                         (snd (h_call h a (st_world st))) in
            match fst (h_call h a (st_world st)) with
            | Ok v => (Ok (success_envelope (id_to_py (A2ARequest.id r)) v), st1)
            | Raise (A2AError code message d) =>
                (Ok (error_envelope BAD_REQUEST (A2AError_str code message)
                       "Check your request parameters and try again"),
                 logged st1 {| lr_level := ERROR;
                               lr_msg := "A2A error in " ++ A2ARequest.method r ++ ": ";
                               lr_exc := Some (A2AError code message d) |})
            | Raise e =>
                (Ok (error_envelope INTERNAL_ERROR
                       ("Error executing " ++ A2ARequest.method r)
                       "Please try again later"),
                 logged st1 {| lr_level := ERROR;
                               lr_msg := "Error executing method " ++ A2ARequest.method r;
                               lr_exc := Some e |})
            end
        end
    end.
Proof.
  intros Hnew.
  unfold _process_single_request, try_except, bind, lift. rewrite Hnew.
  destruct (_methods self !! A2ARequest.method r) as [h|]; [|reflexivity].
  unfold get_annotations. destruct (h_annotations h) as [sig|]; [|reflexivity].
  cbn [ret]. unfold await_handler, dispatch_call.
  destruct (h_call h _ (st_world st)) as [[v|e] w]; [reflexivity|].
  destruct e; reflexivity.
Qed.

(** A unit that does not parse is answered by the catch-all of
    [_process_single_request]. *)
Lemma process_unparsed self data request st e :
  A2ARequest.new data = Raise e ->
  _process_single_request self data request st =
    (Ok (error_envelope INTERNAL_ERROR
           "An error occurred while processing your request"
           "Please try again later"),
     logged st {| lr_level := ERROR;
                  lr_msg := "Error processing request: ";
                  lr_exc := Some e |}).
Proof.
  intros Hnew.
  unfold _process_single_request, try_except, bind, lift. rewrite Hnew.
  reflexivity.
Qed.

(** [_process_single_request] returns an envelope, whatever the unit. *)
Lemma process_total self data request st :
  exists v st', _process_single_request self data request st = (Ok v, st')
                /\ envelope v.
Proof.
  destruct (A2ARequest.new data) as [r|e] eqn:Hnew.
  - rewrite (process_parsed _ _ _ _ _ Hnew).
    destruct (_methods self !! A2ARequest.method r) as [h|]; [|eauto].
    destruct (h_annotations h) as [sig|]; [|eauto].
    cbv zeta.
    destruct (fst (h_call h _ (st_world st))) as [v|e]; [eauto|].
    destruct e; eauto.
  - rewrite (process_unparsed _ _ _ _ _ Hnew). eauto.
Qed.

(** A loop over a body that never raises: it returns one result per element,
    the [i]-th being what the body returns on the [i]-th element in the state
    its predecessors left. *)
Lemma for_each_total {A B} (f : A -> M B) (P : B -> Prop) :
  (forall x st, exists v st', f x st = (Ok v, st') /\ P v) ->
  forall (xs : list A) st,
  exists vs : list B,
    for_each f xs st = (Ok vs, fold_left (fun s x => snd (f x s)) xs st)
    /\ length vs = length xs
    /\ Forall P vs
    /\ forall i x, xs !! i = Some x ->
         exists v, vs !! i = Some v
                   /\ fst (f x (fold_left (fun s x => snd (f x s)) (take i xs) st)) = Ok v.
Proof.
  intros Hf xs. induction xs as [|x xs IH]; intros st.
  - exists []. repeat split; auto. intros i x Hi. destruct i; discriminate.
  - destruct (Hf x st) as (v & st1 & Hx & Hv).
    destruct (IH st1) as (vs & Hrun & Hlen & Hall & Hnth).
    exists (v :: vs). cbn [for_each fold_left]. unfold bind at 1. rewrite Hx.
    unfold bind at 1. cbn [snd]. rewrite Hrun. repeat split.
    + cbn [length]. congruence.
    + constructor; assumption.
    + intros [|i] y Hi.
      * cbn in Hi. injection Hi as <-. exists v. cbn. rewrite Hx. auto.
      * cbn in Hi. destruct (Hnth i y Hi) as (u & Hu & Hfu).
        exists u. split; [exact Hu|]. cbn [take fold_left]. rewrite Hx. exact Hfu.
Qed.

(** [handle_request] on a body that is not a list. *)
Lemma handle_request_single self request st body :
  request_json request = Ok body ->
  truthy body = true ->
  (forall l, body <> PList l) ->
  handle_request self request st = _process_single_request self body request st.
Proof.
  intros Hjson Htrue Hnl.
  destruct (process_total self body request st) as (v & st' & Hrun & _).
  unfold handle_request, try_except, bind, lift. rewrite Hjson, Htrue. cbn [negb].
  destruct body; try (rewrite Hrun; reflexivity).
  exfalso. eapply Hnl. reflexivity.
Qed.

(** [handle_request] on a batch: the loop, then the unwrapping. *)
Lemma handle_request_batch self request st (items : list pyval) :
  request_json request = Ok (PList items) ->
  items <> [] ->
  exists results : list pyval,
    handle_request self request st =
      (Ok (unwrap_single results), state_after self request items st)
    /\ length results = length items
    /\ Forall envelope results
    /\ forall i item, items !! i = Some item ->
         exists r, results !! i = Some r
                   /\ fst (_process_single_request self item request
                             (state_after self request (take i items) st)) = Ok r.
Proof.
  intros Hjson Hne.
  destruct (for_each_total (fun item => _process_single_request self item request)
              envelope (fun x s => process_total self x request s) items st)
    as (vs & Hrun & Hlen & Hall & Hnth).
  exists vs. split; [|auto].
  unfold handle_request, try_except, bind, lift. rewrite Hjson.
  destruct items as [|x xs]; [congruence|]. cbn [truthy negb].
  rewrite Hrun. reflexivity.
Qed.

(** [handle_request] on a body that Python holds to be false, and on a
    body that could not be read. *)
Lemma handle_request_falsy self request st body :
  request_json request = Ok body ->
  truthy body = false ->
  handle_request self request st =
    (Ok (error_envelope INTERNAL_ERROR
           "An error occurred while processing your request"
           "Please try again later"),
     logged st {| lr_level := ERROR;
                  lr_msg := "Error processing request: ";
                  lr_exc := Some (ValueError "Empty request body") |}).
Proof.
  intros Hjson Hfalse.
  unfold handle_request, try_except, bind, lift. rewrite Hjson, Hfalse. reflexivity.
Qed.

Lemma handle_request_undecoded self request st e :
  request_json request = Raise e ->
  handle_request self request st =
    match e with
    | JSONDecodeError _ =>
        (Ok (error_envelope BAD_REQUEST "Invalid JSON in request body"
               "Please check your request body is valid JSON"),
         logged st {| lr_level := ERROR;
                      lr_msg := "Invalid JSON in request: ";
                      lr_exc := Some e |})
    | _ =>
        (Ok (error_envelope INTERNAL_ERROR
               "An error occurred while processing your request"
               "Please try again later"),
         logged st {| lr_level := ERROR;
                      lr_msg := "Error processing request: ";
                      lr_exc := Some e |})
    end.
Proof.
  intros Hjson.
  unfold handle_request, try_except, bind, lift. rewrite Hjson.
  destruct e; reflexivity.
Qed.

(** A notification that does not parse is logged by the catch-all of
    [_process_single_notification], and nothing else happens. *)
Lemma notification_unparsed self data request st e :
  A2ANotification.new data = Raise e ->
  _process_single_notification self data request st =
    (Ok tt, logged st {| lr_level := ERROR;
                         lr_msg := "Error processing notification: ";
                         lr_exc := Some e |}).
Proof.
  intros Hnew.
  unfold _process_single_notification, try_except, bind, lift. rewrite Hnew.
  reflexivity.
Qed.

(** [_process_single_notification] returns [None], whatever the unit. *)
Lemma notification_total self data request st :
  exists (v : unit) st',
    _process_single_notification self data request st = (Ok v, st') /\ v = tt.
Proof.
  unfold _process_single_notification, try_except, bind, lift.
  destruct (A2ANotification.new data) as [n|e]; [|eauto].
  destruct (_methods self !! A2ANotification.method n) as [h|]; [|eauto].
  unfold get_annotations. destruct (h_annotations h) as [sig|]; [|eauto].
  cbn [ret]. unfold await_handler.
  destruct (h_call h _ (st_world st)) as [[v|e] w]; eauto.
Qed.

(** [handle_notification] returns [None], whatever the request. *)
Lemma handle_notification_total self request st :
  fst (handle_notification self request st) = Ok tt.
Proof.
  unfold handle_notification, try_except, bind, lift.
  destruct (request_json request) as [data|e]; [|destruct e; reflexivity].
  destruct (truthy data); cbn [negb]; [|reflexivity].
  destruct data as [| | | | |items| |];
    try (match goal with
         | |- context [_process_single_notification self ?d request st] =>
             destruct (notification_total self d request st) as (v & st' & -> & ->)
         end; reflexivity).
  destruct (for_each_total
              (fun item => _process_single_notification self item request)
              (fun v => v = tt)
              (fun x s => notification_total self x request s) items st)
    as (vs & -> & _).
  reflexivity.
Qed.

(** An id-less unit parses to a request whose [id] is [None]. *)
Lemma idless_parsed data r :
  has_id data = false ->
  A2ARequest.new data = Ok r ->
  A2ARequest.id r = None.
Proof.
  destruct data as [| | | | | |d|]; try discriminate.
  unfold has_id, A2ARequest.new. intros Hid.
  destruct (with_default validate_str "2.0" (dict_get "jsonrpc" d)) as [j|];
    destruct (required validate_str (dict_get "method" d)) as [m|];
    destruct (with_default validate_params None (dict_get "params" d)) as [pv|];
    destruct (dict_get "id" d) as [[]|]; cbn;
    try discriminate; intros [= <-]; reflexivity.
Qed.

(** *** Request mode: success *)

(** C1.  A request unit [{jsonrpc: "2.0", method: m, params: p, id: x}] whose
    method is registered and whose handler returns [r] on the parameters the
    dispatcher binds is answered by
    [{"success": True, "data": {"jsonrpc": "2.0", "id": x, "result": r}}],
    the [id] being that of the request; the handler is called once, and
    nothing is logged.  In particular, [echo] with [{"message": "hi"}] and
    [id] 1 gives the result [{"echo": "hi", "length": 2}]. *)
Theorem request_success_envelope :
  (forall self request st m h sig (p : params_value) (x r : pyval) w,
      _methods self !! m = Some h ->
      h_annotations h = Some sig ->
      (exists s, x = PStr s) \/ (exists z, x = PInt z) ->
      h_call h (dispatch_call sig request (Some p)) (st_world st) = (Ok r, w) ->
      _process_single_request self
        (PDict [("jsonrpc", PStr "2.0"); ("method", PStr m);
                ("params", params_to_py p); ("id", x)])
        request st
      = (Ok (PDict [("success", PBool true);
                    ("data", PDict [("jsonrpc", PStr "2.0"); ("id", x);
                                    ("result", r)])]),
         called st m (dispatch_call sig request (Some p)) w))
  /\ (forall self request st,
        _methods self !! "echo" = Some (pure_handler ["message"; "return"] echo) ->
        request_json request
        = Ok (PDict [("jsonrpc", PStr "2.0"); ("method", PStr "echo");
                     ("params", PDict [("message", PStr "hi")]); ("id", PInt 1)]) ->
        handle_request self request st
        = (Ok (PDict [("success", PBool true);
                      ("data", PDict [("jsonrpc", PStr "2.0"); ("id", PInt 1);
                                      ("result", PDict [("echo", PStr "hi");
                                                         ("length", PInt 2)])])]),
           called st "echo" (Kwargs [("message", PStr "hi")]) (st_world st))).
Proof.
  assert (Hgen : forall self request st m h sig (p : params_value) (x r : pyval) w,
      _methods self !! m = Some h ->
      h_annotations h = Some sig ->
      (exists s, x = PStr s) \/ (exists z, x = PInt z) ->
      h_call h (dispatch_call sig request (Some p)) (st_world st) = (Ok r, w) ->
      _process_single_request self
        (PDict [("jsonrpc", PStr "2.0"); ("method", PStr m);
                ("params", params_to_py p); ("id", x)])
        request st
      = (Ok (success_envelope x r),
         called st m (dispatch_call sig request (Some p)) w)).
  { intros self request st m h sig p x r w Hm Hsig Hx Hcall.
    assert (Hnew : A2ARequest.new
                     (PDict [("jsonrpc", PStr "2.0"); ("method", PStr m);
                             ("params", params_to_py p); ("id", x)])
                   = Ok {| A2ARequest.jsonrpc := "2.0"; A2ARequest.method := m;
                           A2ARequest.params := Some p;
                           A2ARequest.id := match x with
                                            | PStr s => Some (IdStr s)
                                            | PInt z => Some (IdInt z)
                                            | _ => None
                                            end |}).
    { destruct p; destruct Hx as [[s ->]|[z ->]]; reflexivity. }
    rewrite (process_parsed _ _ _ _ _ Hnew). cbn [A2ARequest.method A2ARequest.params].
    rewrite Hm, Hsig. cbv zeta. rewrite Hcall. cbn [fst snd A2ARequest.id].
    destruct Hx as [[s ->]|[z ->]]; reflexivity. }
  split; [exact Hgen|].
  intros self request st Hecho Hjson.
  rewrite (handle_request_single self request st _ Hjson eq_refl)
    by (intros l; discriminate).
  apply (Hgen self request st "echo" (pure_handler ["message"; "return"] echo)
           ["message"; "return"] (ParamsDict [("message", PStr "hi")]) (PInt 1)).
  - exact Hecho.
  - reflexivity.
  - right. eexists. reflexivity.
  - reflexivity.
Qed.

(** *** Request mode: batches *)

(** C2.  A batch of N >= 1 units is processed unit by unit, in input order,
    each unit from the state its predecessors left and each giving a result
    of its own; a single result is returned as it is, several are returned
    as the list of all of them, in the order of the input. *)
Theorem batch_results_in_order self request st (items : list pyval) :
  request_json request = Ok (PList items) ->
  items <> [] ->
  exists results : list pyval,
    length results = length items
    /\ (forall i item, items !! i = Some item ->
          exists r, results !! i = Some r
                    /\ fst (_process_single_request self item request
                              (state_after self request (take i items) st)) = Ok r)
    /\ (forall r, results = [r] ->
          handle_request self request st
          = (Ok r, state_after self request items st))
    /\ (1 < length results ->
          handle_request self request st
          = (Ok (PList results), state_after self request items st))%nat.
Proof.
  intros Hjson Hne.
  destruct (handle_request_batch self request st items Hjson Hne)
    as (results & Hrun & Hlen & _ & Hnth).
  exists results. repeat split; try assumption.
  - intros r ->. exact Hrun.
  - intros Hlt. rewrite Hrun.
    destruct results as [|r1 [|r2 rs]]; cbn in Hlt; try lia. reflexivity.
Qed.

(** The state after the first [S i] units of a batch. *)
Lemma state_after_step self request st (items : list pyval) i item :
  items !! i = Some item ->
  state_after self request (take (S i) items) st
  = snd (_process_single_request self item request
           (state_after self request (take i items) st)).
Proof.
  intros Hi. unfold state_after.
  rewrite (take_S_r _ _ _ Hi), fold_left_app. reflexivity.
Qed.

(** A unit whose handler returns is answered with the success envelope that
    carries the [id] of the unit, [None] for a unit without one. *)
Lemma process_success self data request st q h sig v w :
  A2ARequest.new data = Ok q ->
  _methods self !! A2ARequest.method q = Some h ->
  h_annotations h = Some sig ->
  h_call h (dispatch_call sig request (A2ARequest.params q)) (st_world st)
  = (Ok v, w) ->
  _process_single_request self data request st
  = (Ok (success_envelope (id_to_py (A2ARequest.id q)) v),
     called st (A2ARequest.method q)
       (dispatch_call sig request (A2ARequest.params q)) w).
Proof.
  intros Hnew Hm Hsig Hcall.
  rewrite (process_parsed _ _ _ _ _ Hnew), Hm, Hsig. cbv zeta.
  rewrite Hcall. reflexivity.
Qed.

(** The [id] of a success envelope is the [id] the unit parsed to. *)
Lemma success_id self data request st x v :
  fst (_process_single_request self data request st) = Ok (success_envelope x v) ->
  exists q, A2ARequest.new data = Ok q /\ x = id_to_py (A2ARequest.id q).
Proof.
  destruct (A2ARequest.new data) as [q|e] eqn:Hnew.
  - rewrite (process_parsed _ _ _ _ _ Hnew).
    destruct (_methods self !! A2ARequest.method q) as [h|]; [|discriminate].
    destruct (h_annotations h) as [sig|]; [|discriminate].
    cbv zeta.
    destruct (fst (h_call h _ (st_world st))) as [u|e].
    + cbn. intros [= <- _]. exists q. auto.
    + destruct e; discriminate.
  - rewrite (process_unparsed _ _ _ _ _ Hnew). discriminate.
Qed.

(** C3 (as amended).  In request mode a unit without an [id] is dispatched
    like any other unit.  The output of a batch has one entry per unit, in
    input order: the [i]-th entry is what [_process_single_request] answers
    to the [i]-th unit, with or without [id], in the state its predecessors
    left.  It is an envelope; when the handler of the unit returns, it is
    the success envelope with the result and the [id] of the unit, the
    handler having been called once; and for a unit without an [id] that
    [id] is [None]. *)
Theorem batch_one_entry_per_unit self request st (items : list pyval) :
  request_json request = Ok (PList items) ->
  items <> [] ->
  exists results : list pyval,
    handle_request self request st
    = (Ok (unwrap_single results), state_after self request items st)
    /\ length results = length items
    /\ forall i item, items !! i = Some item ->
         exists r,
           results !! i = Some r
           /\ _process_single_request self item request
                (state_after self request (take i items) st)
              = (Ok r, state_after self request (take (S i) items) st)
           /\ envelope r
           /\ (forall q h sig v w,
                 A2ARequest.new item = Ok q ->
                 _methods self !! A2ARequest.method q = Some h ->
                 h_annotations h = Some sig ->
                 h_call h (dispatch_call sig request (A2ARequest.params q))
                   (st_world (state_after self request (take i items) st))
                 = (Ok v, w) ->
                 r = success_envelope (id_to_py (A2ARequest.id q)) v
                 /\ state_after self request (take (S i) items) st
                    = called (state_after self request (take i items) st)
                        (A2ARequest.method q)
                        (dispatch_call sig request (A2ARequest.params q)) w)
           /\ (has_id item = false ->
               (forall q, A2ARequest.new item = Ok q -> A2ARequest.id q = None)
               /\ forall x v, r = success_envelope x v -> x = PNone).
Proof.
  intros Hjson Hne.
  destruct (handle_request_batch self request st items Hjson Hne)
    as (results & Hrun & Hlen & Hall & Hnth).
  exists results. split; [exact Hrun|]. split; [exact Hlen|].
  intros i item Hi.
  destruct (Hnth i item Hi) as (r & Hr & Hfst).
  set (sti := state_after self request (take i items) st) in *.
  assert (Hpair : _process_single_request self item request sti
                  = (Ok r, state_after self request (take (S i) items) st)).
  { rewrite (state_after_step self request st items i item Hi). fold sti.
    rewrite <- Hfst. apply surjective_pairing. }
  exists r. split; [exact Hr|]. split; [exact Hpair|]. split.
  { eapply Forall_lookup_1; eassumption. }
  split.
  - intros q h sig v w Hnew Hm Hsig Hcall.
    rewrite (process_success _ _ _ _ _ _ _ _ _ Hnew Hm Hsig Hcall) in Hpair.
    injection Hpair as <- <-. split; reflexivity.
  - intros Hid. split.
    + intros q Hnew. exact (idless_parsed item q Hid Hnew).
    + intros x v ->.
      destruct (success_id self item request sti x v Hfst) as (q & Hnew & ->).
      rewrite (idless_parsed item q Hid Hnew). reflexivity.
Qed.

(** *** Request mode: errors *)

(** A handler that raises [A2AError] is answered with [bad_request] and the
    [str] of the exception. *)
Lemma process_protocol_error self data request st q h sig code message d w :
  A2ARequest.new data = Ok q ->
  _methods self !! A2ARequest.method q = Some h ->
  h_annotations h = Some sig ->
  h_call h (dispatch_call sig request (A2ARequest.params q)) (st_world st)
  = (Raise (A2AError code message d), w) ->
  _process_single_request self data request st
  = (Ok (error_envelope BAD_REQUEST (A2AError_str code message)
           "Check your request parameters and try again"),
     logged (called st (A2ARequest.method q)
               (dispatch_call sig request (A2ARequest.params q)) w)
       {| lr_level := ERROR;
          lr_msg := "A2A error in " ++ A2ARequest.method q ++ ": ";
          lr_exc := Some (A2AError code message d) |}).
Proof.
  intros Hnew Hm Hsig Hcall.
  rewrite (process_parsed _ _ _ _ _ Hnew), Hm, Hsig. cbv zeta.
  rewrite Hcall. reflexivity.
Qed.

(** A handler that raises anything else is answered with [internal_error]
    and a message that names the method only. *)
Lemma process_handler_failure self data request st q h sig e w :
  A2ARequest.new data = Ok q ->
  _methods self !! A2ARequest.method q = Some h ->
  h_annotations h = Some sig ->
  h_call h (dispatch_call sig request (A2ARequest.params q)) (st_world st)
  = (Raise e, w) ->
  (forall code message d, e <> A2AError code message d) ->
  _process_single_request self data request st
  = (Ok (error_envelope INTERNAL_ERROR
           ("Error executing " ++ A2ARequest.method q) "Please try again later"),
     logged (called st (A2ARequest.method q)
               (dispatch_call sig request (A2ARequest.params q)) w)
       {| lr_level := ERROR;
          lr_msg := "Error executing method " ++ A2ARequest.method q;
          lr_exc := Some e |}).
Proof.
  intros Hnew Hm Hsig Hcall Hne.
  rewrite (process_parsed _ _ _ _ _ Hnew), Hm, Hsig. cbv zeta.
  rewrite Hcall. cbn [fst snd].
  destruct e; try reflexivity. exfalso. eapply Hne. reflexivity.
Qed.

(** C4.  The classification of failures in request mode: a body that does
    not decode gives [bad_request]; a method that is not registered gives
    [not_found], with the method's name in the message; a handler that raises
    [A2AError] gives [bad_request]; any other exception gives
    [internal_error], be it raised by the handler, by the parsing of the
    unit, by the inspection of the handler or by reading the body. *)
Theorem error_kind_table :
  (forall self request st msg,
      request_json request = Raise (JSONDecodeError msg) ->
      fst (handle_request self request st)
      = Ok (error_envelope BAD_REQUEST "Invalid JSON in request body"
              "Please check your request body is valid JSON"))
  /\ (forall self data request st q,
        A2ARequest.new data = Ok q ->
        _methods self !! A2ARequest.method q = None ->
        fst (_process_single_request self data request st)
        = Ok (error_envelope NOT_FOUND
                ("Method '" ++ A2ARequest.method q ++ "' not found")
                "Check the method name and try again"))
  /\ (forall self data request st q h sig code message d,
        A2ARequest.new data = Ok q ->
        _methods self !! A2ARequest.method q = Some h ->
        h_annotations h = Some sig ->
        fst (h_call h (dispatch_call sig request (A2ARequest.params q)) (st_world st))
        = Raise (A2AError code message d) ->
        exists text,
          fst (_process_single_request self data request st)
          = Ok (error_envelope BAD_REQUEST text
                  "Check your request parameters and try again"))
  /\ (forall self data request st q h sig e,
        A2ARequest.new data = Ok q ->
        _methods self !! A2ARequest.method q = Some h ->
        h_annotations h = Some sig ->
        fst (h_call h (dispatch_call sig request (A2ARequest.params q)) (st_world st))
        = Raise e ->
        (forall code message d, e <> A2AError code message d) ->
        fst (_process_single_request self data request st)
        = Ok (error_envelope INTERNAL_ERROR
                ("Error executing " ++ A2ARequest.method q)
                "Please try again later"))
  /\ (forall self data request st e,
        A2ARequest.new data = Raise e ->
        fst (_process_single_request self data request st)
        = Ok (error_envelope INTERNAL_ERROR
                "An error occurred while processing your request"
                "Please try again later"))
  /\ (forall self data request st q h,
        A2ARequest.new data = Ok q ->
        _methods self !! A2ARequest.method q = Some h ->
        h_annotations h = None ->
        fst (_process_single_request self data request st)
        = Ok (error_envelope INTERNAL_ERROR
                "An error occurred while processing your request"
                "Please try again later"))
  /\ (forall self request st e,
        request_json request = Raise e ->
        (forall msg, e <> JSONDecodeError msg) ->
        fst (handle_request self request st)
        = Ok (error_envelope INTERNAL_ERROR
                "An error occurred while processing your request"
                "Please try again later")).
Proof.
  repeat split.
  - intros self request st msg Hjson.
    rewrite (handle_request_undecoded _ _ _ _ Hjson). reflexivity.
  - intros self data request st q Hnew Hm.
    rewrite (process_parsed _ _ _ _ _ Hnew), Hm. reflexivity.
  - intros self data request st q h sig code message d Hnew Hm Hsig Hcall.
    exists (A2AError_str code message).
    destruct (h_call h _ (st_world st)) as [o w] eqn:Hrun. cbn [fst] in Hcall.
    subst o. rewrite (process_protocol_error _ _ _ _ _ _ _ _ _ _ _ Hnew Hm Hsig Hrun).
    reflexivity.
  - intros self data request st q h sig e Hnew Hm Hsig Hcall Hne.
    destruct (h_call h _ (st_world st)) as [o w] eqn:Hrun. cbn [fst] in Hcall.
    subst o. rewrite (process_handler_failure _ _ _ _ _ _ _ _ _ Hnew Hm Hsig Hrun Hne).
    reflexivity.
  - intros self data request st e Hnew.
    rewrite (process_unparsed _ _ _ _ _ Hnew). reflexivity.
  - intros self data request st q h Hnew Hm Hsig.
    rewrite (process_parsed _ _ _ _ _ Hnew), Hm, Hsig. reflexivity.
  - intros self request st e Hjson Hne.
    rewrite (handle_request_undecoded _ _ _ _ Hjson).
    destruct e; try reflexivity. exfalso. eapply Hne. reflexivity.
Qed.

(** C5 (as amended).  A handler that raises the protocol error
    [A2AError(code, message)] is answered with an error envelope of kind
    [bad_request] whose message is the [str] of the exception, that is the
    protocol error's message behind its code in square brackets:
    ["[" ++ code ++ "] " ++ message]. *)
Theorem protocol_error_bad_request self data request st q h sig code message d w :
  A2ARequest.new data = Ok q ->
  _methods self !! A2ARequest.method q = Some h ->
  h_annotations h = Some sig ->
  h_call h (dispatch_call sig request (A2ARequest.params q)) (st_world st)
  = (Raise (A2AError code message d), w) ->
  fst (_process_single_request self data request st)
  = Ok (error_envelope BAD_REQUEST ("[" ++ str_of_int code ++ "] " ++ message)
          "Check your request parameters and try again").
Proof.
  intros Hnew Hm Hsig Hcall.
  rewrite (process_protocol_error _ _ _ _ _ _ _ _ _ _ _ Hnew Hm Hsig Hcall).
  reflexivity.
Qed.

(** C6 (as amended).  Every response of the dispatcher is either the success
    envelope or an error envelope of the shape
    [{"success": False, "error": {"success": False, "error": {"type": <ErrorType>,
    "message": <str>, "suggestion": <str>}, "meta": {}}}]: the detail is keyed
    ["type"] and lies inside the dump of the whole [ErrorResponse].  In
    particular, the request [{"jsonrpc": "2.0", "method": "nope", "id": 1}]
    with ["nope"] not registered is answered by such an envelope with type
    ["not_found"] and message ["Method 'nope' not found"]. *)
Theorem error_response_shape :
  (forall self data request st,
      exists v st',
        _process_single_request self data request st = (Ok v, st')
        /\ ((exists x r,
               v = PDict [("success", PBool true);
                          ("data", PDict [("jsonrpc", PStr "2.0"); ("id", x);
                                          ("result", r)])])
            \/ (exists t message suggestion,
                  v = PDict [("success", PBool false);
                             ("error",
                              PDict [("success", PBool false);
                                     ("error",
                                      PDict [("type", PStr (ErrorType_value t));
                                             ("message", PStr message);
                                             ("suggestion", PStr suggestion)]);
                                     ("meta", PDict [])])])))
  /\ (forall self request st,
        _methods self !! "nope" = None ->
        request_json request
        = Ok (PDict [("jsonrpc", PStr "2.0"); ("method", PStr "nope");
                     ("id", PInt 1)]) ->
        handle_request self request st
        = (Ok (PDict [("success", PBool false);
                      ("error",
                       PDict [("success", PBool false);
                              ("error",
                               PDict [("type", PStr "not_found");
                                      ("message", PStr "Method 'nope' not found");
                                      ("suggestion",
                                       PStr "Check the method name and try again")]);
                              ("meta", PDict [])])]),
           st)).
Proof.
  split.
  - intros self data request st.
    destruct (process_total self data request st) as (v & st' & Hrun & Henv).
    exists v, st'. split; [exact Hrun|exact Henv].
  - intros self request st Hnope Hjson.
    rewrite (handle_request_single self request st _ Hjson eq_refl)
      by (intros l; discriminate).
    erewrite process_parsed by reflexivity.
    cbn [A2ARequest.method]. rewrite Hnope. reflexivity.
Qed.

(** C7 (as amended).  A decoded body that Python holds to be false ([None],
    an empty object or list, ...) makes request mode raise
    [ValueError("Empty request body")], which the catch-all turns into an
    envelope of kind [internal_error] with the message
    ["An error occurred while processing your request"]; notification mode
    logs the warning ["Received empty notification"] and returns [None].  A
    body that does not decode gives [bad_request] with the message
    ["Invalid JSON in request body"] in request mode, and an error record in
    the log and [None] in notification mode. *)
Theorem empty_payload :
  (forall self request st body,
      request_json request = Ok body ->
      truthy body = false ->
      handle_request self request st
      = (Ok (error_envelope INTERNAL_ERROR
               "An error occurred while processing your request"
               "Please try again later"),
         logged st {| lr_level := ERROR;
                      lr_msg := "Error processing request: ";
                      lr_exc := Some (ValueError "Empty request body") |})
      /\ handle_notification self request st
         = (Ok tt, logged st {| lr_level := WARNING;
                                lr_msg := "Received empty notification";
                                lr_exc := None |}))
  /\ (forall self request st msg,
        request_json request = Raise (JSONDecodeError msg) ->
        handle_request self request st
        = (Ok (error_envelope BAD_REQUEST "Invalid JSON in request body"
                 "Please check your request body is valid JSON"),
           logged st {| lr_level := ERROR;
                        lr_msg := "Invalid JSON in request: ";
                        lr_exc := Some (JSONDecodeError msg) |})
        /\ handle_notification self request st
           = (Ok tt, logged st {| lr_level := ERROR;
                                  lr_msg := "Invalid JSON in notification: ";
                                  lr_exc := Some (JSONDecodeError msg) |})).
Proof.
  split.
  - intros self request st body Hjson Hfalse. split.
    + exact (handle_request_falsy _ _ _ _ Hjson Hfalse).
    + unfold handle_notification, try_except, bind, lift.
      rewrite Hjson, Hfalse. reflexivity.
  - intros self request st msg Hjson. split.
    + rewrite (handle_request_undecoded _ _ _ _ Hjson). reflexivity.
    + unfold handle_notification, try_except, bind, lift.
      rewrite Hjson. reflexivity.
Qed.

(** A unit without a ["method"], or with one that is not a string, does not
    parse. *)
Lemma method_refused d :
  required validate_str (dict_get "method" d) = None ->
  exists fields,
    In "method" fields
    /\ A2ARequest.new (PDict d) = Raise (ValidationError "A2ARequest" fields).
Proof.
  intros Hm. unfold A2ARequest.new. rewrite Hm.
  exists (refused "jsonrpc" (with_default validate_str "2.0" (dict_get "jsonrpc" d))
          ++ refused "method" (@None string)
          ++ refused "params" (with_default validate_params None (dict_get "params" d))
          ++ refused "id" (with_default validate_id None (dict_get "id" d))).
  split; [|destruct (with_default validate_str "2.0" _); reflexivity].
  apply in_or_app. right. left. reflexivity.
Qed.

(** C8 (as amended).  A unit that fails the validation of [A2ARequest] (a
    value that is no mapping, a missing or mistyped field) is answered by the
    catch-all of the dispatcher: an envelope of kind [internal_error] with the
    fixed message ["An error occurred while processing your request"]; the
    failure is logged and nothing is raised.  A missing ["method"] and a
    ["method"] that is not a string are such failures. *)
Theorem malformed_unit_internal_error :
  (forall self data request st e,
      A2ARequest.new data = Raise e ->
      _process_single_request self data request st
      = (Ok (error_envelope INTERNAL_ERROR
               "An error occurred while processing your request"
               "Please try again later"),
         logged st {| lr_level := ERROR;
                      lr_msg := "Error processing request: ";
                      lr_exc := Some e |}))
  /\ (forall self data request st e,
        request_json request = Ok data ->
        (forall l, data <> PList l) ->
        A2ARequest.new data = Raise e ->
        fst (handle_request self request st)
        = Ok (error_envelope INTERNAL_ERROR
                "An error occurred while processing your request"
                "Please try again later"))
  /\ (forall d,
        required validate_str (dict_get "method" d) = None ->
        exists fields,
          In "method" fields
          /\ A2ARequest.new (PDict d) = Raise (ValidationError "A2ARequest" fields)).
Proof.
  split; [|split].
  - intros self data request st e Hnew. exact (process_unparsed _ _ _ _ _ Hnew).
  - intros self data request st e Hjson Hnl Hnew.
    destruct (truthy data) eqn:Htruthy.
    + rewrite (handle_request_single _ _ _ _ Hjson Htruthy Hnl).
      rewrite (process_unparsed _ _ _ _ _ Hnew). reflexivity.
    + rewrite (handle_request_falsy _ _ _ _ Hjson Htruthy). reflexivity.
  - exact method_refused.
Qed.

(** *** Request mode: nothing escapes *)

(** Whatever [_process_single_request] answers to a unit, a step of the
    processing that raised something else than a protocol error is answered
    with [internal_error]. *)
Lemma process_failure_answered self data request st r :
  fst (_process_single_request self data request st) = Ok r ->
  failure_answered self data request st r.
Proof.
  intros Hrun. split; [|split].
  - intros e Hnew. rewrite (process_unparsed _ _ _ _ _ Hnew) in Hrun.
    cbn in Hrun. congruence.
  - intros q h Hnew Hm Hsig.
    rewrite (process_parsed _ _ _ _ _ Hnew), Hm, Hsig in Hrun.
    cbn in Hrun. congruence.
  - intros q h sig e Hnew Hm Hsig Hcall Hne.
    destruct (h_call h (dispatch_call sig request (A2ARequest.params q))
                (st_world st)) as [o w] eqn:Hh.
    cbn [fst] in Hcall. subst o.
    rewrite (process_handler_failure _ _ _ _ _ _ _ _ _ Hnew Hm Hsig Hh Hne) in Hrun.
    cbn [fst] in Hrun. congruence.
Qed.

(** C9.  [handle_request] returns, whatever the request, the registry and
    the handlers do: its value is an envelope, or the list of the envelopes
    of a batch, and no exception leaves it.  A path that raises unexpectedly
    ends in an [internal_error] envelope: a body that could not be read for
    a reason other than its JSON, a body that is empty, and, for the unit
    that is the body and for each unit of a batch, the failure of its
    parsing, of the inspection of its handler, or of the handler itself with
    anything else than a protocol error. *)
Theorem handle_request_total self request st :
  exists v st',
    handle_request self request st = (Ok v, st')
    /\ response v
    /\ match request_json request with
       | Ok body =>
           if truthy body then
             match body with
             | PList items =>
                 exists results : list pyval,
                   v = unwrap_single results
                   /\ length results = length items
                   /\ forall i item, items !! i = Some item ->
                        exists r,
                          results !! i = Some r
                          /\ fst (_process_single_request self item request
                                    (state_after self request (take i items) st))
                             = Ok r
                          /\ failure_answered self item request
                               (state_after self request (take i items) st) r
             | _ =>
                 fst (_process_single_request self body request st) = Ok v
                 /\ failure_answered self body request st v
             end
           else v = error_envelope INTERNAL_ERROR
                      "An error occurred while processing your request"
                      "Please try again later"
       | Raise (JSONDecodeError _) =>
           v = error_envelope BAD_REQUEST "Invalid JSON in request body"
                 "Please check your request body is valid JSON"
       | Raise _ =>
           v = error_envelope INTERNAL_ERROR
                 "An error occurred while processing your request"
                 "Please try again later"
       end.
Proof.
  destruct (request_json request) as [body|e] eqn:Hjson.
  - destruct (truthy body) eqn:Htruthy.
    + assert (Hlist : (exists items, body = PList items /\ items <> [])
                      \/ (forall l, body <> PList l)).
      { destruct body as [| | | | |items| |];
          try (right; intros l; discriminate).
        left. exists items. split; [reflexivity|].
        intros ->. discriminate. }
      destruct Hlist as [(items & -> & Hne)|Hnl].
      * destruct (handle_request_batch self request st items Hjson Hne)
          as (results & Hrun & Hlen & Hall & Hnth).
        eexists _, _. split; [exact Hrun|]. split.
        -- destruct results as [|r [|r' rs]].
           ++ right. exists []. auto.
           ++ left. apply (Forall_inv Hall).
           ++ right. eexists. split; [reflexivity|exact Hall].
        -- exists results. split; [reflexivity|]. split; [exact Hlen|].
           intros i item Hi. destruct (Hnth i item Hi) as (r & Hr & Hfst).
           exists r. split; [exact Hr|]. split; [exact Hfst|].
           apply process_failure_answered. exact Hfst.
      * rewrite (handle_request_single _ _ _ _ Hjson Htruthy Hnl).
        destruct (process_total self body request st) as (v & st' & Hrun & Henv).
        exists v, st'. split; [exact Hrun|]. split; [left; exact Henv|].
        assert (Hfst : fst (_process_single_request self body request st) = Ok v)
          by (rewrite Hrun; reflexivity).
        destruct body; try (split; [exact Hfst|];
                            apply process_failure_answered; exact Hfst).
        exfalso. eapply Hnl. reflexivity.
    + rewrite (handle_request_falsy _ _ _ _ Hjson Htruthy).
      eexists _, _. split; [reflexivity|]. split; [left; auto|reflexivity].
  - rewrite (handle_request_undecoded _ _ _ _ Hjson).
    destruct e; eexists _, _; (split; [reflexivity|]); split;
      solve [left; auto | reflexivity].
Qed.

(** *** Notification mode *)

(** A notification unit that carries an [id] other than [None] does not
    parse: [id: None] takes nothing else. *)
Lemma notification_id_refused d v :
  dict_get "id" d = Some v ->
  v <> PNone ->
  exists fields,
    In "id" fields
    /\ A2ANotification.new (PDict d)
       = Raise (ValidationError "A2ANotification" fields).
Proof.
  intros Hid Hv. unfold A2ANotification.new. rewrite Hid.
  assert (Hnone : with_default validate_none tt (Some v) = None).
  { destruct v; try reflexivity. congruence. }
  rewrite Hnone.
  exists (refused "jsonrpc" (with_default validate_str "2.0" (dict_get "jsonrpc" d))
          ++ refused "method" (required validate_str (dict_get "method" d))
          ++ refused "params" (with_default validate_params None (dict_get "params" d))
          ++ refused "id" (@None unit)).
  split.
  2: { destruct (with_default validate_str "2.0" _),
                (required validate_str _),
                (with_default validate_params None _); reflexivity. }
  apply in_or_app. right. apply in_or_app. right. apply in_or_app. right.
  left. reflexivity.
Qed.

(** [handle_notification] on a batch runs the units one after the other. *)
Lemma handle_notification_batch self request st (items : list pyval) :
  request_json request = Ok (PList items) ->
  items <> [] ->
  handle_notification self request st
  = (Ok tt, notified_after self request items st).
Proof.
  intros Hjson Hne.
  destruct (for_each_total
              (fun item => _process_single_notification self item request)
              (fun v => v = tt)
              (fun x s => notification_total self x request s) items st)
    as (vs & Hrun & _).
  unfold handle_notification, try_except, bind, lift. rewrite Hjson.
  destruct items as [|x xs]; [congruence|]. cbn [truthy negb].
  rewrite Hrun. reflexivity.
Qed.

(** The state after the first [S i] units of a batch of notifications. *)
Lemma notified_after_step self request st (items : list pyval) i item :
  items !! i = Some item ->
  notified_after self request (take (S i) items) st
  = snd (_process_single_notification self item request
           (notified_after self request (take i items) st)).
Proof.
  intros Hi. unfold notified_after.
  rewrite (take_S_r _ _ _ Hi), fold_left_app. reflexivity.
Qed.

(** C10.  In notification mode a unit that carries an [id] other than [None]
    reaches no handler: [A2ANotification] refuses it, the failure is logged
    by the catch-all, the list of handler calls and the world are left as
    they were, wherever the unit stands in a batch, and [None] is returned,
    by the unit's processing and by [handle_notification] alike. *)
Theorem notification_with_id_rejected self request st d v :
  dict_get "id" d = Some v ->
  v <> PNone ->
  (exists fields,
      In "id" fields
      /\ _process_single_notification self (PDict d) request st
         = (Ok tt, logged st {| lr_level := ERROR;
                                lr_msg := "Error processing notification: ";
                                lr_exc := Some (ValidationError "A2ANotification"
                                                  fields) |}))
  /\ st_calls (snd (_process_single_notification self (PDict d) request st))
     = st_calls st
  /\ st_world (snd (_process_single_notification self (PDict d) request st))
     = st_world st
  /\ (forall (items : list pyval) i,
        items !! i = Some (PDict d) ->
        st_calls (notified_after self request (take (S i) items) st)
        = st_calls (notified_after self request (take i items) st)
        /\ st_world (notified_after self request (take (S i) items) st)
           = st_world (notified_after self request (take i items) st))
  /\ (forall request' st', fst (handle_notification self request' st') = Ok tt).
Proof.
  intros Hid Hv.
  destruct (notification_id_refused d v Hid Hv) as (fields & Hin & Hnew).
  assert (Hrun : forall s,
             _process_single_notification self (PDict d) request s
             = (Ok tt, logged s {| lr_level := ERROR;
                                   lr_msg := "Error processing notification: ";
                                   lr_exc := Some (ValidationError "A2ANotification"
                                                     fields) |})).
  { intros s. exact (notification_unparsed self (PDict d) request s _ Hnew). }
  split; [exists fields; split; [assumption|apply Hrun]|].
  rewrite Hrun. cbn [snd logged st_calls st_world].
  split; [reflexivity|]. split; [reflexivity|]. split.
  - intros items i Hi.
    rewrite (notified_after_step _ _ _ _ _ _ Hi), Hrun. split; reflexivity.
  - intros request' st'. apply handle_notification_total.
Qed.

End Properties.

(** ** Further properties of the dispatcher *)

Section DispatcherProperties.

Context {World : Type}.
Implicit Types (self : @A2AHandler World) (st : @state World) (request : Request).

(** *** The parameter binder *)

Lemma dict_get_set_eq k v d : dict_get k (dict_set k v d) = Some v.
Proof.
  induction d as [|[k' v'] d IH]; cbn.
  - rewrite String.eqb_refl. reflexivity.
  - destruct (String.eqb k k') eqn:E; cbn.
    + rewrite String.eqb_refl. reflexivity.
    + rewrite E. exact IH.
Qed.

Lemma dict_get_set_ne k k' v d :
  k' <> k -> dict_get k' (dict_set k v d) = dict_get k' d.
Proof.
  intros Hne. induction d as [|[k0 v0] d IH]; cbn.
  - destruct (String.eqb_spec k' k); [contradiction|reflexivity].
  - destruct (String.eqb_spec k k0) as [->|Hk]; cbn.
    + destruct (String.eqb_spec k' k0); [contradiction|reflexivity].
    + destruct (String.eqb k' k0); [reflexivity|exact IH].
Qed.

Lemma dict_set_length k v d :
  length (dict_set k v d)
  = match dict_get k d with
    | Some _ => length d
    | None => S (length d)
    end.
Proof.
  induction d as [|[k0 v0] d IH]; cbn; [reflexivity|].
  destruct (String.eqb k k0); cbn; [reflexivity|].
  rewrite IH. destruct (dict_get k d); reflexivity.
Qed.

(** X1.  For a handler whose annotations name [context], named parameters
    reach it as keyword arguments in which ["context"] is the context of the
    request, whatever the caller put there; every other key keeps its value,
    and the mapping grows by one entry exactly when the caller sent no
    ["context"]. *)
Theorem context_injected_by_name sig request (d : list (string * pyval)) :
  accepts_context sig = true ->
  exists kw,
    dispatch_call sig request (Some (ParamsDict d)) = Kwargs kw
    /\ dict_get "context" kw = Some (PContext (new_context request))
    /\ (forall k, k <> "context" -> dict_get k kw = dict_get k d)
    /\ length kw = match dict_get "context" d with
                   | Some _ => length d
                   | None => S (length d)
                   end.
Proof.
  intros Hsig.
  exists (dict_set "context" (PContext (new_context request)) d).
  split.
  - unfold dispatch_call, add_context. fold (accepts_context sig). rewrite Hsig.
    destruct d; reflexivity.
  - split; [apply dict_get_set_eq|]. split.
    + intros k Hk. apply dict_get_set_ne. exact Hk.
    + apply dict_set_length.
Qed.

(** X2.  The handler is called with positional arguments only for a
    positional list that is not empty, and then with the elements in their
    order and the context behind them if it takes one; parameters that are
    absent, null or empty, the empty list included, give a keyword call, in
    which a context-aware handler gets the context by name. *)
Theorem positional_call_shape sig request (p : option params_value) :
  match p with
  | Some (ParamsList (a :: l)) =>
      dispatch_call sig request p
      = Args (if accepts_context sig
              then a :: l ++ [PContext (new_context request)]
              else a :: l)
  | Some (ParamsDict (kv :: d)) =>
      exists kw, dispatch_call sig request p = Kwargs kw
  | _ =>
      dispatch_call sig request p
      = Kwargs (if accepts_context sig
                then [("context", PContext (new_context request))]
                else [])
  end.
Proof.
  unfold dispatch_call, add_context. fold (accepts_context sig).
  destruct p as [[[|kv d]|[|a l]]|]; cbn [params_or_empty];
    destruct (accepts_context sig); cbn; eauto.
Qed.

(** *** The registry, seen through the dispatcher *)

(** X3.  Registering a handler under a name changes nothing for the units
    that ask for another method or that do not parse; and a handler that was
    replaced under its name plays no part any more: the last registration
    wins. *)
Theorem registration_is_local :
  (forall self name (h : handler) data request st,
      (forall q, A2ARequest.new data = Ok q -> A2ARequest.method q <> name) ->
      _process_single_request (register_method self name h) data request st
      = _process_single_request self data request st)
  /\ (forall self name (h h' : handler) data request st,
        _process_single_request
          (register_method (register_method self name h) name h') data request st
        = _process_single_request (register_method self name h') data request st).
Proof.
  split.
  - intros self name h data request st Hother.
    destruct (A2ARequest.new data) as [q|e] eqn:Hnew.
    + rewrite !(process_parsed _ _ _ _ _ Hnew).
      rewrite register_method_other; [reflexivity|].
      intros Heq. exact (Hother q eq_refl (eq_sym Heq)).
    + rewrite !(process_unparsed _ _ _ _ _ Hnew). reflexivity.
  - intros self name h h' data request st.
    rewrite register_method_overwrite. reflexivity.
Qed.

(** *** What the parsing does not look at *)

(** X4.  The version string of a unit is not checked: a unit that states any
    ["jsonrpc"] string is processed exactly as the same unit without one, the
    answer saying ["2.0"] in both cases. *)
Theorem jsonrpc_version_not_checked self request st (j : string)
    (d : list (string * pyval)) :
  dict_get "jsonrpc" d = None ->
  _process_single_request self (PDict (("jsonrpc", PStr j) :: d)) request st
  = _process_single_request self (PDict d) request st.
Proof.
  intros Hj.
  destruct (required validate_str (dict_get "method" d)) as [m|] eqn:Hm;
    destruct (with_default validate_params None (dict_get "params" d)) as [p|] eqn:Hp;
    destruct (with_default validate_id None (dict_get "id" d)) as [i|] eqn:Hi.
  1: { rewrite (process_parsed self (PDict (("jsonrpc", PStr j) :: d)) request st
                  {| A2ARequest.jsonrpc := j; A2ARequest.method := m;
                     A2ARequest.params := p; A2ARequest.id := i |}).
       2: { unfold A2ARequest.new. cbn [dict_get String.eqb Ascii.eqb Bool.eqb].
            cbn [with_default validate_str]. rewrite Hm, Hp, Hi. reflexivity. }
       rewrite (process_parsed self (PDict d) request st
                  {| A2ARequest.jsonrpc := "2.0"; A2ARequest.method := m;
                     A2ARequest.params := p; A2ARequest.id := i |}).
       2: { unfold A2ARequest.new. rewrite Hj, Hm, Hp, Hi. reflexivity. }
       reflexivity. }
  all: rewrite (process_unparsed self (PDict (("jsonrpc", PStr j) :: d)) request st
                  (ValidationError "A2ARequest"
                     (refused "method" (required validate_str (dict_get "method" d))
                      ++ refused "params"
                           (with_default validate_params None (dict_get "params" d))
                      ++ refused "id"
                           (with_default validate_id None (dict_get "id" d)))));
    [|unfold A2ARequest.new; cbn [dict_get String.eqb Ascii.eqb Bool.eqb];
      cbn [with_default validate_str]; rewrite Hm, Hp, Hi; reflexivity].
  all: rewrite (process_unparsed self (PDict d) request st
                  (ValidationError "A2ARequest"
                     (refused "method" (required validate_str (dict_get "method" d))
                      ++ refused "params"
                           (with_default validate_params None (dict_get "params" d))
                      ++ refused "id"
                           (with_default validate_id None (dict_get "id" d)))));
    [reflexivity|unfold A2ARequest.new; rewrite Hj, Hm, Hp, Hi; reflexivity].
Qed.

(** *** Batches of one *)



(** *** What a dispatch leaves behind *)

(** Closes the goals about a state that is [st] with records or calls
    appended. *)
Ltac appended Hm :=
  cbn; rewrite ?app_nil_r;
  repeat match goal with
         | |- _ /\ _ => split
         | |- _ = [] -> _ => first [discriminate | intros _; reflexivity]
         | |- _ = _ => reflexivity
         | |- (_ <= _)%nat => cbn; lia
         | |- Forall _ [] => constructor
         | |- Forall _ (_ :: _) => constructor; [cbn; rewrite Hm; eauto|]
         end.

(** One unit appends at most one record to the log and at most one call, to
    a registered method; without a call the world is as it was. *)
Lemma process_appends self data request st :
  exists l c,
    st_log (snd (_process_single_request self data request st)) = st_log st ++ l
    /\ st_calls (snd (_process_single_request self data request st))
       = st_calls st ++ c
    /\ (length c <= 1)%nat
    /\ Forall (fun nc => is_Some (_methods self !! fst nc)) c
    /\ (c = [] ->
        st_world (snd (_process_single_request self data request st))
        = st_world st).
Proof.
  destruct (A2ARequest.new data) as [q|e] eqn:Hnew.
  - rewrite (process_parsed _ _ _ _ _ Hnew).
    destruct (_methods self !! A2ARequest.method q) as [h|] eqn:Hm.
    + destruct (h_annotations h) as [sig|].
      * cbv zeta.
        destruct (h_call h _ (st_world st)) as [[v|e] w]; cbn [fst snd].
        -- exists [], [(A2ARequest.method q,
                        dispatch_call sig request (A2ARequest.params q))].
           appended Hm.
        -- destruct e; eexists [_], [_]; appended Hm.
      * eexists [_], []. appended Hm.
    + exists [], []. appended Hm.
  - rewrite (process_unparsed _ _ _ _ _ Hnew).
    eexists [_], []. appended Hnew.
Qed.

(** The same over the units of a batch. *)
Lemma state_after_appends self request (items : list pyval) st :
  exists l c,
    st_log (state_after self request items st) = st_log st ++ l
    /\ st_calls (state_after self request items st) = st_calls st ++ c
    /\ (length c <= length items)%nat
    /\ Forall (fun nc => is_Some (_methods self !! fst nc)) c
    /\ (c = [] -> st_world (state_after self request items st) = st_world st).
Proof.
  revert st. induction items as [|x xs IH]; intros st.
  - exists [], []. cbn. rewrite !app_nil_r. repeat split; auto.
  - destruct (process_appends self x request st)
      as (l1 & c1 & Hl1 & Hc1 & Hn1 & Hr1 & Hw1).
    destruct (IH (snd (_process_single_request self x request st)))
      as (l2 & c2 & Hl2 & Hc2 & Hn2 & Hr2 & Hw2).
    exists (l1 ++ l2), (c1 ++ c2).
    unfold state_after in *. cbn [fold_left].
    rewrite Hl2, Hc2, Hl1, Hc1, <- !app_assoc.
    repeat split; auto.
    + rewrite length_app. cbn [length]. lia.
    + apply Forall_app. split; assumption.
    + intros Hnil. apply app_eq_nil in Hnil as [-> ->].
      rewrite (Hw2 eq_refl). exact (Hw1 eq_refl).
Qed.

(** X6.  [handle_request] only ever appends to the log and to the list of
    handler calls; it makes at most one call per unit of the body, each to a
    method that is registered, and when it makes none the world is as it
    was. *)
Theorem handle_request_appends self request st :
  exists l c,
    st_log (snd (handle_request self request st)) = st_log st ++ l
    /\ st_calls (snd (handle_request self request st)) = st_calls st ++ c
    /\ (length c <= unit_count (request_json request))%nat
    /\ Forall (fun nc => is_Some (_methods self !! fst nc)) c
    /\ (c = [] -> st_world (snd (handle_request self request st)) = st_world st).
Proof.
  destruct (request_json request) as [body|e] eqn:Hjson.
  - destruct (truthy body) eqn:Htruthy.
    + assert (Hlist : (exists items, body = PList items /\ items <> [])
                      \/ ((forall l, body <> PList l)
                          /\ unit_count (Ok body) = 1%nat)).
      { destruct body as [| | | | |items| |];
          try (right; split; [intros l; discriminate|reflexivity]).
        left. exists items. split; [reflexivity|]. intros ->. discriminate. }
      destruct Hlist as [(items & -> & Hne)|[Hnl Hone]].
      * destruct (handle_request_batch self request st items Hjson Hne)
          as (results & Hrun & _).
        rewrite Hrun. cbn [snd unit_count].
        apply state_after_appends.
      * rewrite (handle_request_single _ _ _ _ Hjson Htruthy Hnl), Hone.
        apply process_appends.
    + rewrite (handle_request_falsy _ _ _ _ Hjson Htruthy).
      eexists [_], []. appended Hjson.
  - rewrite (handle_request_undecoded _ _ _ _ Hjson).
    destruct e; eexists [_], []; appended Hjson.
Qed.

(** *** Notification mode *)

(** The body of [_process_single_notification] once the unit is parsed. *)
Lemma notification_parsed self data request st n :
  A2ANotification.new data = Ok n ->
  _process_single_notification self data request st =
    match _methods self !! A2ANotification.method n with
    | None =>
        (Ok tt, logged st {| lr_level := WARNING;
                             lr_msg := "Notification method not found: "
                                       ++ A2ANotification.method n;
                             lr_exc := None |})
    | Some h =>
        match h_annotations h with
        | None =>
            (Ok tt, logged st {| lr_level := ERROR;
                                 lr_msg := "Error processing notification: ";
                                 lr_exc := Some (AttributeError
                                                   "object has no attribute '__annotations__'") |})
        | Some sig =>
            let a := dispatch_call sig request (A2ANotification.params n) in
            let st1 := called st (A2ANotification.method n) a
                         (snd (h_call h a (st_world st))) in
            match fst (h_call h a (st_world st)) with
            | Ok _ => (Ok tt, st1)
            | Raise e =>
                (Ok tt, logged st1 {| lr_level := ERROR;
                                      lr_msg := "Error in notification handler "
                                                ++ A2ANotification.method n;
                                      lr_exc := Some e |})
            end
        end
    end.
Proof.
  intros Hnew.
  unfold _process_single_notification, try_except, bind, lift. rewrite Hnew.
  destruct (_methods self !! A2ANotification.method n) as [h|]; [|reflexivity].
  unfold get_annotations. destruct (h_annotations h) as [sig|]; [|reflexivity].
  cbn [ret]. unfold await_handler, dispatch_call.
  destruct (h_call h _ (st_world st)) as [[v|e] w]; reflexivity.
Qed.

(** X7.  A notification never reports back.  If its method is not registered
    a warning is logged and no handler runs; if it is, the handler is called
    once, and whatever it raises is logged and swallowed: [None] is returned
    in every case. *)
Theorem notification_outcomes :
  (forall self data request st n,
      A2ANotification.new data = Ok n ->
      _methods self !! A2ANotification.method n = None ->
      _process_single_notification self data request st
      = (Ok tt, logged st {| lr_level := WARNING;
                             lr_msg := "Notification method not found: "
                                       ++ A2ANotification.method n;
                             lr_exc := None |}))
  /\ (forall self data request st n h sig o w,
        A2ANotification.new data = Ok n ->
        _methods self !! A2ANotification.method n = Some h ->
        h_annotations h = Some sig ->
        h_call h (dispatch_call sig request (A2ANotification.params n)) (st_world st)
        = (o, w) ->
        _process_single_notification self data request st
        = (Ok tt,
           match o with
           | Ok _ =>
               called st (A2ANotification.method n)
                 (dispatch_call sig request (A2ANotification.params n)) w
           | Raise e =>
               logged (called st (A2ANotification.method n)
                         (dispatch_call sig request (A2ANotification.params n)) w)
                 {| lr_level := ERROR;
                    lr_msg := "Error in notification handler "
                              ++ A2ANotification.method n;
                    lr_exc := Some e |}
           end)).
Proof.
  split.
  - intros self data request st n Hnew Hm.
    rewrite (notification_parsed _ _ _ _ _ Hnew), Hm. reflexivity.
  - intros self data request st n h sig o w Hnew Hm Hsig Hcall.
    rewrite (notification_parsed _ _ _ _ _ Hnew), Hm, Hsig. cbv zeta.
    rewrite Hcall. destruct o; reflexivity.
Qed.

(** X8.  A batch of notifications is run unit by unit in the order of the
    input, each unit from the state its predecessor left, to the last unit
    whatever the earlier ones did; [None] is returned. *)
Theorem notification_batch_in_order self request st (items : list pyval) :
  request_json request = Ok (PList items) ->
  items <> [] ->
  handle_notification self request st
  = (Ok tt, notified_after self request items st)
  /\ forall i item, items !! i = Some item ->
       notified_after self request (take (S i) items) st
       = snd (_process_single_notification self item request
                (notified_after self request (take i items) st)).
Proof.
  intros Hjson Hne. split.
  - exact (handle_notification_batch self request st items Hjson Hne).
  - intros i item Hi. exact (notified_after_step self request st items i item Hi).
Qed.

(** A unit without an [id] parses as a notification exactly when it parses
    as a request, to the same method and parameters. *)
Lemma idless_both_parse data :
  has_id data = false ->
  match A2ARequest.new data, A2ANotification.new data with
  | Ok q, Ok n =>
      A2ARequest.method q = A2ANotification.method n
      /\ A2ARequest.params q = A2ANotification.params n
  | Raise _, Raise _ => True
  | _, _ => False
  end.
Proof.
  destruct data as [| | | | | |d|]; try (intros _; exact I).
  unfold has_id, A2ARequest.new, A2ANotification.new.
  destruct (with_default validate_str "2.0" (dict_get "jsonrpc" d)) as [j|];
    destruct (required validate_str (dict_get "method" d)) as [m|];
    destruct (with_default validate_params None (dict_get "params" d)) as [p|];
    destruct (dict_get "id" d) as [[]|]; cbn; intros Hid;
    try discriminate; auto.
Qed.

(** X9.  A unit without an [id] has the same effect on the handlers in both
    modes: request mode and notification mode make the same calls and leave
    the same world; they differ in what they return and log. *)
Theorem notification_same_effect_in_both_modes self data request st :
  has_id data = false ->
  st_calls (snd (_process_single_notification self data request st))
  = st_calls (snd (_process_single_request self data request st))
  /\ st_world (snd (_process_single_notification self data request st))
     = st_world (snd (_process_single_request self data request st)).
Proof.
  intros Hid. pose proof (idless_both_parse data Hid) as Hboth.
  destruct (A2ARequest.new data) as [q|e] eqn:Hq;
    destruct (A2ANotification.new data) as [n|e'] eqn:Hn; try contradiction.
  - destruct Hboth as [Hm Hp].
    rewrite (process_parsed _ _ _ _ _ Hq), (notification_parsed _ _ _ _ _ Hn).
    rewrite <- Hm, <- Hp.
    destruct (_methods self !! A2ARequest.method q) as [h|]; [|split; reflexivity].
    destruct (h_annotations h) as [sig|]; [|split; reflexivity].
    cbv zeta.
    destruct (h_call h _ (st_world st)) as [[v|e] w]; cbn [fst snd];
      [split; reflexivity|].
    destruct e; split; reflexivity.
  - rewrite (process_unparsed _ _ _ _ _ Hq), (notification_unparsed _ _ _ _ _ Hn).
    split; reflexivity.
Qed.

(** *** Named and positional parameters *)

(** X10.  [echo] answers the same whether its message comes by name or by
    position: the units with [params] [[v]] and [{"message": v}] get the same
    response, for every value [v] and every [id]. *)
Theorem echo_named_or_positional self request st (v x : pyval) :
  _methods self !! "echo" = Some (pure_handler ["message"; "return"] echo) ->
  fst (_process_single_request self
         (PDict [("method", PStr "echo"); ("params", PList [v]); ("id", x)])
         request st)
  = fst (_process_single_request self
           (PDict [("method", PStr "echo"); ("params", PDict [("message", v)]);
                   ("id", x)])
           request st).
Proof.
  intros Hecho.
  destruct (validate_id x) as [i|] eqn:Hx.
  - rewrite (process_parsed self
               (PDict [("method", PStr "echo"); ("params", PList [v]); ("id", x)])
               request st
               {| A2ARequest.jsonrpc := "2.0"; A2ARequest.method := "echo";
                  A2ARequest.params := Some (ParamsList [v]); A2ARequest.id := i |})
      by (unfold A2ARequest.new; cbn; rewrite Hx; reflexivity).
    rewrite (process_parsed self
               (PDict [("method", PStr "echo"); ("params", PDict [("message", v)]);
                       ("id", x)])
               request st
               {| A2ARequest.jsonrpc := "2.0"; A2ARequest.method := "echo";
                  A2ARequest.params := Some (ParamsDict [("message", v)]);
                  A2ARequest.id := i |})
      by (unfold A2ARequest.new; cbn; rewrite Hx; reflexivity).
    cbn [A2ARequest.method A2ARequest.params A2ARequest.id]. rewrite Hecho.
    cbn. destruct (py_len v); reflexivity.
  - rewrite (process_unparsed self
               (PDict [("method", PStr "echo"); ("params", PList [v]); ("id", x)])
               request st (ValidationError "A2ARequest" ["id"]))
      by (unfold A2ARequest.new; cbn; rewrite Hx; reflexivity).
    rewrite (process_unparsed self
               (PDict [("method", PStr "echo"); ("params", PDict [("message", v)]);
                       ("id", x)])
               request st (ValidationError "A2ARequest" ["id"]))
      by (unfold A2ARequest.new; cbn; rewrite Hx; reflexivity).
    reflexivity.
Qed.

End DispatcherProperties.

(** ** Properties of the LLM service and of the handlers on it *)

Section ServiceProperties.

Context {World : Type}.
Implicit Types (llm : @LLMService World) (w : World).

(** *** Stripping *)

Lemma lstrip_spec s :
  exists a, s = (a ++ lstrip s)%string
            /\ all_space a = true
            /\ starts_with_space (lstrip s) = false.
Proof.
  induction s as [|c s IH]; cbn.
  - exists EmptyString. auto.
  - destruct (py_isspace c) eqn:Hc.
    + destruct IH as (a & Ha & Hsp & Hst).
      exists (String c a). split; [|split].
      * change (String c s = String c (a ++ lstrip s)%string). f_equal. exact Ha.
      * cbn. rewrite Hc. exact Hsp.
      * exact Hst.
    + exists EmptyString. cbn. rewrite Hc. auto.
Qed.

Lemma rstrip_spec s :
  exists b, s = (rstrip s ++ b)%string
            /\ all_space b = true
            /\ ends_with_space (rstrip s) = false.
Proof.
  induction s as [|c s IH]; cbn.
  - exists EmptyString. auto.
  - destruct IH as (b & Hb & Hsp & Hend).
    destruct (rstrip s) as [|c' r] eqn:Hr.
    + change (s = b) in Hb. subst b.
      destruct (py_isspace c) eqn:Hc.
      * exists (String c s). cbn. rewrite Hc, Hsp. auto.
      * exists s. cbn. rewrite Hc. auto.
    + exists b. split; [|split].
      * change (String c s = String c (String c' r ++ b)%string). f_equal. exact Hb.
      * exact Hsp.
      * exact Hend.
Qed.

Lemma rstrip_keeps_start s :
  starts_with_space s = false -> starts_with_space (rstrip s) = false.
Proof.
  destruct s as [|c s]; cbn; [auto|]. intros Hc.
  destruct (rstrip s); [rewrite Hc|]; cbn; auto.
Qed.

(** [strip] takes whitespace, and nothing else, off both ends. *)
Lemma strip_spec s :
  exists a b, s = (a ++ strip s ++ b)%string
              /\ all_space a = true
              /\ all_space b = true
              /\ starts_with_space (strip s) = false
              /\ ends_with_space (strip s) = false.
Proof.
  destruct (lstrip_spec s) as (a & Ha & Hspa & Hst).
  destruct (rstrip_spec (lstrip s)) as (b & Hb & Hspb & Hend).
  exists a, b. unfold strip. rewrite <- Hb, <- Ha.
  repeat split; auto. apply rstrip_keeps_start. exact Hst.
Qed.

(** *** [get_response] *)

(** What a returned text is, and what a raised exception is. *)
Lemma get_response_returned llm user_input system_prompt w r w' :
  get_response llm user_input system_prompt w = (inl r, w') ->
  exists s chat c rest,
    user_input = PStr s
    /\ String.eqb s "" = false
    /\ _client llm = Some chat
    /\ chat (settings_mistral_model llm)
         (chat_messages (prompt_or_default system_prompt) s) w
       = (ChatResponse (Some c :: rest), w')
    /\ String.eqb c "" = false
    /\ r = strip c.
Proof.
  unfold get_response.
  destruct user_input as [| | | |s| | |]; try discriminate.
  destruct (String.eqb s "") eqn:Hs; [discriminate|].
  destruct (_client llm) as [chat|]; [|discriminate].
  cbv zeta.
  destruct (chat _ _ w) as [[[|[c|] rest]|tn text] w1] eqn:Hchat; try discriminate.
  destruct (String.eqb c "") eqn:Hc; [discriminate|].
  intros [= <- <-]. exists s, chat, c, rest. repeat split; auto.
Qed.

Lemma get_response_raised llm user_input system_prompt w e w' :
  get_response llm user_input system_prompt w = (inr e, w') ->
  (e = exceptions.new_ValidationError "Input must be a non-empty string" None
   /\ w' = w
   /\ forall s, user_input = PStr s -> s = "")
  \/ (e = exceptions.new_LLMServiceError "LLM service is currently unavailable" None
      /\ _client llm = None
      /\ w' = w)
  \/ (exists type_name text,
        e = {| exceptions.cls := exceptions.LLMServiceError;
               exceptions.message :=
                 "Failed to get response from LLM service: " ++ text;
               exceptions.status_code := 503;
               exceptions.details :=
                 [("model", PStr (settings_mistral_model llm));
                  ("error_type", PStr type_name)] |}).
Proof.
  unfold get_response.
  destruct user_input as [| | | |s| | |];
    try (intros [= <- <-]; left; repeat split; intros s'; discriminate).
  destruct (String.eqb_spec s "") as [->|Hs].
  { intros [= <- <-]. left. repeat split. intros s' [= <-]. reflexivity. }
  destruct (_client llm) as [chat|];
    [|intros [= <- <-]; right; left; repeat split; reflexivity].
  cbv zeta.
  destruct (chat _ _ w) as [[[|[c|] rest]|tn text] w1];
    try (intros [= <- <-]; right; right; eexists _, _; reflexivity).
  destruct (String.eqb c ""); [|discriminate].
  intros [= <- <-]. right. right. eexists _, _. reflexivity.
Qed.

(** X11.  A text that [get_response] returns is the content of the first
    choice of the chat call, made with the model of the settings, the given
    system prompt (the default one for none or an empty one) and the input,
    with the whitespace at both ends, and nothing else, taken off. *)
Theorem get_response_text llm user_input system_prompt w r w' :
  get_response llm user_input system_prompt w = (inl r, w') ->
  exists s chat c rest a b,
    user_input = PStr s
    /\ _client llm = Some chat
    /\ chat (settings_mistral_model llm)
         (chat_messages (prompt_or_default system_prompt) s) w
       = (ChatResponse (Some c :: rest), w')
    /\ c = (a ++ r ++ b)%string
    /\ all_space a = true
    /\ all_space b = true
    /\ starts_with_space r = false
    /\ ends_with_space r = false.
Proof.
  intros Hrun.
  destruct (get_response_returned _ _ _ _ _ _ Hrun)
    as (s & chat & c & rest & Hs & _ & Hclient & Hchat & _ & ->).
  destruct (strip_spec c) as (a & b & Hc & Ha & Hb & Hst & Hend).
  exists s, chat, c, rest, a, b. repeat split; auto.
Qed.

(** X12.  An input that is not a non-empty string is refused with the
    [ValidationError] of status 422 before anything else is looked at: the
    client is not called, even if there is none. *)
Theorem get_response_rejects_input llm user_input system_prompt w :
  (forall s, user_input = PStr s -> s = "") ->
  get_response llm user_input system_prompt w
  = (inr {| exceptions.cls := exceptions.ValidationError;
            exceptions.message := "Input must be a non-empty string";
            exceptions.status_code := 422;
            exceptions.details := [] |}, w).
Proof.
  intros Hbad. unfold get_response.
  destruct user_input as [| | | |s| | |]; try reflexivity.
  rewrite (Hbad s eq_refl). reflexivity.
Qed.

(** X13.  What [get_response] raises is a [ValidationError] (422) for a bad
    input, and an [LLMServiceError] (503) otherwise: for a missing client,
    with the world untouched, or with a message that starts with
    ["Failed to get response from LLM service: "], an empty answer of the
    model being wrapped like a failure of the call. *)
Theorem get_response_failures llm user_input system_prompt w e w' :
  get_response llm user_input system_prompt w = (inr e, w') ->
  (e = exceptions.new_ValidationError "Input must be a non-empty string" None
   /\ w' = w
   /\ forall s, user_input = PStr s -> s = "")
  \/ (e = exceptions.new_LLMServiceError "LLM service is currently unavailable" None
      /\ _client llm = None
      /\ w' = w)
  \/ (exists type_name text,
        e = {| exceptions.cls := exceptions.LLMServiceError;
               exceptions.message :=
                 "Failed to get response from LLM service: " ++ text;
               exceptions.status_code := 503;
               exceptions.details :=
                 [("model", PStr (settings_mistral_model llm));
                  ("error_type", PStr type_name)] |}).
Proof. exact (get_response_raised llm user_input system_prompt w e w'). Qed.

(** *** [health_check] and [get_status] *)

(** X14.  [get_status] always answers: the agent is ["online"], its health
    is ["healthy"] exactly when the probe of the LLM returned a text and
    ["degraded"] otherwise, and the report of the LLM sits under
    [services.llm]; the branch for a failed check is never taken. *)
Theorem get_status_reports_llm llm w :
  get_status llm (Kwargs []) w
  = (Ok (PDict [("status", PStr "online");
                ("health",
                 PStr (match fst (get_response llm (PStr health_prompt) None w) with
                       | inl _ => "healthy"
                       | inr _ => "degraded"
                       end));
                ("services", PDict [("llm", PDict (fst (health_check llm w)))]);
                ("uptime", PStr "unknown");
                ("load", PStr "normal")]),
     snd (get_response llm (PStr health_prompt) None w)).
Proof.
  unfold get_status, health_check. cbn [bind_call forallb bind_keywords].
  destruct (get_response llm (PStr health_prompt) None w) as [[r|e] w1];
    reflexivity.
Qed.

(** *** [ai_chat] *)

(** X15.  Whatever goes wrong in the body of [ai_chat] leaves it as the
    protocol error with code -32603 and a message that starts with
    ["Internal error: "], the missing message included, whose own code -32602
    only shows inside that message; the one other exception is the
    [TypeError] of a call that does not fit the signature, raised before the
    body, with the world untouched. *)
Theorem ai_chat_raises_internal_only
    (llm_get_response : pyval -> World -> (string + string) * World)
    (model : string) (a : call_args) w e w' :
  ai_chat llm_get_response model a w = (Raise e, w') ->
  (exists text, e = A2AError (-32603) ("Internal error: " ++ text) PNone)
  \/ (bind_call [("message", None); ("context", Some PNone)] a = None
      /\ (exists text, e = TypeError text)
      /\ w' = w).
Proof.
  unfold ai_chat.
  destruct (bind_call [("message", None); ("context", Some PNone)] a)
    as [[|message [|context [|x l]]]|] eqn:Hbind.
  5: { intros [= <- <-]. right. repeat split; eauto. }
  4: { exfalso. destruct a as [kw|args]; cbn in Hbind.
       - destruct (forallb _ kw); [|discriminate].
         destruct (dict_get "message" kw); [|discriminate].
         destruct (dict_get "context" kw); discriminate.
       - destruct args as [|a1 [|a2 [|a3 args]]]; discriminate. }
  3: { destruct (truthy message); cbn [negb].
       - destruct (llm_get_response message w) as [[r|msg] w1].
         + discriminate.
         + intros [= <- <-]. left. eauto.
       - intros [= <- <-]. left. eauto. }
  1, 2: exfalso; destruct a as [kw|args]; cbn in Hbind.
  - destruct (forallb _ kw); [|discriminate].
    destruct (dict_get "message" kw); [|discriminate].
    destruct (dict_get "context" kw); discriminate.
  - destruct args as [|a1 [|a2 [|a3 args]]]; discriminate.
  - destruct (forallb _ kw); [|discriminate].
    destruct (dict_get "message" kw); [|discriminate].
    destruct (dict_get "context" kw); discriminate.
  - destruct args as [|a1 [|a2 [|a3 args]]]; discriminate.
Qed.

(** Injecting the context keeps the keywords within [message] and
    [context]. *)
Lemma chat_keywords_kept v (d : list (string * pyval)) :
  forallb (fun kv => existsb (String.eqb (fst kv)) ["message"; "context"]) d = true ->
  forallb (fun kv => existsb (String.eqb (fst kv)) ["message"; "context"])
    (dict_set "context" v d) = true.
Proof.
  induction d as [|[k u] d IH]; cbn [forallb dict_set]; [reflexivity|].
  intros H. apply andb_prop in H as [Hk Hd].
  destruct (String.eqb "context" k) eqn:E; cbn [forallb].
  - rewrite Hd. reflexivity.
  - rewrite Hk, (IH Hd). reflexivity.
Qed.

(** X16.  An [ai.chat] request with a non-empty message, sent to the service
    whose LLM answers, is answered with success: the response is the stripped
    content of the first choice, asked with the default system prompt, and
    the ["context"] of the result is the context of the request, whatever
    the caller sent under that name. *)
Theorem ai_chat_end_to_end llm request st (d : list (string * pyval))
    (s : string) (x : pyval) i chat c rest w' :
  dict_get "message" d = Some (PStr s) ->
  String.eqb s "" = false ->
  forallb (fun kv => existsb (String.eqb (fst kv)) ["message"; "context"]) d = true ->
  validate_id x = Some i ->
  _client llm = Some chat ->
  chat (settings_mistral_model llm) (chat_messages _get_default_system_prompt s)
    (st_world st)
  = (ChatResponse (Some c :: rest), w') ->
  String.eqb c "" = false ->
  _process_single_request (a2a_service llm)
    (PDict [("jsonrpc", PStr "2.0"); ("method", PStr "ai.chat");
            ("params", PDict d); ("id", x)])
    request st
  = (Ok (success_envelope (id_to_py i)
           (PDict [("response", PStr (strip c));
                   ("context", PContext (new_context request));
                   ("model", PStr (settings_mistral_model llm));
                   ("timestamp", PStr "2024-01-01T00:00:00Z")])),
     called st "ai.chat"
       (Kwargs (dict_set "context" (PContext (new_context request)) d)) w').
Proof.
  intros Hmsg Hs Hkeys Hx Hclient Hchat Hc.
  rewrite (process_parsed (a2a_service llm) _ request st
             {| A2ARequest.jsonrpc := "2.0"; A2ARequest.method := "ai.chat";
                A2ARequest.params := Some (ParamsDict d); A2ARequest.id := i |})
    by (unfold A2ARequest.new; cbn; rewrite Hx; reflexivity).
  cbn [A2ARequest.method A2ARequest.params A2ARequest.id].
  unfold a2a_service.
  rewrite register_method_other by discriminate.
  unfold _register_methods. rewrite register_method_lookup.
  cbn [h_annotations h_call].
  assert (Hcall : dispatch_call ["message"; "context"; "return"] request
                    (Some (ParamsDict d))
                  = Kwargs (dict_set "context" (PContext (new_context request)) d)).
  { destruct d; [discriminate|reflexivity]. }
  rewrite Hcall. cbv zeta.
  assert (Hrun : ai_chat (llm_text llm) (settings_mistral_model llm)
                   (Kwargs (dict_set "context" (PContext (new_context request)) d))
                   (st_world st)
                 = (Ok (PDict [("response", PStr (strip c));
                               ("context", PContext (new_context request));
                               ("model", PStr (settings_mistral_model llm));
                               ("timestamp", PStr "2024-01-01T00:00:00Z")]), w')).
  { unfold ai_chat. cbn [bind_call map fst].
    rewrite (chat_keywords_kept _ d Hkeys). cbn [bind_keywords].
    rewrite (dict_get_set_ne "context" "message") by discriminate.
    rewrite Hmsg, dict_get_set_eq. cbn [option_map truthy].
    rewrite Hs. cbn [negb].
    unfold llm_text, get_response. rewrite Hs, Hclient. cbv zeta.
    cbn [prompt_or_default]. rewrite Hchat, Hc. reflexivity. }
  rewrite Hrun. reflexivity.
Qed.

End ServiceProperties.

(** ** Properties of the routes and of the exception handlers *)

Section RouteProperties.

Context {World : Type}.
Implicit Types (llm : @LLMService World) (w : World).

(** A stripped text has no whitespace at either end. *)
Lemma strip_ends s :
  starts_with_space (strip s) = false /\ ends_with_space (strip s) = false.
Proof. destruct (strip_spec s) as (a & b & _ & _ & _ & Hst & Hend). auto. Qed.

(** X17.  The [/health] endpoint says ["healthy"] whenever the LLM service
    exists, whatever the service reports about itself under [services.llm],
    ["unhealthy"] included; it says ["degraded"] only when the service could
    not be built. *)
Theorem health_endpoint_status (service : LLMService + exceptions.t) w :
  match service with
  | inl llm =>
      exists report,
        fst (health_endpoint service w)
        = PDict [("status", PStr "healthy");
                 ("services", PDict [("llm", PDict report)])]
        /\ dict_get "status" report
           = Some (PStr (match fst (get_response llm (PStr health_prompt) None w) with
                         | inl _ => "healthy"
                         | inr _ => "unhealthy"
                         end))
  | inr e =>
      health_endpoint service w
      = (PDict [("status", PStr "degraded");
                ("error", PStr (exceptions.message e))], w)
  end.
Proof.
  destruct service as [llm|e]; [|reflexivity].
  unfold health_endpoint, health_check.
  destruct (get_response llm (PStr health_prompt) None w) as [[r|e] w1];
    eexists; split; reflexivity.
Qed.

(** X18.  The webhook answers its sender: a response goes to the channel of
    the message with the sender as recipient, and its content is the text of
    the LLM without whitespace at either end.  On a service that was built
    it fails with status 422 for an empty content, without touching the LLM,
    and with 503 otherwise.  On a service that could not be built it fails
    whatever the content, the empty one included, with the status of the
    exception of the construction, which is 503 for the one that
    [LLMService.__init__] raises; nothing else is touched.  The handler of
    the application then labels every such failure [internal_error] in the
    body, under the status and with the message of the failure. *)
Theorem webhook_answers :
  (forall (service : LLMService + exceptions.t) (message : WebhookMessage.t) w,
      match telex_webhook_handler service message w with
      | (inl response, w') =>
          exists llm,
            service = inl llm
            /\ String.eqb (WebhookMessage.content message) "" = false
            /\ TelexResponse.channel_id response = WebhookMessage.channel_id message
            /\ TelexResponse.recipient_id response = WebhookMessage.sender_id message
            /\ TelexResponse.response_type response = "message"
            /\ get_response llm (PStr (WebhookMessage.content message)) None w
               = (inl (TelexResponse.content response), w')
            /\ starts_with_space (TelexResponse.content response) = false
            /\ ends_with_space (TelexResponse.content response) = false
      | (inr exc, w') =>
          match service with
          | inl llm =>
              if String.eqb (WebhookMessage.content message) ""
              then exc = {| HTTPException.status_code := 422;
                            HTTPException.detail := PStr "Empty message received" |}
                   /\ w' = w
              else exists e,
                     get_response llm (PStr (WebhookMessage.content message)) None w
                     = (inr e, w')
                     /\ exc = {| HTTPException.status_code := 503;
                                 HTTPException.detail :=
                                   PStr (exceptions.message e) |}
          | inr e => exc = webhook_failure e /\ w' = w
          end
          /\ exists text,
               HTTPException.detail exc = PStr text
               /\ http_exception_handler exc
                  = Ok {| JSONResponse.status_code := HTTPException.status_code exc;
                          JSONResponse.content :=
                            error_body INTERNAL_ERROR text
                              "Please check your request and try again" |}
      end)
  /\ (forall (api_key : option string) (model : string)
        (make_client :
           string ->
           (string -> list ChatMessage -> World -> chat_result * World) + string)
        (e : exceptions.t) (message : WebhookMessage.t) w,
        new_LLMService api_key model make_client = inr e ->
        telex_webhook_handler (inr e) message w
        = (inr {| HTTPException.status_code := 503;
                  HTTPException.detail := PStr (exceptions.message e) |}, w)).
Proof.
  split.
  - intros service message w. unfold telex_webhook_handler.
    destruct service as [llm|e0].
    + unfold process_message.
      destruct (String.eqb (WebhookMessage.content message) "") eqn:Hc.
      * split; [split; reflexivity|]. eexists. split; reflexivity.
      * destruct (get_response llm (PStr (WebhookMessage.content message)) None w)
          as [[r|e] w1] eqn:Hrun.
        -- destruct (get_response_returned _ _ _ _ _ _ Hrun)
             as (s & chat & c & rest & _ & _ & _ & _ & _ & ->).
           exists llm.
           cbn [TelexResponse.channel_id TelexResponse.recipient_id
                TelexResponse.response_type TelexResponse.content].
           destruct (strip_ends c) as [Hst Hend]. repeat split; auto.
        -- destruct (get_response_raised _ _ _ _ _ _ Hrun)
             as [(-> & _ & Hbad)|[(-> & _ & _)|(tn & text & ->)]].
           ++ rewrite (Hbad _ eq_refl) in Hc. discriminate.
           ++ split; [exists (exceptions.new_LLMServiceError
                                "LLM service is currently unavailable" None);
                      split; reflexivity|].
              eexists. split; reflexivity.
           ++ split; [eexists; split; reflexivity|].
              eexists. split; reflexivity.
    + split; [split; reflexivity|].
      unfold webhook_failure. destruct (exceptions.cls e0);
        eexists; split; reflexivity.
  - intros api_key model make_client e message w. unfold new_LLMService.
    destruct api_key as [key|]; [|intros [= <-]; reflexivity].
    destruct (String.eqb key ""); [intros [= <-]; reflexivity|].
    destruct (make_client key) as [chat|text]; [discriminate|].
    intros [= <-]. reflexivity.
Qed.

(** X19.  On [/a2a/chat] every failure is a 500 whose detail is the message
    of the exception that was raised, by [get_response] or by the
    construction of the service, labelled [internal_error] by the handler of
    the application; the empty message, which the webhook refuses with 422,
    is such a 500 here. *)
Theorem chat_endpoint_failures :
  (forall (service : LLMService + exceptions.t) message context w exc w',
      chat_endpoint service message context w = (inr exc, w') ->
      exists e,
        match service with
        | inl llm => get_response llm (PStr message) None w = (inr e, w')
        | inr e0 => e0 = e /\ w' = w
        end
        /\ exc = {| HTTPException.status_code := 500;
                    HTTPException.detail := PStr (exceptions.message e) |}
        /\ http_exception_handler exc
           = Ok {| JSONResponse.status_code := 500;
                   JSONResponse.content :=
                     error_body INTERNAL_ERROR (exceptions.message e)
                       "Please check your request and try again" |})
  /\ (forall llm context w,
        chat_endpoint (inl llm) "" context w
        = (inr {| HTTPException.status_code := 500;
                  HTTPException.detail := PStr "Input must be a non-empty string" |},
           w)).
Proof.
  split.
  - intros service message context w exc w'. unfold chat_endpoint.
    destruct service as [llm|e0].
    + destruct (get_response llm (PStr message) None w) as [[r|e] w1];
        [discriminate|].
      intros [= <- <-]. exists e. repeat split; reflexivity.
    + intros [= <- <-]. exists e0. repeat split; reflexivity.
  - intros llm context w. reflexivity.
Qed.

(** [handle_request] returns. *)
Lemma handle_request_returns (self : @A2AHandler World) request st :
  exists v, handle_request self request st
            = (Ok v, snd (handle_request self request st)).
Proof.
  destruct (request_json request) as [body|e] eqn:Hjson.
  - destruct (truthy body) eqn:Htruthy.
    + assert (Hlist : (exists items, body = PList items /\ items <> [])
                      \/ (forall l, body <> PList l)).
      { destruct body as [| | | | |items| |];
          try (right; intros l; discriminate).
        left. exists items. split; [reflexivity|]. intros ->. discriminate. }
      destruct Hlist as [(items & -> & Hne)|Hnl].
      * destruct (handle_request_batch self request st items Hjson Hne)
          as (results & -> & _).
        eexists. reflexivity.
      * rewrite (handle_request_single _ _ _ _ Hjson Htruthy Hnl).
        destruct (process_total self body request st) as (v & st' & -> & _).
        eexists. reflexivity.
    + rewrite (handle_request_falsy _ _ _ _ Hjson Htruthy). eexists. reflexivity.
  - rewrite (handle_request_undecoded _ _ _ _ Hjson).
    destruct e; eexists; reflexivity.
Qed.

(** X20.  The [/a2a] endpoint hands on what [handle_request] returns, error
    envelopes included, as an ordinary return value and in the state that
    [handle_request] left: none of its [except] clauses is entered, so it
    builds no response with a status of its own and raises nothing. *)
Theorem a2a_endpoint_returns (self : @A2AHandler World) request st :
  exists v,
    handle_request self request st = (Ok v, snd (handle_request self request st))
    /\ a2a_endpoint self request st
       = (Ok (Returned v), snd (handle_request self request st)).
Proof.
  destruct (handle_request_returns self request st) as (v & Hrun).
  exists v. split; [exact Hrun|].
  unfold a2a_endpoint, try_except, bind. rewrite Hrun. reflexivity.
Qed.

(** X21.  [ErrorResponse.internal_error] and [ErrorResponse.not_found] never
    leave the suggestion out or empty: a suggestion that is [None] or the
    empty string is replaced by the default one, any other is kept; the
    message of [not_found] names the resource, and the [id] if there is one.
    [ErrorResponse.validation_error] keeps what it is given: the message,
    the field, the value and the suggestion are dumped as they were passed,
    an empty suggestion included, and what was not passed or is [None] has
    no entry, so that its dump has no ["suggestion"] when none was given. *)
Theorem factories_suggestions :
  (forall message suggestion,
      exists s,
        ErrorResponse.model_dump (ErrorResponse_internal_error message suggestion)
        = error_body INTERNAL_ERROR message s
        /\ String.eqb s "" = false
        /\ (suggestion = None \/ suggestion = Some "" ->
            s = "Please try again later or contact support if the problem persists.")
        /\ (forall g, suggestion = Some g -> g <> "" -> s = g))
  /\ (forall resource id_text suggestion,
        exists s,
          ErrorResponse.model_dump (ErrorResponse_not_found resource id_text suggestion)
          = error_body NOT_FOUND
              (match id_text with
               | None => resource ++ " not found"
               | Some i => resource ++ " not found with id: " ++ i
               end) s
          /\ String.eqb s "" = false
          /\ (suggestion = None \/ suggestion = Some "" ->
              s = "Please check the resource ID and try again.")
          /\ (forall g, suggestion = Some g -> g <> "" -> s = g))
  /\ (forall message field value suggestion,
        exists detail,
          ErrorResponse.model_dump
            (ErrorResponse_validation_error message field value suggestion)
          = PDict [("success", PBool false);
                   ("error", PDict detail);
                   ("meta", PDict [])]
          /\ dict_get "type" detail = Some (PStr "validation_error")
          /\ dict_get "message" detail = Some (PStr message)
          /\ dict_get "field" detail = option_map PStr field
          /\ dict_get "value" detail = match value with
                                       | Some PNone => None
                                       | v => v
                                       end
          /\ dict_get "suggestion" detail = option_map PStr suggestion)
  /\ (forall message,
        ErrorResponse.model_dump
          (ErrorResponse_validation_error message None None None)
        = PDict [("success", PBool false);
                 ("error", PDict [("type", PStr "validation_error");
                                  ("message", PStr message)]);
                 ("meta", PDict [])]).
Proof.
  split; [|split; [|split]].
  - intros message suggestion. eexists. split; [reflexivity|].
    unfold suggestion_or. destruct suggestion as [g|].
    + destruct (String.eqb_spec g "") as [->|Hg].
      * repeat split; auto. intros g [= <-] Hne. contradiction.
      * split; [apply String.eqb_neq; exact Hg|]. split.
        -- intros [H|[= H]]; [discriminate|contradiction].
        -- intros g' [= <-] _. reflexivity.
    + repeat split; auto. intros g H. discriminate.
  - intros resource id_text suggestion. eexists. split.
    { unfold ErrorResponse_not_found. destruct id_text; reflexivity. }
    unfold suggestion_or. destruct suggestion as [g|].
    + destruct (String.eqb_spec g "") as [->|Hg].
      * repeat split; auto. intros g [= <-] Hne. contradiction.
      * split; [apply String.eqb_neq; exact Hg|]. split.
        -- intros [H|[= H]]; [discriminate|contradiction].
        -- intros g' [= <-] _. reflexivity.
    + repeat split; auto. intros g H. discriminate.
  - intros message field value suggestion.
    destruct field as [f|], value as [[]|], suggestion as [g|];
      eexists; (split; [reflexivity|]); repeat split; reflexivity.
  - intros message. reflexivity.
Qed.

(** X28.  [/test-llm] fails with status 503 only, and with a detail that
    starts with ["LLM service unavailable: "].  It succeeds exactly when the
    probe of the LLM returned a text, which it reports; for a probe that
    failed, the exception it raises for that is caught by its own [except]
    clause, so that the detail holds the [str] of that first exception, prefix
    included, instead of the error of the probe. *)
Theorem test_llm_connection_outcomes (py_str : pyval -> string)
    (http_exception_str : HTTPException.t -> string) :
  (forall llm w,
      test_llm_connection py_str http_exception_str (inl llm) w
      = match get_response llm (PStr health_prompt) None w with
        | (inl text, w') =>
            (inl (PDict [("status", PStr "success");
                         ("llm_response", PStr text);
                         ("message", PStr "LLM connection is working correctly!")]),
             w')
        | (inr e, w') =>
            (inr (service_unavailable
                    (http_exception_str
                       (service_unavailable (exceptions.message e)))), w')
        end)
  /\ (forall (service : LLMService + exceptions.t) w exc w',
        test_llm_connection py_str http_exception_str service w = (inr exc, w') ->
        HTTPException.status_code exc = 503
        /\ exists text,
             HTTPException.detail exc
             = PStr ("LLM service unavailable: " ++ text)).
Proof.
  assert (Hrun : forall llm w,
             test_llm_connection py_str http_exception_str (inl llm) w
             = match get_response llm (PStr health_prompt) None w with
               | (inl text, w') =>
                   (inl (PDict [("status", PStr "success");
                                ("llm_response", PStr text);
                                ("message",
                                 PStr "LLM connection is working correctly!")]),
                    w')
               | (inr e, w') =>
                   (inr (service_unavailable
                           (http_exception_str
                              (service_unavailable (exceptions.message e)))), w')
               end).
  { intros llm w. unfold test_llm_connection, health_check.
    destruct (get_response llm (PStr health_prompt) None w) as [[r|e] w1];
      reflexivity. }
  split; [exact Hrun|].
  intros service w exc w'. destruct service as [llm|e].
  - rewrite Hrun.
    destruct (get_response llm (PStr health_prompt) None w) as [[r|e] w1];
      [discriminate|].
    intros [= <- <-]. split; [reflexivity|]. eexists. reflexivity.
  - cbn. intros [= <- <-]. split; [reflexivity|]. eexists. reflexivity.
Qed.

End RouteProperties.

(** ** Properties of the other handlers *)

Section HandlerProperties.

Context {World : Type}.
Implicit Types (llm : @LLMService World) (w : World).

(** A call that binds gives one value per parameter. *)
Lemma bind_positional_length sig args l :
  bind_positional sig args = Some l -> length l = length sig.
Proof.
  revert args l. induction sig as [|[name dflt] sig IH]; intros args l.
  - destruct args; cbn; [intros [= <-]; reflexivity|discriminate].
  - destruct args as [|a args]; destruct dflt as [d|]; cbn; try discriminate.
    + destruct (bind_positional sig []) as [l'|] eqn:E; [|discriminate].
      cbn. intros [= <-]. cbn. f_equal. exact (IH _ _ E).
    + destruct (bind_positional sig args) as [l'|] eqn:E; [|discriminate].
      cbn. intros [= <-]. cbn. f_equal. exact (IH _ _ E).
    + destruct (bind_positional sig args) as [l'|] eqn:E; [|discriminate].
      cbn. intros [= <-]. cbn. f_equal. exact (IH _ _ E).
Qed.

Lemma bind_keywords_length sig kw l :
  bind_keywords sig kw = Some l -> length l = length sig.
Proof.
  revert l. induction sig as [|[name dflt] sig IH]; intros l; cbn.
  - intros [= <-]. reflexivity.
  - destruct (dict_get name kw) as [v|]; [|destruct dflt as [v|]; [|discriminate]];
      (destruct (bind_keywords sig kw) as [l'|] eqn:E; [|discriminate]);
      cbn; intros [= <-]; cbn; f_equal; exact (IH _ eq_refl).
Qed.

Lemma bind_call_length sig a l :
  bind_call sig a = Some l -> length l = length sig.
Proof.
  destruct a as [kw|args]; cbn.
  - destruct (forallb _ kw); [apply bind_keywords_length|discriminate].
  - apply bind_positional_length.
Qed.

(** A signature of two parameters binds to two values. *)
Lemma bind_call_two p1 p2 a l :
  bind_call [p1; p2] a = Some l -> exists x y, l = [x; y].
Proof.
  intros H. apply bind_call_length in H.
  destruct l as [|x [|y [|z l]]]; try discriminate. eauto.
Qed.

(** *** The construction of the service *)

(** X22.  A service that was built has a client: [get_response] on it never
    reports the service as unavailable, and what it raises is the
    [ValidationError] of a bad input or a failure of the chat call.  A
    service that could not be built failed with an [LLMServiceError] of
    status 503. *)
Theorem constructed_service_has_client (api_key : option string) (model : string)
    (make_client :
       string -> (string -> list ChatMessage -> World -> chat_result * World) + string) :
  match new_LLMService api_key model make_client with
  | inl llm =>
      (exists key chat,
          api_key = Some key
          /\ String.eqb key "" = false
          /\ make_client key = inl chat
          /\ llm = {| _client := Some chat; settings_mistral_model := model |})
      /\ forall user_input system_prompt w e w',
           get_response llm user_input system_prompt w = (inr e, w') ->
           e = exceptions.new_ValidationError "Input must be a non-empty string" None
           \/ exists text,
                exceptions.message e
                = ("Failed to get response from LLM service: " ++ text)%string
  | inr e =>
      exceptions.cls e = exceptions.LLMServiceError
      /\ exceptions.status_code e = 503
  end.
Proof.
  unfold new_LLMService.
  destruct api_key as [key|]; [|split; reflexivity].
  destruct (String.eqb key "") eqn:Hkey; [split; reflexivity|].
  destruct (make_client key) as [chat|text] eqn:Hmake; [|split; reflexivity].
  split.
  - exists key, chat. repeat split; auto.
  - intros user_input system_prompt w e w' Hrun.
    destruct (get_response_raised _ _ _ _ _ _ Hrun)
      as [(-> & _)|[(_ & Hnone & _)|(tn & text & ->)]].
    + left. reflexivity.
    + discriminate.
    + right. exists text. reflexivity.
Qed.

(** *** What the handlers raise *)

Lemma code_handler_raises llm py_str verb system_prompt key code language w e w' :
  code_handler llm py_str verb system_prompt key code language w = (Raise e, w') ->
  exists text, e = internal_error_of text.
Proof.
  unfold code_handler.
  destruct (truthy code); cbn [negb]; [|intros [= <- <-]; eauto].
  destruct (get_response llm _ _ w) as [[text|x] w1];
    [|intros [= <- <-]; eauto].
  destruct (len_or_text code); [discriminate|intros [= <- <-]; eauto].
Qed.

(** X23.  [ai_complete], [ai_review_code], [ai_explain_code] and
    [create_task] raise nothing but the protocol error of code -32603, with a
    message that starts with ["Internal error: "], whatever went wrong in
    their body, the codes -32602 and -32601 that the body names only showing
    inside that message; the one other exception is the [TypeError] of a call
    that does not fit the signature. *)
Theorem handlers_raise_internal_only llm (py_str : pyval -> string)
    (exception_str : exn -> string) (hash_text : pyval -> string) :
  raises_internal_only [("prompt", None); ("max_tokens", Some PNone)]
    (ai_complete llm)
  /\ raises_internal_only [("code", None); ("language", Some PNone)]
       (ai_review_code llm py_str)
  /\ raises_internal_only [("code", None); ("language", Some PNone)]
       (ai_explain_code llm py_str)
  /\ raises_internal_only [("method", None); ("params", None)]
       (create_task llm py_str exception_str hash_text).
Proof.
  unfold raises_internal_only. repeat split; intros a w e w'.
  - unfold ai_complete.
    destruct (bind_call _ a) as [l|] eqn:Hbind.
    + destruct (bind_call_two _ _ _ _ Hbind) as (prompt & max_tokens & ->).
      destruct (truthy prompt); cbn [negb]; [|intros [= <- <-]; left; eauto].
      destruct (get_response llm prompt _ w) as [[r|x] w1];
        [discriminate|intros [= <- <-]; left; eauto].
    + intros [= <- <-]. right. repeat split; eauto.
  - unfold ai_review_code.
    destruct (bind_call _ a) as [l|] eqn:Hbind.
    + destruct (bind_call_two _ _ _ _ Hbind) as (code & language & ->).
      intros Hrun. left. exact (code_handler_raises _ _ _ _ _ _ _ _ _ _ Hrun).
    + intros [= <- <-]. right. repeat split; eauto.
  - unfold ai_explain_code.
    destruct (bind_call _ a) as [l|] eqn:Hbind.
    + destruct (bind_call_two _ _ _ _ Hbind) as (code & language & ->).
      intros Hrun. left. exact (code_handler_raises _ _ _ _ _ _ _ _ _ _ Hrun).
    + intros [= <- <-]. right. repeat split; eauto.
  - unfold create_task.
    destruct (bind_call _ a) as [l|] eqn:Hbind.
    + destruct (bind_call_two _ _ _ _ Hbind) as (method & params & ->).
      cbv zeta.
      destruct (run_task llm py_str method params w) as [[v|x] w1].
      * discriminate.
      * intros [= <- <-]. left. eauto.
    + intros [= <- <-]. right. repeat split; eauto.
Qed.

(** X24.  [ai_review_code] asks the LLM before it takes the length of the
    code: a code that is true but has no length (a number) costs the call
    and then fails with the protocol error whose message names the type. *)
Theorem review_of_unsized_code llm (py_str : pyval -> string) code language text w w' :
  truthy code = true ->
  py_len code = None ->
  get_response llm (PStr (code_prompt py_str "review" language code))
    (Some review_system_prompt) w
  = (inl text, w') ->
  ai_review_code llm py_str (Kwargs [("code", code); ("language", language)]) w
  = (Raise (A2AError (-32603)
              ("Internal error: object of type '" ++ py_type_name code
               ++ "' has no len()")
              PNone), w').
Proof.
  intros Htruthy Hlen Hrun.
  unfold ai_review_code. cbn [bind_call forallb map fst existsb String.eqb
                              Ascii.eqb Bool.eqb andb orb bind_keywords dict_get
                              option_map].
  unfold code_handler. rewrite Htruthy. cbn [negb]. rewrite Hrun.
  unfold len_or_text. rewrite Hlen. reflexivity.
Qed.

(** X25.  [create_task] runs [ai.chat], [ai.review_code] and
    [ai.explain_code] only: for any other method, a registered one such as
    [ping] included, it raises the protocol error of code -32603 whose
    message quotes the code -32601, and touches nothing. *)
Theorem create_task_unknown_method llm (py_str : pyval -> string)
    (exception_str : exn -> string) (hash_text : pyval -> string)
    (method params : pyval) w :
  method <> PStr "ai.chat" ->
  method <> PStr "ai.review_code" ->
  method <> PStr "ai.explain_code" ->
  create_task llm py_str exception_str hash_text
    (Kwargs [("method", method); ("params", params)]) w
  = (Raise (A2AError (-32603)
              ("Internal error: [-32601] Method not found: "
               ++ py_format py_str method)
              PNone), w).
Proof.
  intros Hchat Hreview Hexplain.
  unfold create_task. cbn [bind_call forallb map fst existsb String.eqb
                           Ascii.eqb Bool.eqb andb orb bind_keywords dict_get
                           option_map].
  cbv zeta.
  assert (Hrun : run_task llm py_str method params w
                 = (Raise (A2AError (-32601)
                             ("Method not found: " ++ py_format py_str method) PNone),
                    w)).
  { assert (Hne : forall s, method <> PStr s -> py_eq_str method s = false).
    { intros s Hs. destruct method as [| | | |s'| | |]; try reflexivity.
      cbn. destruct (String.eqb_spec s' s); [congruence|reflexivity]. }
    unfold run_task.
    rewrite (Hne _ Hchat), (Hne _ Hreview), (Hne _ Hexplain). reflexivity. }
  rewrite Hrun. reflexivity.
Qed.

(** X26.  Through [task.create] the caller's own ["context"] reaches
    [ai_chat] and comes back in the result, where a direct [ai.chat] request
    has it replaced by the context of the request: [create_task] calls the
    method itself and injects nothing.  The task is reported as completed,
    with the result of the method. *)
Theorem task_keeps_caller_context llm (py_str : pyval -> string)
    (exception_str : exn -> string) (hash_text : pyval -> string)
    (d : list (string * pyval)) (s : string) (ctx : pyval) chat c rest w w' :
  dict_get "message" d = Some (PStr s) ->
  String.eqb s "" = false ->
  dict_get "context" d = Some ctx ->
  truthy ctx = true ->
  forallb (fun kv => existsb (String.eqb (fst kv)) ["message"; "context"]) d = true ->
  _client llm = Some chat ->
  chat (settings_mistral_model llm) (chat_messages _get_default_system_prompt s) w
  = (ChatResponse (Some c :: rest), w') ->
  String.eqb c "" = false ->
  create_task llm py_str exception_str hash_text
    (Kwargs [("method", PStr "ai.chat"); ("params", PDict d)]) w
  = (Ok (PDict [("task_id", PStr ("task_" ++ hash_text (PDict d)));
                ("status", PStr "completed");
                ("result",
                 PDict [("response", PStr (strip c));
                        ("context", ctx);
                        ("model", PStr (settings_mistral_model llm));
                        ("timestamp", PStr "2024-01-01T00:00:00Z")]);
                ("created_at", PStr "2024-01-01T00:00:00Z");
                ("completed_at", PStr "2024-01-01T00:00:00Z")]), w').
Proof.
  intros Hmsg Hs Hctx Htruthy Hkeys Hclient Hchat Hc.
  unfold create_task. cbn [bind_call forallb map fst existsb String.eqb
                           Ascii.eqb Bool.eqb andb orb bind_keywords dict_get
                           option_map].
  cbv zeta. unfold run_task. cbn [py_eq_str String.eqb Ascii.eqb Bool.eqb].
  unfold call_with, ai_chat. cbn [bind_call map fst].
  rewrite Hkeys. cbn [bind_keywords]. rewrite Hmsg, Hctx. cbn [option_map truthy].
  rewrite Hs. cbn [negb].
  unfold llm_text, get_response. rewrite Hs, Hclient. cbv zeta.
  cbn [prompt_or_default]. rewrite Hchat, Hc, Htruthy. reflexivity.
Qed.

(** X27.  The methods that [get_capabilities] lists are the methods that
    [_register_methods] registers, no more and no less. *)
Theorem capabilities_list_registered llm (py_str : pyval -> string)
    (exception_str : exn -> string) (hash_text : pyval -> string) (name : string) :
  exists d ms,
    get_capabilities (Kwargs []) = Ok (PDict d)
    /\ dict_get "methods" d = Some (PList ms)
    /\ (In (PStr name) ms
        <-> is_Some (_methods (register_all_methods llm py_str exception_str hash_text)
                       !! name)).
Proof.
  eexists _, _. split; [reflexivity|]. split; [reflexivity|].
  unfold register_all_methods. cbv zeta beta. unfold register_method.
  cbn [_methods]. split.
  - intros Hin. apply in_map_iff in Hin as (n & [= <-] & Hn).
    cbn in Hn.
    repeat (destruct Hn as [<-|Hn]; [eexists; reflexivity|]).
    contradiction.
  - intros [h Hh].
    repeat (rewrite lookup_insert in Hh;
            destruct (decide (_ = name)) as [<-|_];
            [apply in_map; cbn; auto 20|]).
    rewrite lookup_empty in Hh. discriminate.
Qed.

End HandlerProperties.

(** ** The examples, run *)

(** The specification's batch example: two [echo] requests, two success
    envelopes, in the order of the input. *)
Example echo_batch_run :
  fst (handle_request service
         (request_of (Ok (PList [echo_unit "a" 1; echo_unit "bb" 2])))
         initial_state)
  = Ok (PList [success_envelope (PInt 1)
                 (PDict [("echo", PStr "a"); ("length", PInt 1)]);
               success_envelope (PInt 2)
                 (PDict [("echo", PStr "bb"); ("length", PInt 2)])]).
Proof. reflexivity. Qed.

(** A batch of one unit is answered by the envelope itself. *)
Example echo_singleton_run :
  fst (handle_request service (request_of (Ok (PList [echo_unit "a" 1])))
         initial_state)
  = Ok (success_envelope (PInt 1) (PDict [("echo", PStr "a"); ("length", PInt 1)])).
Proof. reflexivity. Qed.

(** The context is injected into the keyword arguments of [ai.chat], over
    whatever the caller put under ["context"]. *)
Example chat_context_overwritten :
  st_calls (snd (_process_single_request service
                   (PDict [("method", PStr "ai.chat");
                           ("params", PDict [("context", PStr "mine");
                                             ("message", PStr "")]);
                           ("id", PStr "c")])
                   (request_of (Ok PNone)) initial_state))
  = [("ai.chat",
      Kwargs [("context", PContext (new_context (request_of (Ok PNone))));
              ("message", PStr "")])].
Proof. reflexivity. Qed.

(** The general statement above, at the [echo] request of the specification. *)
Lemma request_success_envelope_witness :
  _process_single_request service
    (PDict [("jsonrpc", PStr "2.0"); ("method", PStr "echo");
            ("params", PDict [("message", PStr "hi")]); ("id", PInt 1)])
    (request_of (Ok PNone)) initial_state
  = (Ok (PDict [("success", PBool true);
                ("data", PDict [("jsonrpc", PStr "2.0"); ("id", PInt 1);
                                ("result", PDict [("echo", PStr "hi");
                                                   ("length", PInt 2)])])]),
     called initial_state "echo" (Kwargs [("message", PStr "hi")]) tt).
Proof.
  apply (proj1 request_success_envelope service (request_of (Ok PNone))
           initial_state "echo" (pure_handler ["message"; "return"] echo)
           ["message"; "return"] (ParamsDict [("message", PStr "hi")])
           (PInt 1)).
  - reflexivity.
  - reflexivity.
  - right. exists 1. reflexivity.
  - reflexivity.
Defined.

(** The batch theorem at the two [echo] requests. *)
Lemma batch_results_in_order_witness :
  exists results : list pyval,
    length results = 2%nat
    /\ (forall i item, [echo_unit "a" 1; echo_unit "bb" 2] !! i = Some item ->
          exists r, results !! i = Some r
                    /\ fst (_process_single_request service item
                              (request_of (Ok (PList [echo_unit "a" 1; echo_unit "bb" 2])))
                              (state_after service
                                 (request_of (Ok (PList [echo_unit "a" 1; echo_unit "bb" 2])))
                                 (take i [echo_unit "a" 1; echo_unit "bb" 2])
                                 initial_state)) = Ok r)
    /\ (forall r, results = [r] ->
          handle_request service
            (request_of (Ok (PList [echo_unit "a" 1; echo_unit "bb" 2]))) initial_state
          = (Ok r, state_after service
                     (request_of (Ok (PList [echo_unit "a" 1; echo_unit "bb" 2])))
                     [echo_unit "a" 1; echo_unit "bb" 2] initial_state))
    /\ (1 < length results ->
          handle_request service
            (request_of (Ok (PList [echo_unit "a" 1; echo_unit "bb" 2]))) initial_state
          = (Ok (PList results),
             state_after service
               (request_of (Ok (PList [echo_unit "a" 1; echo_unit "bb" 2])))
               [echo_unit "a" 1; echo_unit "bb" 2] initial_state))%nat.
Proof.
  apply (batch_results_in_order service
           (request_of (Ok (PList [echo_unit "a" 1; echo_unit "bb" 2])))
           initial_state [echo_unit "a" 1; echo_unit "bb" 2]).
  - reflexivity.
  - discriminate.
Defined.

(** C3, as stated, fails: the batch has one unit with an [id] and one
    without, and the output has two entries, the second being the answer to
    the notification. *)
Lemma batch_notification_contributes_entry :
  List.filter has_id mixed_batch = [echo_unit "hi" 1]
  /\ handle_request service (request_of (Ok (PList mixed_batch))) initial_state
     = (Ok (PList [success_envelope (PInt 1)
                     (PDict [("echo", PStr "hi"); ("length", PInt 2)]);
                   success_envelope PNone pong]),
        {| st_world := tt;
           st_log := [];
           st_calls := [("echo", Kwargs [("message", PStr "hi")]);
                        ("ping", Kwargs [])] |})
  /\ length [success_envelope (PInt 1)
               (PDict [("echo", PStr "hi"); ("length", PInt 2)]);
             success_envelope PNone pong]
     <> length (List.filter has_id mixed_batch).
Proof.
  split; [reflexivity|]. split; [reflexivity|]. cbn. lia.
Qed.

(** The amended statement at the mixed batch. *)
Lemma batch_one_entry_per_unit_witness :
  exists results : list pyval,
    handle_request service (request_of (Ok (PList mixed_batch))) initial_state
    = (Ok (unwrap_single results),
       state_after service (request_of (Ok (PList mixed_batch))) mixed_batch
         initial_state)
    /\ length results = length mixed_batch
    /\ forall i item, mixed_batch !! i = Some item ->
         exists r,
           results !! i = Some r
           /\ _process_single_request service item
                (request_of (Ok (PList mixed_batch)))
                (state_after service (request_of (Ok (PList mixed_batch)))
                   (take i mixed_batch) initial_state)
              = (Ok r,
                 state_after service (request_of (Ok (PList mixed_batch)))
                   (take (S i) mixed_batch) initial_state)
           /\ envelope r
           /\ (forall q h sig v w,
                 A2ARequest.new item = Ok q ->
                 _methods service !! A2ARequest.method q = Some h ->
                 h_annotations h = Some sig ->
                 h_call h
                   (dispatch_call sig (request_of (Ok (PList mixed_batch)))
                      (A2ARequest.params q))
                   (st_world
                      (state_after service (request_of (Ok (PList mixed_batch)))
                         (take i mixed_batch) initial_state))
                 = (Ok v, w) ->
                 r = success_envelope (id_to_py (A2ARequest.id q)) v
                 /\ state_after service (request_of (Ok (PList mixed_batch)))
                      (take (S i) mixed_batch) initial_state
                    = called
                        (state_after service (request_of (Ok (PList mixed_batch)))
                           (take i mixed_batch) initial_state)
                        (A2ARequest.method q)
                        (dispatch_call sig (request_of (Ok (PList mixed_batch)))
                           (A2ARequest.params q)) w)
           /\ (has_id item = false ->
               (forall q, A2ARequest.new item = Ok q -> A2ARequest.id q = None)
               /\ forall x v, r = success_envelope x v -> x = PNone).
Proof.
  apply (batch_one_entry_per_unit service (request_of (Ok (PList mixed_batch)))
           initial_state mixed_batch).
  - reflexivity.
  - discriminate.
Defined.

(** The four rows of the table, each on a run of the service: a body that
    is not JSON, the unregistered ["nope"], [ai.chat] without a message, and
    [echo] called with a keyword it does not have. *)
Lemma error_kind_table_witness :
  fst (handle_request service
         (request_of (Raise (JSONDecodeError "Expecting value: line 1 column 1 (char 0)")))
         initial_state)
  = Ok (error_envelope BAD_REQUEST "Invalid JSON in request body"
          "Please check your request body is valid JSON")
  /\ fst (_process_single_request service nope_unit (request_of (Ok nope_unit))
            initial_state)
     = Ok (error_envelope NOT_FOUND "Method 'nope' not found"
             "Check the method name and try again")
  /\ (exists text,
        fst (_process_single_request service (chat_unit "")
               (request_of (Ok (chat_unit ""))) initial_state)
        = Ok (error_envelope BAD_REQUEST text
                "Check your request parameters and try again"))
  /\ fst (_process_single_request service bad_echo_unit
            (request_of (Ok bad_echo_unit)) initial_state)
     = Ok (error_envelope INTERNAL_ERROR "Error executing echo"
             "Please try again later").
Proof.
  destruct (@error_kind_table unit) as (Hdecode & Hfound & Hproto & Hother & _).
  split; [|split; [|split]].
  - apply (Hdecode service _ initial_state
             "Expecting value: line 1 column 1 (char 0)").
    reflexivity.
  - apply (Hfound service nope_unit (request_of (Ok nope_unit)) initial_state
             {| A2ARequest.jsonrpc := "2.0"; A2ARequest.method := "nope";
                A2ARequest.params := None; A2ARequest.id := Some (IdInt 1) |}).
    + reflexivity.
    + reflexivity.
  - apply (Hproto service (chat_unit "") (request_of (Ok (chat_unit "")))
             initial_state
             {| A2ARequest.jsonrpc := "2.0"; A2ARequest.method := "ai.chat";
                A2ARequest.params := Some (ParamsDict [("message", PStr "")]);
                A2ARequest.id := Some (IdInt 1) |}
             {| h_annotations := Some ["message"; "context"; "return"];
                h_call := ai_chat llm_unavailable "mistral-small-latest" |}
             ["message"; "context"; "return"]
             (-32603)
             "Internal error: [-32602] Invalid params: message is required"
             PNone).
    + reflexivity.
    + reflexivity.
    + reflexivity.
    + reflexivity.
  - apply (Hother service bad_echo_unit (request_of (Ok bad_echo_unit))
             initial_state
             {| A2ARequest.jsonrpc := "2.0"; A2ARequest.method := "echo";
                A2ARequest.params := Some (ParamsDict [("text", PStr "hi")]);
                A2ARequest.id := Some (IdInt 1) |}
             (pure_handler ["message"; "return"] echo)
             ["message"; "return"]
             (TypeError "echo() arguments do not match its signature")).
    + reflexivity.
    + reflexivity.
    + reflexivity.
    + reflexivity.
    + intros code message d. discriminate.
Defined.

(** C5, as stated, fails: [ai.chat] with an empty message raises the protocol
    error with code -32603 and the message ["Internal error: ..."], and the
    message of the envelope is another string, the one that starts with the
    code in brackets. *)
Lemma protocol_error_message_prefixed :
  ai_chat llm_unavailable "mistral-small-latest"
    (Kwargs [("message", PStr "");
             ("context", PContext (new_context (request_of (Ok (chat_unit "")))))])
    tt
  = (Raise (A2AError (-32603)
              "Internal error: [-32602] Invalid params: message is required"
              PNone), tt)
  /\ fst (_process_single_request service (chat_unit "")
            (request_of (Ok (chat_unit ""))) initial_state)
     = Ok (error_envelope BAD_REQUEST
             "[-32603] Internal error: [-32602] Invalid params: message is required"
             "Check your request parameters and try again")
  /\ "[-32603] Internal error: [-32602] Invalid params: message is required"
     <> "Internal error: [-32602] Invalid params: message is required".
Proof.
  split; [reflexivity|]. split; [reflexivity|]. discriminate.
Qed.

(** The amended statement at [ai.chat] without a message. *)
Lemma protocol_error_bad_request_witness :
  fst (_process_single_request service (chat_unit "")
         (request_of (Ok (chat_unit ""))) initial_state)
  = Ok (error_envelope BAD_REQUEST
          ("[" ++ str_of_int (-32603) ++ "] "
           ++ "Internal error: [-32602] Invalid params: message is required")
          "Check your request parameters and try again").
Proof.
  apply (protocol_error_bad_request service (chat_unit "")
           (request_of (Ok (chat_unit ""))) initial_state
           {| A2ARequest.jsonrpc := "2.0"; A2ARequest.method := "ai.chat";
              A2ARequest.params := Some (ParamsDict [("message", PStr "")]);
              A2ARequest.id := Some (IdInt 1) |}
           {| h_annotations := Some ["message"; "context"; "return"];
              h_call := ai_chat llm_unavailable "mistral-small-latest" |}
           ["message"; "context"; "return"]
           (-32603)
           "Internal error: [-32602] Invalid params: message is required"
           PNone tt).
  - reflexivity.
  - reflexivity.
  - reflexivity.
  - reflexivity.
Defined.

(** C6, as stated, fails: the answer to the unregistered ["nope"] is not of
    the flat shape with a ["kind"] key, whatever the kind, the message and the
    suggestion; the object under ["error"] has neither a ["kind"] nor a
    ["message"] of its own. *)
Lemma error_envelope_not_flat :
  fst (handle_request service (request_of (Ok nope_unit)) initial_state)
  = Ok (error_envelope NOT_FOUND "Method 'nope' not found"
          "Check the method name and try again")
  /\ (forall kind message suggestion,
        error_envelope NOT_FOUND "Method 'nope' not found"
          "Check the method name and try again"
        <> spec_error_envelope kind message suggestion)
  /\ (exists outer inner,
        error_envelope NOT_FOUND "Method 'nope' not found"
          "Check the method name and try again" = PDict outer
        /\ dict_get "error" outer = Some (PDict inner)
        /\ dict_get "kind" inner = None
        /\ dict_get "message" inner = None).
Proof.
  split; [reflexivity|]. split.
  - intros kind message suggestion. unfold error_envelope, spec_error_envelope.
    discriminate.
  - eexists _, _. repeat split; reflexivity.
Qed.

(** The amended statement at the unregistered ["nope"]. *)
Lemma error_response_shape_witness :
  handle_request service (request_of (Ok nope_unit)) initial_state
  = (Ok (PDict [("success", PBool false);
                ("error",
                 PDict [("success", PBool false);
                        ("error",
                         PDict [("type", PStr "not_found");
                                ("message", PStr "Method 'nope' not found");
                                ("suggestion",
                                 PStr "Check the method name and try again")]);
                        ("meta", PDict [])])]),
     initial_state).
Proof.
  apply (proj2 error_response_shape service (request_of (Ok nope_unit))
           initial_state).
  - reflexivity.
  - reflexivity.
Defined.

(** C7, as stated, fails in request mode: the empty object is answered with
    [internal_error] and the catch-all's message, not with [bad_request]. *)
Lemma empty_body_internal_error :
  handle_request service (request_of (Ok (PDict []))) initial_state
  = (Ok (error_envelope INTERNAL_ERROR
           "An error occurred while processing your request"
           "Please try again later"),
     {| st_world := tt;
        st_log := [{| lr_level := ERROR;
                      lr_msg := "Error processing request: ";
                      lr_exc := Some (ValueError "Empty request body") |}];
        st_calls := [] |})
  /\ (forall message suggestion,
        error_envelope INTERNAL_ERROR
          "An error occurred while processing your request"
          "Please try again later"
        <> error_envelope BAD_REQUEST message suggestion).
Proof.
  split; [reflexivity|].
  intros message suggestion. unfold error_envelope. cbn [ErrorType_value].
  discriminate.
Qed.

(** The amended statement at the empty object, in both modes. *)
Lemma empty_payload_witness :
  handle_request service (request_of (Ok (PDict []))) initial_state
  = (Ok (error_envelope INTERNAL_ERROR
           "An error occurred while processing your request"
           "Please try again later"),
     logged initial_state {| lr_level := ERROR;
                             lr_msg := "Error processing request: ";
                             lr_exc := Some (ValueError "Empty request body") |})
  /\ handle_notification service (request_of (Ok (PDict []))) initial_state
     = (Ok tt, logged initial_state {| lr_level := WARNING;
                                       lr_msg := "Received empty notification";
                                       lr_exc := None |}).
Proof.
  apply (proj1 empty_payload service (request_of (Ok (PDict []))) initial_state
           (PDict [])).
  - reflexivity.
  - reflexivity.
Defined.

(** C8, as stated, fails: the unit without a ["method"] is answered with
    [internal_error] and a message that names no structural problem. *)
Lemma missing_method_internal_error :
  A2ARequest.new methodless_unit = Raise (ValidationError "A2ARequest" ["method"])
  /\ handle_request service (request_of (Ok methodless_unit)) initial_state
     = (Ok (error_envelope INTERNAL_ERROR
              "An error occurred while processing your request"
              "Please try again later"),
        {| st_world := tt;
           st_log := [{| lr_level := ERROR;
                         lr_msg := "Error processing request: ";
                         lr_exc := Some (ValidationError "A2ARequest" ["method"]) |}];
           st_calls := [] |})
  /\ (forall message suggestion,
        error_envelope INTERNAL_ERROR
          "An error occurred while processing your request"
          "Please try again later"
        <> error_envelope BAD_REQUEST message suggestion).
Proof.
  split; [reflexivity|]. split; [reflexivity|].
  intros message suggestion. unfold error_envelope. cbn [ErrorType_value].
  discriminate.
Qed.

(** The amended statement at the unit without a ["method"]. *)
Lemma malformed_unit_internal_error_witness :
  _process_single_request service methodless_unit
    (request_of (Ok methodless_unit)) initial_state
  = (Ok (error_envelope INTERNAL_ERROR
           "An error occurred while processing your request"
           "Please try again later"),
     logged initial_state
       {| lr_level := ERROR;
          lr_msg := "Error processing request: ";
          lr_exc := Some (ValidationError "A2ARequest" ["method"]) |})
  /\ fst (handle_request service (request_of (Ok methodless_unit)) initial_state)
     = Ok (error_envelope INTERNAL_ERROR
             "An error occurred while processing your request"
             "Please try again later").
Proof.
  destruct (@malformed_unit_internal_error unit) as (Hunit & Hhandle & _).
  split.
  - apply (Hunit service methodless_unit (request_of (Ok methodless_unit))
             initial_state (ValidationError "A2ARequest" ["method"])).
    reflexivity.
  - apply (Hhandle service methodless_unit (request_of (Ok methodless_unit))
             initial_state (ValidationError "A2ARequest" ["method"])).
    + reflexivity.
    + intros l. discriminate.
    + reflexivity.
Defined.

(** The statement at a [ping] notification that carries [id] 7, alone and
    as the second unit of a batch. *)
Lemma notification_with_id_rejected_witness :
  (exists fields,
      In "id" fields
      /\ _process_single_notification service (PDict ping_with_id)
           (request_of (Ok (PDict ping_with_id))) initial_state
         = (Ok tt, logged initial_state
                     {| lr_level := ERROR;
                        lr_msg := "Error processing notification: ";
                        lr_exc := Some (ValidationError "A2ANotification" fields) |}))
  /\ st_calls (snd (_process_single_notification service (PDict ping_with_id)
                      (request_of (Ok (PDict ping_with_id))) initial_state))
     = []
  /\ st_calls (notified_after service
                 (request_of (Ok (PList [ping_notification; PDict ping_with_id])))
                 [ping_notification; PDict ping_with_id] initial_state)
     = st_calls (notified_after service
                   (request_of (Ok (PList [ping_notification; PDict ping_with_id])))
                   [ping_notification] initial_state)
  /\ fst (handle_notification service
            (request_of (Ok (PList [ping_notification; PDict ping_with_id])))
            initial_state) = Ok tt.
Proof.
  destruct (notification_with_id_rejected service
              (request_of (Ok (PDict ping_with_id))) initial_state ping_with_id
              (PInt 7))
    as (Hunit & Hcalls & _).
  - reflexivity.
  - discriminate.
  - split; [exact Hunit|]. split; [exact Hcalls|].
    destruct (notification_with_id_rejected service
                (request_of (Ok (PList [ping_notification; PDict ping_with_id])))
                initial_state ping_with_id (PInt 7))
      as (_ & _ & _ & Hbatch & Hnone).
    + reflexivity.
    + discriminate.
    + split; [|apply Hnone].
      exact (proj1 (Hbatch [ping_notification; PDict ping_with_id] 1%nat eq_refl)).
Defined.

(** ** The further properties, run *)

(** The binder on the parameters of [ai.chat] when the caller sends a
    ["context"] of its own. *)
Lemma context_injected_by_name_witness :
  exists kw,
    dispatch_call ["message"; "context"; "return"] (request_of (Ok PNone))
      (Some (ParamsDict [("context", PStr "mine"); ("message", PStr "hi")]))
    = Kwargs kw
    /\ dict_get "context" kw = Some (PContext (new_context (request_of (Ok PNone))))
    /\ (forall k, k <> "context" ->
          dict_get k kw
          = dict_get k [("context", PStr "mine"); ("message", PStr "hi")])
    /\ length kw = 2%nat.
Proof.
  apply (context_injected_by_name ["message"; "context"; "return"]
           (request_of (Ok PNone))
           [("context", PStr "mine"); ("message", PStr "hi")]).
  reflexivity.
Defined.

(** Registering [status] does not touch the answer to an [echo] request. *)
Lemma registration_is_local_witness :
  _process_single_request
    (register_method service "status" (pure_handler ["return"] ping))
    (echo_unit "hi" 1) (request_of (Ok PNone)) initial_state
  = _process_single_request service (echo_unit "hi" 1) (request_of (Ok PNone))
      initial_state.
Proof.
  apply (proj1 registration_is_local service "status"
           (pure_handler ["return"] ping) (echo_unit "hi" 1)
           (request_of (Ok PNone)) initial_state).
  intros q [= <-]. discriminate.
Defined.

(** A [ping] that says version 1.0. *)
Lemma jsonrpc_version_not_checked_witness :
  _process_single_request service
    (PDict [("jsonrpc", PStr "1.0"); ("method", PStr "ping"); ("id", PInt 1)])
    (request_of (Ok PNone)) initial_state
  = _process_single_request service
      (PDict [("method", PStr "ping"); ("id", PInt 1)])
      (request_of (Ok PNone)) initial_state.
Proof.
  apply (jsonrpc_version_not_checked service (request_of (Ok PNone))
           initial_state "1.0" [("method", PStr "ping"); ("id", PInt 1)]).
  reflexivity.
Defined.


(** A notification for ["nope"], and an [echo] notification of a number. *)
Lemma notification_outcomes_witness :
  _process_single_notification service
    (PDict [("jsonrpc", PStr "2.0"); ("method", PStr "nope")])
    (request_of (Ok PNone)) initial_state
  = (Ok tt, logged initial_state
              {| lr_level := WARNING;
                 lr_msg := "Notification method not found: nope";
                 lr_exc := None |})
  /\ _process_single_notification service
       (PDict [("method", PStr "echo"); ("params", PList [PInt 5])])
       (request_of (Ok PNone)) initial_state
     = (Ok tt, logged (called initial_state "echo" (Args [PInt 5]) tt)
                 {| lr_level := ERROR;
                    lr_msg := "Error in notification handler echo";
                    lr_exc := Some (TypeError "object has no len()") |}).
Proof.
  destruct (@notification_outcomes unit) as (Hunknown & Hhandler).
  split.
  - apply (Hunknown service _ (request_of (Ok PNone)) initial_state
             {| A2ANotification.jsonrpc := "2.0"; A2ANotification.method := "nope";
                A2ANotification.params := None |}).
    + reflexivity.
    + reflexivity.
  - apply (Hhandler service _ (request_of (Ok PNone)) initial_state
             {| A2ANotification.jsonrpc := "2.0"; A2ANotification.method := "echo";
                A2ANotification.params := Some (ParamsList [PInt 5]) |}
             (pure_handler ["message"; "return"] echo) ["message"; "return"]
             (Raise (TypeError "object has no len()")) tt).
    + reflexivity.
    + reflexivity.
    + reflexivity.
    + reflexivity.
Defined.

(** A batch of a [ping] and of a notification that carries an [id]. *)
Lemma notification_batch_in_order_witness :
  handle_notification service
    (request_of (Ok (PList [ping_notification; PDict ping_with_id]))) initial_state
  = (Ok tt,
     notified_after service
       (request_of (Ok (PList [ping_notification; PDict ping_with_id])))
       [ping_notification; PDict ping_with_id] initial_state)
  /\ forall i item,
       [ping_notification; PDict ping_with_id] !! i = Some item ->
       notified_after service
         (request_of (Ok (PList [ping_notification; PDict ping_with_id])))
         (take (S i) [ping_notification; PDict ping_with_id]) initial_state
       = snd (_process_single_notification service item
                (request_of (Ok (PList [ping_notification; PDict ping_with_id])))
                (notified_after service
                   (request_of (Ok (PList [ping_notification; PDict ping_with_id])))
                   (take i [ping_notification; PDict ping_with_id]) initial_state)).
Proof.
  apply (notification_batch_in_order service
           (request_of (Ok (PList [ping_notification; PDict ping_with_id])))
           initial_state [ping_notification; PDict ping_with_id]).
  - reflexivity.
  - discriminate.
Defined.

(** The [ping] notification in both modes. *)
Lemma notification_same_effect_in_both_modes_witness :
  st_calls (snd (_process_single_notification service ping_notification
                   (request_of (Ok PNone)) initial_state))
  = st_calls (snd (_process_single_request service ping_notification
                     (request_of (Ok PNone)) initial_state))
  /\ st_world (snd (_process_single_notification service ping_notification
                      (request_of (Ok PNone)) initial_state))
     = st_world (snd (_process_single_request service ping_notification
                        (request_of (Ok PNone)) initial_state)).
Proof.
  apply (notification_same_effect_in_both_modes service ping_notification
           (request_of (Ok PNone)) initial_state).
  reflexivity.
Defined.

(** [echo] of ["hi"], by position and by name. *)
Lemma echo_named_or_positional_witness :
  fst (_process_single_request service
         (PDict [("method", PStr "echo"); ("params", PList [PStr "hi"]);
                 ("id", PInt 1)])
         (request_of (Ok PNone)) initial_state)
  = fst (_process_single_request service
           (PDict [("method", PStr "echo");
                   ("params", PDict [("message", PStr "hi")]); ("id", PInt 1)])
           (request_of (Ok PNone)) initial_state).
Proof.
  apply (echo_named_or_positional service (request_of (Ok PNone)) initial_state
           (PStr "hi") (PInt 1)).
  reflexivity.
Defined.

(** The padded answer comes back stripped. *)
Lemma get_response_text_witness :
  exists s chat c rest a b,
    PStr "hello" = PStr s
    /\ _client answering_llm = Some chat
    /\ chat (settings_mistral_model answering_llm)
         (chat_messages (prompt_or_default None) s) tt
       = (ChatResponse (Some c :: rest), tt)
    /\ c = (a ++ "Looks good." ++ b)%string
    /\ all_space a = true
    /\ all_space b = true
    /\ starts_with_space "Looks good." = false
    /\ ends_with_space "Looks good." = false.
Proof.
  apply (get_response_text answering_llm (PStr "hello") None tt "Looks good." tt).
  reflexivity.
Defined.

(** A number is no input. *)
Lemma get_response_rejects_input_witness :
  get_response answering_llm (PInt 5) None tt
  = (inr {| exceptions.cls := exceptions.ValidationError;
            exceptions.message := "Input must be a non-empty string";
            exceptions.status_code := 422;
            exceptions.details := [] |}, tt).
Proof.
  apply (get_response_rejects_input answering_llm (PInt 5) None tt).
  intros s. discriminate.
Defined.

(** The service without a client. *)
Lemma get_response_failures_witness :
  (exceptions.new_LLMServiceError "LLM service is currently unavailable" None
   = exceptions.new_ValidationError "Input must be a non-empty string" None
   /\ tt = tt
   /\ forall s, PStr "hello" = PStr s -> s = "")
  \/ (exceptions.new_LLMServiceError "LLM service is currently unavailable" None
      = exceptions.new_LLMServiceError "LLM service is currently unavailable" None
      /\ _client clientless_llm = None
      /\ tt = tt)
  \/ (exists type_name text,
        exceptions.new_LLMServiceError "LLM service is currently unavailable" None
        = {| exceptions.cls := exceptions.LLMServiceError;
             exceptions.message :=
               "Failed to get response from LLM service: " ++ text;
             exceptions.status_code := 503;
             exceptions.details :=
               [("model", PStr (settings_mistral_model clientless_llm));
                ("error_type", PStr type_name)] |}).
Proof.
  apply (get_response_failures clientless_llm (PStr "hello") None tt
           (exceptions.new_LLMServiceError "LLM service is currently unavailable"
              None) tt).
  reflexivity.
Defined.

(** [ai_chat] without a message. *)
Lemma ai_chat_raises_internal_only_witness :
  (exists text,
      A2AError (-32603)
        "Internal error: [-32602] Invalid params: message is required" PNone
      = A2AError (-32603) ("Internal error: " ++ text) PNone)
  \/ (bind_call [("message", None); ("context", Some PNone)]
        (Kwargs [("message", PStr "")]) = None
      /\ (exists text,
            A2AError (-32603)
              "Internal error: [-32602] Invalid params: message is required" PNone
            = TypeError text)
      /\ tt = tt).
Proof.
  apply (ai_chat_raises_internal_only llm_unavailable "mistral-small-latest"
           (Kwargs [("message", PStr "")]) tt
           (A2AError (-32603)
              "Internal error: [-32602] Invalid params: message is required" PNone)
           tt).
  reflexivity.
Defined.

(** An [ai.chat] request on the service whose LLM answers. *)
Lemma ai_chat_end_to_end_witness :
  _process_single_request (a2a_service answering_llm)
    (PDict [("jsonrpc", PStr "2.0"); ("method", PStr "ai.chat");
            ("params", PDict [("message", PStr "hello"); ("context", PStr "mine")]);
            ("id", PInt 1)])
    (request_of (Ok PNone)) initial_state
  = (Ok (success_envelope (PInt 1)
           (PDict [("response", PStr "Looks good.");
                   ("context", PContext (new_context (request_of (Ok PNone))));
                   ("model", PStr "mistral-small-latest");
                   ("timestamp", PStr "2024-01-01T00:00:00Z")])),
     called initial_state "ai.chat"
       (Kwargs [("message", PStr "hello");
                ("context", PContext (new_context (request_of (Ok PNone))))])
       tt).
Proof.
  apply (ai_chat_end_to_end answering_llm (request_of (Ok PNone)) initial_state
           [("message", PStr "hello"); ("context", PStr "mine")] "hello" (PInt 1)
           (Some (IdInt 1)) padded_chat "  Looks good.  " [] tt).
  all: reflexivity.
Defined.

(** [/a2a/chat] on the service without a client. *)
Lemma chat_endpoint_failures_witness :
  exists e,
    get_response clientless_llm (PStr "hello") None tt = (inr e, tt)
    /\ {| HTTPException.status_code := 500;
          HTTPException.detail := PStr "LLM service is currently unavailable" |}
       = {| HTTPException.status_code := 500;
            HTTPException.detail := PStr (exceptions.message e) |}
    /\ http_exception_handler
         {| HTTPException.status_code := 500;
            HTTPException.detail := PStr "LLM service is currently unavailable" |}
       = Ok {| JSONResponse.status_code := 500;
               JSONResponse.content :=
                 error_body INTERNAL_ERROR (exceptions.message e)
                   "Please check your request and try again" |}.
Proof.
  apply (proj1 (@chat_endpoint_failures unit) (inl clientless_llm) "hello" None tt
           {| HTTPException.status_code := 500;
              HTTPException.detail := PStr "LLM service is currently unavailable" |}
           tt).
  reflexivity.
Defined.

(** The webhook when no API key is set, on a message without content. *)
Lemma webhook_answers_witness :
  telex_webhook_handler
    (inr (exceptions.new_LLMServiceError
            "MISTRAL_API_KEY environment variable is not set" None))
    empty_message tt
  = (inr {| HTTPException.status_code := 503;
            HTTPException.detail :=
              PStr "MISTRAL_API_KEY environment variable is not set" |}, tt).
Proof.
  apply (proj2 (@webhook_answers unit) None "mistral-small-latest"
           (fun _ => inr "no client")
           (exceptions.new_LLMServiceError
              "MISTRAL_API_KEY environment variable is not set" None)
           empty_message tt).
  reflexivity.
Defined.

(** [ai_review_code] without a code. *)
Lemma handlers_raise_internal_only_witness :
  (exists text,
      internal_error_of "[-32602] Invalid params: code is required"
      = internal_error_of text)
  \/ (bind_call [("code", None); ("language", Some PNone)]
        (Kwargs [("code", PStr "")]) = None
      /\ (exists text,
            internal_error_of "[-32602] Invalid params: code is required"
            = TypeError text)
      /\ tt = tt).
Proof.
  destruct (handlers_raise_internal_only answering_llm demo_str demo_exception_str
              demo_hash) as (_ & Hreview & _).
  apply (Hreview (Kwargs [("code", PStr "")]) tt
           (internal_error_of "[-32602] Invalid params: code is required") tt).
  reflexivity.
Defined.

(** A review of the number 5. *)
Lemma review_of_unsized_code_witness :
  ai_review_code answering_llm demo_str
    (Kwargs [("code", PInt 5); ("language", PNone)]) tt
  = (Raise (A2AError (-32603)
              "Internal error: object of type 'int' has no len()" PNone), tt).
Proof.
  apply (review_of_unsized_code answering_llm demo_str (PInt 5) PNone
           "Looks good." tt tt).
  - reflexivity.
  - reflexivity.
  - reflexivity.
Defined.

(** A task for [ping]. *)
Lemma create_task_unknown_method_witness :
  create_task answering_llm demo_str demo_exception_str demo_hash
    (Kwargs [("method", PStr "ping"); ("params", PDict [])]) tt
  = (Raise (A2AError (-32603)
              "Internal error: [-32601] Method not found: ping" PNone), tt).
Proof.
  apply (create_task_unknown_method answering_llm demo_str demo_exception_str
           demo_hash (PStr "ping") (PDict []) tt).
  - discriminate.
  - discriminate.
  - discriminate.
Defined.

(** A chat task that brings its own context. *)
Lemma task_keeps_caller_context_witness :
  create_task answering_llm demo_str demo_exception_str demo_hash
    (Kwargs [("method", PStr "ai.chat");
             ("params", PDict [("message", PStr "hello"); ("context", PStr "mine")])])
    tt
  = (Ok (PDict [("task_id", PStr "task_0");
                ("status", PStr "completed");
                ("result",
                 PDict [("response", PStr "Looks good.");
                        ("context", PStr "mine");
                        ("model", PStr "mistral-small-latest");
                        ("timestamp", PStr "2024-01-01T00:00:00Z")]);
                ("created_at", PStr "2024-01-01T00:00:00Z");
                ("completed_at", PStr "2024-01-01T00:00:00Z")]), tt).
Proof.
  apply (task_keeps_caller_context answering_llm demo_str demo_exception_str
           demo_hash [("message", PStr "hello"); ("context", PStr "mine")]
           "hello" (PStr "mine") padded_chat "  Looks good.  " [] tt tt).
  all: reflexivity.
Defined.

(** [/test-llm] on the service without a client. *)
Lemma test_llm_connection_outcomes_witness :
  HTTPException.status_code
    (service_unavailable
       "503: LLM service unavailable: LLM service is currently unavailable")
  = 503
  /\ exists text,
       HTTPException.detail
         (service_unavailable
            "503: LLM service unavailable: LLM service is currently unavailable")
       = PStr ("LLM service unavailable: " ++ text).
Proof.
  apply (proj2 (@test_llm_connection_outcomes unit demo_str demo_http_exception_str)
           (inl clientless_llm) tt
           (service_unavailable
              "503: LLM service unavailable: LLM service is currently unavailable")
           tt).
  reflexivity.
Defined.
